(** * deluge-siphon: the daemon connection client of [controller_actions.js]

    A shallow embedding of [DelugeConnection], the stateful client that
    authenticates against the Deluge web panel, locates a daemon, fetches the
    server configuration and submits torrents.  The file
    [controller_actions.js] holds two generations of the client: the first
    one (lines 1-1623) and the rewritten one (lines 1624-3082).  They are
    embedded side by side as [Gen1] and [Gen2].

    Promises are embedded as computations over an explicit world (the fields
    of the connection object, the extension storage and the list of requests
    sent to the panel so far).  A computation ends resolved, rejected,
    pending (a promise that nobody ever settles) or out of fuel (the
    request / login recursion of the source has no bound of its own).

    Left out, because they neither read nor write the connection state nor
    talk to the panel: [console.log] / [debugLog], [notify] and the request
    [id] (built from [Date.now()]). *)

From Stdlib Require Import String Ascii List NArith ZArith Bool Lia DecimalString
  Permutation.
Import ListNotations.
Local Open Scope list_scope.
Local Open Scope string_scope.

(** ** JavaScript values and the few built-ins the client relies on *)

(** Values that travel in JSON bodies.  [JObj] lists the own properties in
    enumeration order. *)
#[warnings="-register-all"]
Inductive JSON : Type :=
| JUndefined
| JNull
| JBool (b : bool)
| JNum (n : Z)
| JStr (s : string)
| JArr (items : list JSON)
| JObj (fields : list (string * JSON)).

(** [!!v] *)
Definition truthy (v : JSON) : bool :=
  match v with
  | JUndefined | JNull => false
  | JBool b => b
  | JNum n => negb (n =? 0)%Z
  | JStr s => negb (s =? "")
  | JArr _ | JObj _ => true
  end.

(** A string used as a condition: only [""] is falsy. *)
Definition nonempty (s : string) : bool := negb (s =? "").

(** A nullable string field used as a condition ([null] and [""] are falsy). *)
Definition present (o : option string) : bool :=
  match o with
  | Some s => nonempty s
  | None => false
  end.

Fixpoint assoc (k : string) (fields : list (string * JSON)) : option JSON :=
  match fields with
  | [] => None
  | (k', v) :: rest => if k' =? k then Some v else assoc k rest
  end.

Definition nat_key (i : nat) : string := NilZero.string_of_uint (Nat.to_uint i).

(** [v.k] for a value that is neither [null] nor [undefined]. *)
Definition prop (k : string) (v : JSON) : JSON :=
  match v with
  | JObj fields => match assoc k fields with Some x => x | None => JUndefined end
  | _ => JUndefined
  end.

(** [v[i]]; [None] is the [TypeError] raised on [null] and [undefined]. *)
Definition element (i : nat) (v : JSON) : option JSON :=
  match v with
  | JUndefined | JNull => None
  | JArr items => Some (nth i items JUndefined)
  | JStr s => Some (match String.get i s with
                    | Some c => JStr (String c "")
                    | None => JUndefined
                    end)
  | JObj fields => Some (prop (nat_key i) v)
  | _ => Some JUndefined
  end.

(** [=== true] and [=== 'text'] *)
Definition is_true (v : JSON) : bool :=
  match v with JBool true => true | _ => false end.

Definition is_str (t : string) (v : JSON) : bool :=
  match v with JStr s => s =? t | _ => false end.

(** [Array.isArray] *)
Definition isArray (v : JSON) : bool :=
  match v with JArr _ => true | _ => false end.

(** [typeof v === 'object'] (which holds of [null] too) *)
Definition typeof_object (v : JSON) : bool :=
  match v with JNull | JArr _ | JObj _ => true | _ => false end.

(** [hay.includes(needle)] and [s.startsWith(p)] on strings *)
Fixpoint includes (needle hay : string) : bool :=
  String.prefix needle hay ||
  match hay with
  | EmptyString => false
  | String _ rest => includes needle rest
  end.

Definition startsWith (p s : string) : bool := String.prefix p s.

Definition endsWith (suffix s : string) : bool :=
  let n := String.length s in
  let m := String.length suffix in
  (m <=? n)%nat && (substring (n - m) m s =? suffix).

(** [items.join(sep)] *)
Fixpoint join (sep : string) (items : list string) : string :=
  match items with
  | [] => ""
  | [x] => x
  | x :: rest => x ++ sep ++ join sep rest
  end.

(** [Object.values(v)] for a truthy [v] *)
Definition chars (s : string) : list JSON :=
  map (fun c => JStr (String c "")) (list_ascii_of_string s).

Definition Object_values (v : JSON) : list JSON :=
  match v with
  | JObj fields => map snd fields
  | JArr items => items
  | JStr s => chars s
  | _ => []
  end.

(** [{...v}]: the own enumerable properties of [v] as a fresh object *)
Definition indexed (items : list JSON) : list (string * JSON) :=
  combine (map nat_key (seq 0 (length items))) items.

Definition spread (v : JSON) : JSON :=
  match v with
  | JObj fields => JObj fields
  | JArr items => JObj (indexed items)
  | JStr s => JObj (indexed (chars s))
  | _ => JObj []
  end.

(** *** [encodeURI]

    Strings are Rocq strings: one character per code unit, so the URLs
    covered are those whose code units are below 256 (Latin-1).  [encodeURI]
    keeps the unreserved and the reserved URI characters and writes every
    other code point as the percent-escapes of its UTF-8 bytes; on this
    range it never raises [URIError]. *)
Definition in_range (lo hi : N) (c : ascii) : bool :=
  let n := N_of_ascii c in ((lo <=? n) && (n <=? hi))%N.

Fixpoint mem_char (c : ascii) (s : string) : bool :=
  match s with
  | EmptyString => false
  | String d rest => Ascii.eqb c d || mem_char c rest
  end.

Definition uri_kept (c : ascii) : bool :=
  in_range 48 57 c || in_range 65 90 c || in_range 97 122 c
  || mem_char c ";/?:@&=+$,#" || mem_char c "-_.!~*'()".

Definition hex_digit (n : N) : ascii :=
  if (n <? 10)%N then ascii_of_N (48 + n) else ascii_of_N (55 + n).

Definition percent (byte : N) : string :=
  String "%" (String (hex_digit (byte / 16)) (String (hex_digit (byte mod 16)) "")).

Definition encode_unit (c : ascii) : string :=
  let n := N_of_ascii c in
  if uri_kept c then String c ""
  else if (n <? 128)%N then percent n
  else percent (192 + n / 64) ++ percent (128 + n mod 64).

Fixpoint encodeURI (s : string) : string :=
  match s with
  | EmptyString => ""
  | String c rest => encode_unit c ++ encodeURI rest
  end.

(** ** Errors, requests and the browser platform *)

(** A JavaScript exception value: [name], [message] and the optional [code]
    property the add-torrent path sets and tests. *)
Record Error : Type := mkError {
  err_name : string;
  err_message : string;
  err_code : option Z
}.

Definition Err (msg : string) : Error := mkError "Error" msg None.
Definition TypeError (msg : string) : Error := mkError "TypeError" msg None.

(** The JSON-RPC envelope the panel answers with.  [rpc_error] is the [error]
    member ([None] when it is absent or [null]); its message is [""] when the
    member carries none.  [rpc_status] and [rpc_state] are the [status] and
    [state] members the second generation looks at. *)
Record Payload : Type := mkPayload {
  rpc_result : JSON;
  rpc_error : option string;
  rpc_status : option Z;
  rpc_state : option string
}.

Definition ok_payload (r : JSON) : Payload := mkPayload r None None None.
Definition error_payload (msg : string) : Payload := mkPayload JNull (Some msg) None None.

(** What the client passes to [_request]: [{method, params}]. *)
Record Call : Type := mkCall {
  call_method : string;
  call_params : list JSON
}.

(** One HTTP POST to [<SERVER_URL>/json]. *)
Record Request : Type := mkRequest {
  req_url : string;
  req_cookie : option string;
  req_csrf : option string;
  req_method : string;
  req_params : list JSON
}.

(** How [fetch] can fail without a response. *)
Inductive FetchFailure : Type :=
| NetworkFailure (msg : string)   (* TypeError: failed to fetch *)
| Aborted.                        (* the 20 s AbortController fired *)

Definition failure_error (f : FetchFailure) : Error :=
  match f with
  | NetworkFailure msg => TypeError msg
  | Aborted => mkError "AbortError" "The user aborted a request." (Some 20%Z)
  end.

Inductive FetchOutcome : Type :=
| FetchFailed (f : FetchFailure)
| FetchResponse (status : N) (set_cookie csrf : option string)
                (body : option Payload).  (* [None]: [response.json()] rejects *)

Definition response_ok (status : N) : bool := ((200 <=? status) && (status <=? 299))%N.

Definition status_text (status : N) : string := NilZero.string_of_uint (N.to_uint status).

(** The environment of the extension: URL resolution, [JSON.parse] of the
    stored connection list, and the panel, which answers a request knowing
    every request sent before it. *)
Record Connection : Type := mkConnection { url : string; pass : string }.

Record Platform : Type := mkPlatform {
  URL_json : string -> option string;       (* [new URL('json', base).href]; [None]: it throws *)
  JSON_parse : string -> option (option (list Connection));
     (* [None]: it throws; [Some None]: the text is not an array *)
  fetch : list Request -> Request -> FetchOutcome
}.

(** The value stored under [connections] in [chrome.storage.local]. *)
Inductive StoredConnections : Type :=
| NoConnections                      (* the key is missing *)
| ConnectionsText (text : string)    (* a JSON text *)
| ConnectionsArray (l : list Connection)
| ConnectionsOther (truthy_value : bool).   (* any other value *)

(** ** The world: the connection object, the globals, the storage, the trace *)
Record World : Type := mkWorld {
  state : string;
  daemon_hosts : JSON;
  CONNECT_ATTEMPTS : nat;
  DAEMON_INFO : JSON;
  CONNECTION_INFO : list Connection;
  SERVER_URL : option string;
  SERVER_PASS : option string;
  SESSION_COOKIE : option string;
  CSRF_TOKEN : option string;
  server_config : JSON;
  COOKIES : list (string * string);        (* the global [COOKIES] *)
  connections : StoredConnections;         (* storage *)
  send_cookies : JSON;                     (* storage *)
  trace : list Request                     (* requests sent, oldest first *)
}.

Definition set_state (v : string) (w : World) : World :=
  mkWorld v (daemon_hosts w) (CONNECT_ATTEMPTS w) (DAEMON_INFO w) (CONNECTION_INFO w)
    (SERVER_URL w) (SERVER_PASS w) (SESSION_COOKIE w) (CSRF_TOKEN w) (server_config w)
    (COOKIES w) (connections w) (send_cookies w) (trace w).

Definition set_daemon_hosts (v : JSON) (w : World) : World :=
  mkWorld (state w) v (CONNECT_ATTEMPTS w) (DAEMON_INFO w) (CONNECTION_INFO w)
    (SERVER_URL w) (SERVER_PASS w) (SESSION_COOKIE w) (CSRF_TOKEN w) (server_config w)
    (COOKIES w) (connections w) (send_cookies w) (trace w).

Definition set_CONNECT_ATTEMPTS (v : nat) (w : World) : World :=
  mkWorld (state w) (daemon_hosts w) v (DAEMON_INFO w) (CONNECTION_INFO w)
    (SERVER_URL w) (SERVER_PASS w) (SESSION_COOKIE w) (CSRF_TOKEN w) (server_config w)
    (COOKIES w) (connections w) (send_cookies w) (trace w).

Definition set_DAEMON_INFO (v : JSON) (w : World) : World :=
  mkWorld (state w) (daemon_hosts w) (CONNECT_ATTEMPTS w) v (CONNECTION_INFO w)
    (SERVER_URL w) (SERVER_PASS w) (SESSION_COOKIE w) (CSRF_TOKEN w) (server_config w)
    (COOKIES w) (connections w) (send_cookies w) (trace w).

Definition set_target (info : list Connection) (u p : option string) (w : World) : World :=
  mkWorld (state w) (daemon_hosts w) (CONNECT_ATTEMPTS w) (DAEMON_INFO w) info
    u p (SESSION_COOKIE w) (CSRF_TOKEN w) (server_config w)
    (COOKIES w) (connections w) (send_cookies w) (trace w).

Definition set_tokens (cookie csrf : option string) (w : World) : World :=
  mkWorld (state w) (daemon_hosts w) (CONNECT_ATTEMPTS w) (DAEMON_INFO w) (CONNECTION_INFO w)
    (SERVER_URL w) (SERVER_PASS w) cookie csrf (server_config w)
    (COOKIES w) (connections w) (send_cookies w) (trace w).

Definition set_server_config (v : JSON) (w : World) : World :=
  mkWorld (state w) (daemon_hosts w) (CONNECT_ATTEMPTS w) (DAEMON_INFO w) (CONNECTION_INFO w)
    (SERVER_URL w) (SERVER_PASS w) (SESSION_COOKIE w) (CSRF_TOKEN w) v
    (COOKIES w) (connections w) (send_cookies w) (trace w).

Definition sent (r : Request) (w : World) : World :=
  mkWorld (state w) (daemon_hosts w) (CONNECT_ATTEMPTS w) (DAEMON_INFO w) (CONNECTION_INFO w)
    (SERVER_URL w) (SERVER_PASS w) (SESSION_COOKIE w) (CSRF_TOKEN w) (server_config w)
    (COOKIES w) (connections w) (send_cookies w) (trace w ++ [r]).

(** ** Promises *)
Inductive Outcome (A : Type) : Type :=
| Resolved (a : A)
| Rejected (e : Error)
| Pending        (* never settled: neither callback is ever invoked *)
| OutOfFuel.     (* the recursion went deeper than the fuel given *)

Arguments Resolved {A} a.
Arguments Rejected {A} e.
Arguments Pending {A}.
Arguments OutOfFuel {A}.

Definition Promise (A : Type) : Type := World -> Outcome A * World.

Definition resolve {A} (a : A) : Promise A := fun w => (Resolved a, w).
Definition reject {A} (e : Error) : Promise A := fun w => (Rejected e, w).
Definition pending {A} : Promise A := fun w => (Pending, w).
Definition out_of_fuel {A} : Promise A := fun w => (OutOfFuel, w).

(** [p.then(f)] *)
Definition then_ {A B} (p : Promise A) (f : A -> Promise B) : Promise B :=
  fun w =>
    match p w with
    | (Resolved a, w') => f a w'
    | (Rejected e, w') => (Rejected e, w')
    | (Pending, w') => (Pending, w')
    | (OutOfFuel, w') => (OutOfFuel, w')
    end.

(** [p.catch(h)] *)
Definition catch_ {A} (p : Promise A) (h : Error -> Promise A) : Promise A :=
  fun w =>
    match p w with
    | (Rejected e, w') => h e w'
    | other => other
    end.

(** Synchronous access to the connection object inside a callback. *)
Definition read {A} (f : World -> A) : Promise A := fun w => (Resolved (f w), w).
Definition update (f : World -> World) : Promise unit := fun w => (Resolved tt, f w).

Notation "x <- p ;; q" := (then_ p (fun x => q))
  (at level 61, p at next level, right associativity).
Notation "p ;; q" := (then_ p (fun _ => q))
  (at level 61, right associativity).

(** [fetch(url, options)]: the panel sees the requests sent so far. *)
Definition do_fetch (P : Platform) (r : Request) : Promise FetchOutcome :=
  fun w => (Resolved (fetch P (trace w) r), sent r w).

(** The requests a run has added to the trace. *)
Definition added (w w' : World) : list Request := skipn (length (trace w)) (trace w').

Definition count_method (m : string) (l : list Request) : nat :=
  length (filter (fun r => req_method r =? m) l).

(** [String(v)], as template literals compute it *)
Fixpoint js_String (v : JSON) : string :=
  match v with
  | JUndefined => "undefined"
  | JNull => "null"
  | JBool true => "true"
  | JBool false => "false"
  | JNum n => NilZero.string_of_int (Z.to_int n)
  | JStr s => s
  | JArr items =>
      join "," ((fix each (l : list JSON) : list string :=
                   match l with
                   | [] => []
                   | JUndefined :: rest => "" :: each rest
                   | JNull :: rest => "" :: each rest
                   | x :: rest => js_String x :: each rest
                   end) items)
  | JObj _ => "[object Object]"
  end.

(** A payload handed on as a plain value. *)
Definition payload_value (p : Payload) : JSON :=
  JObj [("result", rpc_result p);
        ("error", match rpc_error p with
                  | Some msg => JObj [("message", JStr msg)]
                  | None => JNull
                  end)].

(** [msg || fallback] *)
Definition or_default (msg fallback : string) : string :=
  if nonempty msg then msg else fallback.

(** The names of the label objects of a LabelPlus answer:
    [.filter(label => typeof label === 'object' && label.name).map(label => label.name)];
    [None] is the [TypeError] of reading [name] off [null]. *)
Fixpoint label_names (labels : list JSON) : option (list JSON) :=
  match labels with
  | [] => Some []
  | label :: rest =>
      if typeof_object label then
        match label with
        | JNull => None
        | _ =>
            match label_names rest with
            | Some names =>
                if truthy (prop "name" label) then Some (prop "name" label :: names)
                else Some names
            | None => None
            end
        end
      else label_names rest
  end.

(** A property name that is an array index: the canonical decimal numeral
    of an integer below 2^32 - 1.  The own properties of an object are
    enumerated with the array indices first, in ascending order, and the
    other names after them in the order of their creation. *)
Definition digit (c : ascii) : option N :=
  let n := N_of_ascii c in
  if ((48 <=? n) && (n <=? 57))%N then Some (n - 48)%N else None.

Fixpoint decimal (acc : N) (s : string) : option N :=
  match s with
  | EmptyString => Some acc
  | String c rest =>
      match digit c with
      | Some d => decimal (10 * acc + d) rest
      | None => None
      end
  end.

Definition array_index (k : string) : option N :=
  match k with
  | EmptyString => None
  | String "0" EmptyString => Some 0%N
  | String "0" _ => None
  | _ =>
      match decimal 0 k with
      | Some n => if (n <? 4294967295)%N then Some n else None
      | None => None
      end
  end.

Definition has_key (k : string) (fields : list (string * JSON)) : bool :=
  match assoc k fields with Some _ => true | None => false end.

(** A property that is created on an object whose own properties are
    [fields]. *)
Fixpoint create_index (i : N) (k : string) (v : JSON) (fields : list (string * JSON))
  : list (string * JSON) :=
  match fields with
  | [] => [(k, v)]
  | (k', v') :: rest =>
      match array_index k' with
      | Some j => if (j <? i)%N then (k', v') :: create_index i k v rest
                  else (k, v) :: fields
      | None => (k, v) :: fields
      end
  end.

Definition create (k : string) (v : JSON) (fields : list (string * JSON))
  : list (string * JSON) :=
  match array_index k with
  | Some i => create_index i k v fields
  | None => (fields ++ [(k, v)])%list
  end.

(** *** The parameter object of an add-torrent call

    [_addTorrentUrlToServer] (lines 1023-1050 and 2493-2521) starts from an
    object literal and copies the options into it.  The object is kept as
    its own properties, in enumeration order, and its prototype:
    [params['__proto__'] = v] creates no property but makes [v] the
    prototype when [v] is an object, an array or [null]. *)
Inductive Prototype : Type :=
| Object_prototype             (* the prototype of an object literal *)
| Null_prototype               (* none *)
| Value_prototype (v : JSON).  (* an object or an array that came with the options *)

Record Params : Type := mkParams {
  properties : list (string * JSON);
  prototype : Prototype
}.

(** An object literal with the given properties. *)
Definition plain (fields : list (string * JSON)) : Params := mkParams fields Object_prototype.

(** [params.hasOwnProperty] is the built-in function when the object has no
    own property of that name and its prototype chain reaches
    [Object.prototype] without meeting one.  The values that come with the
    options are plain objects and arrays. *)
Definition inherits_hasOwnProperty (p : Params) : bool :=
  negb (has_key "hasOwnProperty" (properties p))
  && match prototype p with
     | Object_prototype => true
     | Null_prototype => false
     | Value_prototype (JObj fields) => negb (has_key "hasOwnProperty" fields)
     | Value_prototype _ => true
     end.

(** [params[key] = value] for a [key] that is not an own property.  The name
    [__proto__] reaches the setter of [Object.prototype], unless the chain
    does not lead there or holds a property of that name before it; the
    setter replaces the prototype by an object, an array or [null] and
    ignores every other value.  Any other name becomes an own property. *)
Definition reaches_proto_setter (p : Params) : bool :=
  match prototype p with
  | Object_prototype => true
  | Null_prototype => false
  | Value_prototype (JObj fields) => negb (has_key "__proto__" fields)
  | Value_prototype _ => true
  end.

Definition set_property (key : string) (value : JSON) (p : Params) : Params :=
  if (key =? "__proto__") && reaches_proto_setter p then
    match value with
    | JNull => mkParams (properties p) Null_prototype
    | JArr _ | JObj _ => mkParams (properties p) (Value_prototype value)
    | _ => p
    end
  else mkParams (create key value (properties p)) (prototype p).

(** One round of
    [Object.entries(options).forEach(([key, value]) => { if (!params.hasOwnProperty(key)) params[key] = value; })];
    [None] is the [TypeError] of calling [params.hasOwnProperty] when it is
    not a function, which ends the loop. *)
Definition copy_option (built : option Params) (entry : string * JSON) : option Params :=
  match built with
  | Some p =>
      if inherits_hasOwnProperty p then
        Some (if has_key (fst entry) (properties p) then p
              else set_property (fst entry) (snd entry) p)
      else None
  | None => None
  end.

(** The parameter object built from [options], which are [None] when the
    argument is missing; the result is [None] for the [TypeError]. *)
Definition torrent_params (options : option (list (string * JSON))) : option Params :=
  match options with
  | None => Some (plain [])
  | Some opts =>
      let o := JObj opts in
      let p1 := match prop "add_paused" o with
                | JUndefined => []
                | v => [("add_paused", JBool (truthy v))]
                end in
      let p2 := if truthy (prop "download_location" o)
                then (p1 ++ [("download_location", prop "download_location" o)])%list else p1 in
      let p3 := if truthy (prop "move_completed" o)
                then (p2 ++ [("move_completed", JBool (truthy (prop "move_completed" o)))])%list else p2 in
      let p4 := if truthy (prop "move_completed_path" o)
                then (p3 ++ [("move_completed_path", prop "move_completed_path" o)])%list else p3 in
      fold_left copy_option opts (Some (plain p4))
  end.

Definition not_a_function : Error := TypeError "params.hasOwnProperty is not a function".

(** [obj[k] = v] and [delete obj[k]] *)
Definition assign (k : string) (v : JSON) (fields : list (string * JSON))
  : list (string * JSON) :=
  if has_key k fields
  then map (fun kv => if fst kv =? k then (k, v) else kv) fields
  else (fields ++ [(k, v)])%list.

Definition delete (k : string) (fields : list (string * JSON)) : list (string * JSON) :=
  filter (fun kv => negb (fst kv =? k)) fields.

(** [params.cookie = value] and [params.cookie] on the parameter object: the
    assignment makes or replaces an own property; the read finds the own
    property or else the one of the prototype ([Object.prototype] and
    [Array.prototype] have none of that name). *)
Definition with_cookie (value : JSON) (p : Params) : Params :=
  mkParams (assign "cookie" value (properties p)) (prototype p).

Definition cookie_of (p : Params) : JSON :=
  match assoc "cookie" (properties p) with
  | Some v => v
  | None =>
      match prototype p with
      | Value_prototype v => prop "cookie" v
      | _ => JUndefined
      end
  end.

(** [a === b] on primitive values; two arrays or objects are never the same
    value here (reference identity is not tracked). *)
Definition strict_eq (a b : JSON) : bool :=
  match a, b with
  | JUndefined, JUndefined => true
  | JNull, JNull => true
  | JBool x, JBool y => Bool.eqb x y
  | JNum x, JNum y => (x =? y)%Z
  | JStr x, JStr y => x =? y
  | _, _ => false
  end.

(** [url.startsWith('magnet:') ? url : encodeURI(url)] *)
Definition encodedUrl (url : string) : string :=
  if startsWith "magnet:" url then url else encodeURI url.

(** The URL of the endpoint: [new URL('json', SERVER_URL with a final slash)]. *)
Definition endpoint (P : Platform) (server_url : string) : option string :=
  URL_json P (if endsWith "/" server_url then server_url else server_url ++ "/").

(** The headers [_request] adds from the stored tokens. *)
Definition header (token : option string) : option string :=
  if present token then token else None.

(** A header of the response replaces the stored token when it is not empty. *)
Definition keep_token (received stored : option string) : option string :=
  if present received then received else stored.

Definition store_tokens (set_cookie csrf : option string) (w : World) : World :=
  set_tokens (keep_token set_cookie (SESSION_COOKIE w)) (keep_token csrf (CSRF_TOKEN w)) w.

(** The two tests [_addTorrentViaUrl] makes on the message of an [error]
    member, and the error it throws for the second (both generations). *)
Definition wrong_argument_count (msg : string) : bool :=
  nonempty msg && (includes "takes exactly 3 arguments" msg
                   || includes "takes exactly three arguments" msg).

Definition access_error : Error :=
  mkError "Error"
    "Unable to access torrent - the site may require authentication or cookies"
    (Some 403%Z).

(** ** First generation *)
Module Gen1.

Section Client.
Variable P : Platform.

(** [_initState] (lines 86-149): reads [connections] from the storage.  The
    list ends up empty unless the stored value is an array or a JSON text of
    one. *)
Definition stored_list (c : StoredConnections) : list Connection :=
  match c with
  | NoConnections => []
  | ConnectionsText text =>
      if nonempty text then
        match JSON_parse P text with
        | Some (Some l) => l
        | Some None => []      (* not an array: reset *)
        | None => []           (* parse error *)
        end
      else []
  | ConnectionsArray l => l
  | ConnectionsOther _ => []
  end.

Definition _initState : Promise unit :=
  fun w =>
    let info := stored_list (connections w) in
    match info with
    | c :: _ => (Resolved tt, set_target info (Some (url c)) (Some (pass c)) w)
    | [] => (Resolved tt, set_target info None None w)
    end.

(** [_getSession] (lines 578-593) and [_doLogin] (lines 595-632), over the
    [_request] they call. *)
Definition _getSession_with (request : string -> Call -> bool -> Promise Payload)
  : Promise JSON :=
  payload <- request "getsession" (mkCall "auth.check_session" []) false ;;
  if truthy (rpc_result payload) then resolve (rpc_result payload)
  else reject (Err "Invalid session").

Definition _doLogin_with (request : string -> Call -> bool -> Promise Payload)
  (silent : bool) : Promise JSON :=
  server_pass <- read SERVER_PASS ;;
  match server_pass with
  | Some pw =>
      if nonempty pw then
        payload <- request "dologin" (mkCall "auth.login" [JStr pw]) silent ;;
        if truthy (rpc_result payload) then
          _getSession_with request ;; resolve (rpc_result payload)
        else reject (Err "Login failed - check your Deluge password")
      else reject (Err "No password available")
  | None => reject (Err "No password available")
  end.

(** [_request] (lines 296-447): [fetch(...).then(on_response).then(on_payload)].
    The last [.catch] only notifies and throws the error it caught again, so
    it is the identity here.  [relogin_and_retry] is the re-authentication
    both callbacks end with: forget the tokens, log in, send the call again. *)
Definition relogin_and_retry (request : string -> Call -> bool -> Promise Payload)
  (st : string) (params : Call) (silent : bool) : Promise Payload :=
  update (set_tokens None None) ;;
  _doLogin_with request silent ;;
  request st params silent.

Definition on_response (request : string -> Call -> bool -> Promise Payload)
  (st : string) (params : Call) (silent : bool) (response : FetchOutcome)
  : Promise Payload :=
  match response with
  | FetchFailed f => reject (failure_error f)
  | FetchResponse status set_cookie csrf_token body =>
      update (store_tokens set_cookie csrf_token) ;;
      if negb (response_ok status) then
        if (status =? 403)%N && negb (includes "add_torrent" (call_method params))
        then relogin_and_retry request st params silent
        else reject (Err ("HTTP error! status: " ++ status_text status))
      else
        match body with
        | Some payload => resolve payload
        | None => reject (mkError "SyntaxError" "Unexpected token" None)
        end
  end.

Definition on_payload (request : string -> Call -> bool -> Promise Payload)
  (st : string) (params : Call) (silent : bool) (payload : Payload)
  : Promise Payload :=
  match rpc_error payload with
  | Some msg =>
      if includes "403 Forbidden" msg && includes "add_torrent" (call_method params)
      then reject (Err "Remote server denied access - the site may require authentication")
      else if includes "Not authenticated" msg
      then relogin_and_retry request st params silent
      else reject (Err (or_default msg "Server error"))
  | None => resolve payload
  end.

Fixpoint _request (fuel : nat) (st : string) (params : Call) (silent : bool)
  : Promise Payload :=
  match fuel with
  | O => out_of_fuel
  | S fuel' =>
      update (set_state st) ;;
      server_url <- read SERVER_URL ;;
      if negb (present server_url) then
        _initState ;;
        server_url' <- read SERVER_URL ;;
        if negb (present server_url') then reject (Err "Server URL not available")
        else _request fuel' st params silent
      else
        match endpoint P (match server_url with Some u => u | None => "" end) with
        | None => reject (Err "Invalid server URL")
        | Some href =>
            cookie <- read SESSION_COOKIE ;;
            csrf <- read CSRF_TOKEN ;;
            response <- do_fetch P (mkRequest href (header cookie) (header csrf)
                                      (call_method params) (call_params params)) ;;
            payload <- on_response (_request fuel') st params silent response ;;
            on_payload (_request fuel') st params silent payload
        end
  end.

Definition _getSession (fuel : nat) : Promise JSON := _getSession_with (_request fuel).
Definition _doLogin (fuel : nat) (silent : bool) : Promise JSON :=
  _doLogin_with (_request fuel) silent.

(** [_checkDaemonConnection] (lines 634-650) *)
Definition _checkDaemonConnection (fuel : nat) : Promise JSON :=
  response <- _request fuel "check-daemon" (mkCall "web.connected" []) false ;;
  resolve (JBool (is_true (rpc_result response))).

(** [_getDaemons] (lines 652-668) *)
Definition _getDaemons (fuel : nat) : Promise JSON :=
  payload <- _request fuel "getdaemons" (mkCall "web.get_hosts" []) false ;;
  if truthy (rpc_result payload) then
    update (set_daemon_hosts (rpc_result payload)) ;; resolve (rpc_result payload)
  else
    update (set_daemon_hosts (JArr [])) ;; reject (Err "Failed to get daemons").

(** [_getHostStatus] (lines 670-701): the answer is taken apart with
    [shift()], so it has to be an array. *)
Definition daemon_info_of (items : list JSON) (ip port : JSON) : JSON :=
  let host_id := hd JUndefined items in
  let rest := tl items in
  let moved := (2 <? length rest)%nat in
  let rest' := if moved then skipn 2 rest else rest in
  JObj [("host_id", host_id);
        ("ip", if moved then nth 0 rest JUndefined else ip);
        ("port", if moved then nth 1 rest JUndefined else port);
        ("status", hd JUndefined rest');
        ("version", hd JUndefined (tl rest'))].

Definition _getHostStatus (fuel : nat) (hostId ip port : JSON) : Promise JSON :=
  payload <- _request fuel "gethoststatus" (mkCall "web.get_host_status" [hostId]) false ;;
  if negb (truthy (rpc_result payload)) then reject (Err "Failed to get host status")
  else
    match rpc_result payload with
    | JArr items => resolve (daemon_info_of items ip port)
    | _ => reject (TypeError "payload.result.shift is not a function")
    end.

(** [_startDaemon] (lines 749-765) *)
Definition _startDaemon (fuel : nat) (daemon_info : JSON) : Promise JSON :=
  payload <- _request fuel "startdaemon"
               (mkCall "web.start_daemon" [prop "port" daemon_info]) false ;;
  match rpc_error payload with
  | None => resolve daemon_info
  | Some _ => reject (Err "Failed to start daemon")
  end.

(** [_connectDaemon] (lines 767-811): a host that is not [Online] is polled
    again after five seconds, as long as [CONNECT_ATTEMPTS] is below 5. *)
Fixpoint _connectDaemon (fuel : nat) (daemon_info : JSON) : Promise JSON :=
  match fuel with
  | O => out_of_fuel
  | S fuel' =>
      if is_str "Online" (prop "status" daemon_info) then
        payload <- _request fuel "connectdaemon"
                     (mkCall "web.connect" [prop "host_id" daemon_info]) false ;;
        match rpc_error payload with
        | None => resolve daemon_info
        | Some _ => reject (Err "Failed to connect to daemon")
        end
      else
        attempts <- read CONNECT_ATTEMPTS ;;
        if (5 <=? attempts)%nat then reject (Err "Max connection attempts reached")
        else
          update (set_CONNECT_ATTEMPTS (attempts + 1)) ;;
          info <- _getHostStatus fuel (prop "host_id" daemon_info) JUndefined JUndefined ;;
          _connectDaemon fuel' info
  end.

(** [_getConnectedDaemon] (lines 703-747).  [try_host] is the callback the
    [reduce] chains with [.catch] for one host. *)
Definition try_host (fuel : nat) (daemon_host : JSON) : Promise JSON :=
  match element 0 daemon_host, element 1 daemon_host, element 2 daemon_host with
  | Some hostId, Some ip, Some port =>
      daemon_info <-
        (daemon_info <- _getHostStatus fuel hostId ip port ;;
         let status := prop "status" daemon_info in
         if is_str "Connected" status then resolve daemon_info
         else if is_str "Online" status then _connectDaemon fuel daemon_info
         else if is_str "Offline" status then
           info <- _startDaemon fuel daemon_info ;; _connectDaemon fuel info
         else reject (Err ("Unknown daemon status: " ++ js_String status))) ;;
      update (set_DAEMON_INFO daemon_info) ;;
      update (set_CONNECT_ATTEMPTS 1) ;;
      resolve daemon_info
  | _, _, _ => reject (TypeError "Cannot read properties of null")
  end.

Definition try_hosts (fuel : nat) (hosts : list JSON) : Promise JSON :=
  fold_left (fun promise daemon_host => catch_ promise (fun _ => try_host fuel daemon_host))
    hosts (reject (Err "Starting daemon connection attempts")).

Definition _getConnectedDaemon (fuel : nat) (hosts : JSON) : Promise JSON :=
  cached <- read DAEMON_INFO ;;
  if truthy (prop "host_id" cached) then resolve cached
  else
    match hosts with
    | JArr [] => reject (Err "No daemons available")
    | JArr items => try_hosts fuel items
    | JStr s =>
        if nonempty s then reject (TypeError "daemon_hosts.reduce is not a function")
        else reject (Err "No daemons available")
    | JObj _ =>
        if truthy (prop "length" hosts)
        then reject (TypeError "daemon_hosts.reduce is not a function")
        else reject (Err "No daemons available")
    | _ => reject (Err "No daemons available")
    end.

(** [_getServerConfig] (lines 813-846) *)
Definition _getServerConfig (fuel : nat) : Promise JSON :=
  payload <- _request fuel "getconfig"
               (mkCall "core.get_config_values"
                  [JArr [JStr "allow_remote"; JStr "download_location";
                         JStr "move_completed"; JStr "move_completed_path";
                         JStr "add_paused"]]) false ;;
  update (set_server_config (spread (rpc_result payload))) ;;
  config <- read server_config ;;
  if negb (truthy (prop "allow_remote" config))
  then reject (Err "Remote connections disabled")
  else resolve (JArr [config]).

(** [_connect] (lines 273-294).  [establish_session] is the head of its
    chain, [_getSession().catch(() => _doLogin(silent))]. *)
Definition establish_session (fuel : nat) (silent : bool) : Promise JSON :=
  catch_ (_getSession fuel) (fun _ => _doLogin fuel silent).

Definition _connect (fuel : nat) (silent : bool) : Promise JSON :=
  _initState ;;
  server_url <- read SERVER_URL ;;
  if negb (present server_url)
  then reject (Err "Server URL not set after initialization")
  else
    catch_ (establish_session fuel silent ;; _checkDaemonConnection fuel)
           (fun _ => daemons <- _getDaemons fuel ;; _getConnectedDaemon fuel daemons) ;;
    _getServerConfig fuel.

(** [_getLabelsWithFallbacks] (lines 951-1012) *)
Definition labels_standard (fuel : nat) : Promise JSON :=
  labelPayload <- _request fuel "getlabels-standard" (mkCall "label.get_labels" []) false ;;
  if isArray (rpc_result labelPayload) then resolve (rpc_result labelPayload)
  else
    match rpc_error labelPayload with
    | Some _ => reject (Err "Standard method failed: [object Object]")
    | None => resolve (JArr [])
    end.

Definition labels_fallback1 (fuel : nat) : Promise JSON :=
  altPayload <- _request fuel "getlabels-fallback1"
                  (mkCall "core.get_config_value" [JStr "label_prefs"]) false ;;
  if truthy (rpc_result altPayload) && isArray (prop "labels" (rpc_result altPayload))
  then resolve (prop "labels" (rpc_result altPayload))
  else reject (Err "Fallback 1 failed").

Definition labels_fallback2 (fuel : nat) : Promise JSON :=
  labelPlusPayload <- _request fuel "getlabels-fallback2"
                        (mkCall "labelplus.get_labels" []) false ;;
  if truthy (rpc_result labelPlusPayload) then
    match label_names (Object_values (rpc_result labelPlusPayload)) with
    | Some names => resolve (JArr names)
    | None => reject (TypeError "Cannot read properties of null (reading 'name')")
    end
  else resolve (JArr []).

Definition _getLabelsWithFallbacks (fuel : nat) : Promise JSON :=
  catch_ (catch_ (catch_ (labels_standard fuel)
                         (fun _ => labels_fallback1 fuel))
                 (fun _ => labels_fallback2 fuel))
         (fun _ => resolve (JArr [])).

(** [_addTorrentViaUrl] (lines 1109-1155) *)
Definition _addTorrentViaUrl (fuel : nat) (torrent_url : string)
  (params : list (string * JSON)) : Promise JSON :=
  payload <- _request fuel "addtorrent"
               (mkCall "core.add_torrent_url" [JStr torrent_url; JObj params]) false ;;
  match rpc_error payload with
  | Some msg =>
      if wrong_argument_count msg then
        retried <- _request fuel "addtorrent-v1"
                     (mkCall "core.add_torrent_url"
                        [JStr torrent_url; JObj params; JObj []]) false ;;
        resolve (payload_value retried)
      else if nonempty msg && includes "403 Forbidden" msg then reject access_error
      else reject (Err (or_default msg "Failed to add torrent"))
  | None =>
      match rpc_result payload with
      | JBool false => reject (Err "Server refused torrent")
      | torrentId => resolve torrentId
      end
  end.

(** [_addTorrentUrlToServer] (lines 1015-1107).  The [TypeError] of the
    parameter object is thrown before a promise is returned; the one caller,
    [addTorrent], calls the function in a [then] callback, where the
    exception rejects the chain, and it is a rejection here.  The request
    carries the own properties of the parameter object.  [_downloadTorrent],
    which the 403 branch calls, is defined nowhere: the call throws inside
    the [.catch] callback, and neither [resolve] nor [reject] of the promise
    built here is reached. *)
Definition cookie_header (cookie_domain : option string) (jar : list (string * string))
  : string :=
  match cookie_domain with
  | Some d =>
      if nonempty d then
        match find (fun kv => fst kv =? d) jar with
        | Some (_, c) => c
        | None => ""
        end
      else ""
  | None => ""
  end.

Definition _addTorrentUrlToServer (fuel : nat) (torrent_url : string)
  (options : option (list (string * JSON))) (cookie_domain : option string)
  : Promise JSON :=
  jar <- read COOKIES ;;
  let cookieHeader := cookie_header cookie_domain jar in
  match torrent_params options with
  | None => reject not_a_function
  | Some params =>
      if startsWith "magnet:" torrent_url
      then _addTorrentViaUrl fuel (encodedUrl torrent_url) (properties params)
      else
        setting <- read send_cookies ;;
        let params' :=
          if negb (match setting with JBool false => true | _ => false end)
             && nonempty cookieHeader
          then with_cookie (JStr cookieHeader) params
          else params in
        catch_ (_addTorrentViaUrl fuel (encodedUrl torrent_url) (properties params'))
          (fun error =>
             if match err_code error with Some 403%Z => true | _ => false end
                && nonempty cookieHeader
             then pending
             else reject error)
  end.

End Client.
End Gen1.

(** ** Second generation *)
Module Gen2.

Section Client.
Variable P : Platform.

(** [_initState] (lines 1695-1749) *)
Definition stored_list (c : StoredConnections) : list Connection :=
  match c with
  | ConnectionsText text =>
      match JSON_parse P text with
      | Some (Some l) => l
      | Some None => []
      | None => []
      end
  | ConnectionsArray l => l
  | NoConnections | ConnectionsOther _ => []
  end.

Definition _initState : Promise unit :=
  fun w =>
    let info := stored_list (connections w) in
    match info with
    | c :: _ => (Resolved tt, set_target info (Some (url c)) (Some (pass c)) w)
    | [] => (Resolved tt, set_target info None None w)
    end.

(** [_isAuthError] (lines 2642-2647) *)
Definition _isAuthError (payload : Payload) : bool :=
  match rpc_error payload with
  | Some msg =>
      includes "Not authenticated" msg || includes "Invalid session" msg
      || includes "No session exists" msg
  | None => false
  end.

(** The last [.catch] of [_request]: a timeout becomes a plain [Error]. *)
Definition on_failure (error : Error) : Promise Payload :=
  if err_name error =? "AbortError"
  then reject (Err "Request timed out after 20000ms")
  else reject error.

(** [_request] (lines 1892-2038), [_getSession] (lines 2125-2139) and
    [_doLogin] (lines 2141-2178) call one another.  [_request] is
    [fetch(...).then(on_response).then(on_payload).catch(on_failure)]; in
    the callbacks [session] is [this._getSession()] and [retry] is
    [this._request(state, params, silent)]. *)
Definition on_response (session : Promise JSON) (retry : Promise Payload)
  (params : Call) (response : FetchOutcome) : Promise Payload :=
  match response with
  | FetchFailed f => reject (failure_error f)
  | FetchResponse status set_cookie csrf_token body =>
      update (store_tokens set_cookie csrf_token) ;;
      if negb (response_ok status) then
        if (status =? 403)%N && negb (includes "torrent" (call_method params))
        then session ;; retry
        else reject (Err ("HTTP error! status: " ++ status_text status))
      else
        match body with
        | Some payload => resolve payload
        | None => reject (mkError "SyntaxError" "Unexpected token" None)
        end
  end.

Definition on_payload (session : Promise JSON) (retry : Promise Payload)
  (payload : Payload) : Promise Payload :=
  match rpc_error payload with
  | Some msg => reject (Err (or_default msg "Unknown server error"))
  | None =>
      if match rpc_status payload with Some 403%Z => true | _ => false end
      then reject (Err "Access denied by remote server")
      else if _isAuthError payload
      then session ;; retry
      else
        match rpc_state payload with
        | Some s =>
            if nonempty s then update (set_state s) ;; resolve payload
            else resolve payload
        | None => resolve payload
        end
  end.

Fixpoint _request (fuel : nat) (st : string) (params : Call) (silent : bool)
  : Promise Payload :=
  match fuel with
  | O => out_of_fuel
  | S fuel' =>
      update (set_state st) ;;
      server_url <- read SERVER_URL ;;
      if negb (present server_url) then
        _initState ;;
        server_url' <- read SERVER_URL ;;
        if negb (present server_url') then reject (Err "Server URL not available")
        else _request fuel' st params silent
      else
        match endpoint P (match server_url with Some u => u | None => "" end) with
        | None => reject (Err "Invalid server URL")
        | Some href =>
            cookie <- read SESSION_COOKIE ;;
            csrf <- read CSRF_TOKEN ;;
            catch_
              (response <- do_fetch P (mkRequest href (header cookie) (header csrf)
                                         (call_method params) (call_params params)) ;;
               payload <- on_response (_getSession fuel')
                            (_request fuel' st params silent) params response ;;
               on_payload (_getSession fuel') (_request fuel' st params silent) payload)
              on_failure
        end
  end

with _getSession (fuel : nat) : Promise JSON :=
  match fuel with
  | O => out_of_fuel
  | S fuel' =>
      payload <- _request fuel' "auth.check_session" (mkCall "auth.check_session" []) true ;;
      if is_true (rpc_result payload) then resolve (JBool true)
      else _doLogin fuel' false
  end

with _doLogin (fuel : nat) (silent : bool) : Promise JSON :=
  match fuel with
  | O => out_of_fuel
  | S fuel' =>
      server_pass <- read SERVER_PASS ;;
      match server_pass with
      | Some pw =>
          if nonempty pw then
            payload <- _request fuel' "auth.login" (mkCall "auth.login" [JStr pw]) silent ;;
            if truthy (rpc_result payload) then
              _getSession fuel' ;; resolve (rpc_result payload)
            else reject (Err "Login failed - check your Deluge password")
          else reject (Err "No password available")
      | None => reject (Err "No password available")
      end
  end.

(** [_checkDaemonConnection] (lines 2180-2194) *)
Definition _checkDaemonConnection (fuel : nat) : Promise JSON :=
  response <- _request fuel "web.connected" (mkCall "web.connected" []) false ;;
  resolve (JBool (is_true (rpc_result response))).

(** [_getDaemons] (lines 2196-2207) *)
Definition _getDaemons (fuel : nat) : Promise JSON :=
  payload <- _request fuel "web.get_hosts" (mkCall "web.get_hosts" []) false ;;
  let hosts := if truthy (rpc_result payload) then rpc_result payload else JArr [] in
  update (set_daemon_hosts hosts) ;; resolve hosts.

(** [_getHostStatus] (lines 2209-2232): [const [status, info] = payload.result]
    needs an iterable, and [this.daemon_hosts.find] an array. *)
Fixpoint find_host (hostId : JSON) (hosts : list JSON) : option JSON :=
  match hosts with
  | [] => Some JUndefined
  | h :: rest =>
      match element 0 h with
      | Some id => if strict_eq id hostId then Some h else find_host hostId rest
      | None => None
      end
  end.

Definition destructure (v : JSON) : option (JSON * JSON) :=
  match v with
  | JArr items => Some (nth 0 items JUndefined, nth 1 items JUndefined)
  | JStr s => Some (nth 0 (chars s) JUndefined, nth 1 (chars s) JUndefined)
  | _ => None
  end.

Definition _getHostStatus (fuel : nat) (hostId : JSON) : Promise JSON :=
  payload <- _request fuel "web.get_host_status"
               (mkCall "web.get_host_status" [hostId]) false ;;
  if negb (truthy (rpc_result payload)) then reject (Err "Failed to get host status")
  else
    match destructure (rpc_result payload) with
    | Some (status, info) =>
        known <- read daemon_hosts ;;
        match known with
        | JArr hosts =>
            match find_host hostId hosts with
            | Some host =>
                resolve (JObj [("status", status); ("info", info);
                               ("hostId", hostId); ("host", host)])
            | None => reject (TypeError "Cannot read properties of null (reading '0')")
            end
        | _ => reject (TypeError "this.daemon_hosts.find is not a function")
        end
    | None => reject (TypeError "payload.result is not iterable")
    end.

(** [_connectDaemon] (lines 2295-2308) and [_startDaemon] (lines 2280-2293) *)
Definition _connectDaemon (fuel : nat) (daemon_info : JSON) : Promise JSON :=
  _request fuel "web.connect" (mkCall "web.connect" [prop "hostId" daemon_info]) false ;;
  resolve (JBool true).

Definition _startDaemon (fuel : nat) (daemon_info : JSON) : Promise JSON :=
  _request fuel "web.start_daemon"
    (mkCall "web.start_daemon" [prop "hostId" daemon_info]) false ;;
  _connectDaemon fuel daemon_info.

(** [_getConnectedDaemon] (lines 2234-2278) *)
Definition try_host (fuel : nat) (daemon_host : JSON) : Promise JSON :=
  match element 0 daemon_host with
  | Some hostId =>
      daemon_info <-
        (daemon_info <- _getHostStatus fuel hostId ;;
         let status := prop "status" daemon_info in
         if is_str "Connected" status then resolve daemon_info
         else if is_str "Online" status then _connectDaemon fuel daemon_info
         else if is_str "Offline" status then
           info <- _startDaemon fuel daemon_info ;; _connectDaemon fuel info
         else reject (Err ("Unknown daemon status: " ++ js_String status))) ;;
      update (set_DAEMON_INFO daemon_info) ;;
      update (set_CONNECT_ATTEMPTS 1) ;;
      resolve daemon_info
  | None => reject (TypeError "Cannot read properties of null")
  end.

Definition try_hosts (fuel : nat) (hosts : list JSON) : Promise JSON :=
  fold_left (fun promise daemon_host => catch_ promise (fun _ => try_host fuel daemon_host))
    hosts (reject (Err "Starting daemon connection attempts")).

Definition _getConnectedDaemon (fuel : nat) (hosts : JSON) : Promise JSON :=
  cached <- read DAEMON_INFO ;;
  if truthy (prop "host_id" cached) then resolve cached
  else
    match hosts with
    | JArr [] => reject (Err "No daemons available")
    | JArr items => try_hosts fuel items
    | JStr s =>
        if nonempty s then reject (TypeError "daemon_hosts.reduce is not a function")
        else reject (Err "No daemons available")
    | JObj _ =>
        if truthy (prop "length" hosts)
        then reject (TypeError "daemon_hosts.reduce is not a function")
        else reject (Err "No daemons available")
    | _ => reject (Err "No daemons available")
    end.

(** [_getServerConfig] (lines 2310-2331) *)
Definition _getServerConfig (fuel : nat) : Promise JSON :=
  catch_
    (payload <- _request fuel "core.get_config" (mkCall "core.get_config" []) false ;;
     if negb (truthy (rpc_result payload)) then reject (Err "No config result")
     else
       update (set_server_config (rpc_result payload)) ;;
       resolve (rpc_result payload))
    (fun error =>
       if err_message error =? "Access denied by remote server"
       then reject (Err "Remote connections are not enabled on your Deluge server")
       else reject error).

(** [_connect] (lines 1869-1890) *)
Definition establish_session (fuel : nat) (silent : bool) : Promise JSON :=
  catch_ (_getSession fuel) (fun _ => _doLogin fuel silent).

Definition _connect (fuel : nat) (silent : bool) : Promise JSON :=
  _initState ;;
  server_url <- read SERVER_URL ;;
  if negb (present server_url)
  then reject (Err "Server URL not set after initialization")
  else
    catch_ (establish_session fuel silent ;; _checkDaemonConnection fuel)
           (fun _ => daemons <- _getDaemons fuel ;; _getConnectedDaemon fuel daemons) ;;
    _getServerConfig fuel.

(** [_getLabelsWithFallbacks] (lines 2432-2487) *)
Definition labels_standard (fuel : nat) : Promise JSON :=
  labelPayload <- _request fuel "label.get_labels" (mkCall "label.get_labels" []) false ;;
  if isArray (rpc_result labelPayload) then resolve (rpc_result labelPayload)
  else
    match rpc_error labelPayload with
    | Some _ => reject (Err "Standard method failed: [object Object]")
    | None => resolve (JArr [])
    end.

Definition labels_fallback1 (fuel : nat) : Promise JSON :=
  altPayload <- _request fuel "label.get_config" (mkCall "label.get_config" []) false ;;
  if truthy (rpc_result altPayload) && isArray (prop "labels" (rpc_result altPayload))
  then resolve (prop "labels" (rpc_result altPayload))
  else reject (Err "Fallback 1 failed").

Definition labels_fallback2 (fuel : nat) : Promise JSON :=
  labelPlusPayload <- _request fuel "labelplus.get_labels"
                        (mkCall "labelplus.get_labels" []) false ;;
  if truthy (rpc_result labelPlusPayload) then
    match label_names (Object_values (rpc_result labelPlusPayload)) with
    | Some names => resolve (JArr names)
    | None => reject (TypeError "Cannot read properties of null (reading 'name')")
    end
  else resolve (JArr []).

Definition _getLabelsWithFallbacks (fuel : nat) : Promise JSON :=
  catch_ (catch_ (catch_ (labels_standard fuel)
                         (fun _ => labels_fallback1 fuel))
                 (fun _ => labels_fallback2 fuel))
         (fun _ => resolve (JArr [])).

(** [_addTorrentViaUrl] (lines 2556-2609): a [cookie] parameter moves to the
    headers object sent as third argument.  [params.cookie] is read through
    the prototype of the parameter object, [delete] removes an own property,
    and the request carries the own properties. *)
Definition _addTorrentViaUrl (fuel : nat) (torrent_url : string)
  (params : Params) : Promise JSON :=
  let sends := truthy (cookie_of params) in
  let headers := if sends then [("Cookie", cookie_of params)] else [] in
  let params' := if sends then delete "cookie" (properties params) else properties params in
  payload <- _request fuel "core.add_torrent_url"
               (mkCall "core.add_torrent_url"
                  [JStr torrent_url; JObj params'; JObj headers]) false ;;
  match rpc_error payload with
  | Some msg =>
      if wrong_argument_count msg then
        retried <- _request fuel "core.add_torrent_url"
                     (mkCall "core.add_torrent_url"
                        [JStr torrent_url; JObj params'; JObj []]) false ;;
        resolve (payload_value retried)
      else if nonempty msg && includes "403 Forbidden" msg then reject access_error
      else reject (Err (or_default msg "Failed to add torrent"))
  | None =>
      match rpc_result payload with
      | JBool false => reject (Err "Server refused torrent")
      | torrentId => resolve torrentId
      end
  end.

(** [_addTorrentUrlToServer] (lines 2490-2554).  The [TypeError] of the
    parameter object is thrown before a promise is returned; the one caller,
    [addTorrent], calls the function in a [then] callback, where the
    exception rejects the chain, and it is a rejection here.  The storage
    callback does something only under [send_cookies !== false];
    [Object.entries] of a missing cookie map throws inside that callback.
    Either way the promise built by [new Promise] is then left alone. *)
Definition cookie_string (cookies : list (string * JSON)) : string :=
  join "; " (map (fun kv => fst kv ++ "=" ++ js_String (snd kv)) cookies).

Definition _addTorrentUrlToServer (fuel : nat) (torrent_url : string)
  (options : option (list (string * JSON))) (cookies : option (list (string * JSON)))
  : Promise JSON :=
  match torrent_params options with
  | None => reject not_a_function
  | Some params =>
      if startsWith "magnet:" torrent_url
      then _addTorrentViaUrl fuel (encodedUrl torrent_url) params
      else
        setting <- read send_cookies ;;
        match setting with
        | JBool false => pending
        | _ =>
            match cookies with
            | None => pending
            | Some jar =>
                let cookieString := cookie_string jar in
                let params' := if nonempty cookieString
                               then with_cookie (JStr cookieString) params
                               else params in
                _addTorrentViaUrl fuel (encodedUrl torrent_url) params'
            end
        end
  end.

(** [_processPluginOptions] (lines 2612-2639) *)
Definition _processPluginOptions (fuel : nat) (torrent_url : string)
  (plugins : option (list (string * JSON))) (torrentId : JSON) : Promise unit :=
  match plugins with
  | None => resolve tt
  | Some plugin_options =>
      if negb (truthy torrentId) then resolve tt
      else if truthy (prop "Label" (JObj plugin_options)) then
        catch_ (_request fuel "label.set_torrent"
                  (mkCall "label.set_torrent"
                     [torrentId; prop "Label" (JObj plugin_options)]) false ;;
                resolve tt)
               (fun _ => resolve tt)
      else resolve tt
  end.

(** [addTorrent] (lines 1769-1825); its last [.catch] notifies and throws
    the error again. *)
Definition addTorrent (fuel : nat) (torrent_url : string)
  (cookies plugins options : option (list (string * JSON))) : Promise JSON :=
  server_url <- read SERVER_URL ;;
  if negb (present server_url)
  then reject (Err "SERVER_URL is not set. Please configure it in the options.")
  else
    _connect fuel false ;;
    torrentId <- _addTorrentUrlToServer fuel torrent_url options cookies ;;
    match plugins with
    | Some (_ :: _) =>
        _processPluginOptions fuel torrent_url plugins torrentId ;; resolve torrentId
    | _ => resolve torrentId
    end.

End Client.
End Gen2.

(** ** Describing runs and panels *)

(** The request [_request] sends for [call] from the world [w] (the same in
    both generations), if the server URL is set and resolves. *)
Definition outgoing (P : Platform) (call : Call) (w : World) : option Request :=
  match SERVER_URL w with
  | Some u =>
      if nonempty u then
        match endpoint P u with
        | Some href =>
            Some (mkRequest href (header (SESSION_COOKIE w)) (header (CSRF_TOKEN w))
                    (call_method call) (call_params call))
        | None => None
        end
      else None
  | None => None
  end.

(** The client has a server URL that resolves to an endpoint. *)
Definition ready (P : Platform) (w : World) : Prop :=
  exists u href, SERVER_URL w = Some u /\ nonempty u = true /\ endpoint P u = Some href.

(** [w'] differs from [w] at most in [state], the two tokens and the trace. *)
Record unchanged (w w' : World) : Prop := mkUnchanged {
  same_url : SERVER_URL w' = SERVER_URL w;
  same_pass : SERVER_PASS w' = SERVER_PASS w;
  same_info : CONNECTION_INFO w' = CONNECTION_INFO w;
  same_attempts : CONNECT_ATTEMPTS w' = CONNECT_ATTEMPTS w;
  same_daemon : DAEMON_INFO w' = DAEMON_INFO w;
  same_hosts : daemon_hosts w' = daemon_hosts w;
  same_config : server_config w' = server_config w;
  same_jar : COOKIES w' = COOKIES w;
  same_connections : connections w' = connections w;
  same_send_cookies : send_cookies w' = send_cookies w
}.

(** A 2xx response whose body is the payload [p]. *)
Definition answered (o : FetchOutcome) (p : Payload) : Prop :=
  exists status set_cookie csrf,
    o = FetchResponse status set_cookie csrf (Some p) /\ response_ok status = true.

(** A payload without an [error] member (and without [status: 403]). *)
Definition clean (p : Payload) : Prop :=
  rpc_error p = None /\ rpc_status p <> Some 403%Z.

(** The panel answers every request of method [m] sent after a history that
    satisfies [when] with a clean payload whose result satisfies [good]. *)
Definition serves (P : Platform) (m : string) (when : list Request -> Prop)
  (good : JSON -> Prop) : Prop :=
  forall h r, req_method r = m -> when h ->
    exists p, answered (fetch P h r) p /\ clean p /\ good (rpc_result p).

Definition always (h : list Request) : Prop := True.

(** What a response leaves in the token fields. *)
Definition received (o : FetchOutcome) (w : World) : World :=
  match o with
  | FetchResponse _ set_cookie csrf _ => store_tokens set_cookie csrf w
  | FetchFailed _ => w
  end.

(** The answers to a call of method [m] after which the first generation
    re-authenticates: HTTP 403 unless [m] contains [add_torrent], or a 2xx
    body whose error message contains [Not authenticated] (and is not the
    403 of an add-torrent call). *)
Definition gen1_auth_expired (m : string) (o : FetchOutcome) : bool :=
  match o with
  | FetchFailed _ => false
  | FetchResponse status _ _ body =>
      if negb (response_ok status)
      then (status =? 403)%N && negb (includes "add_torrent" m)
      else
        match body with
        | Some p =>
            match rpc_error p with
            | Some msg =>
                negb (includes "403 Forbidden" msg && includes "add_torrent" m)
                && includes "Not authenticated" msg
            | None => false
            end
        | None => false
        end
  end.

(** The same for the second generation: HTTP 403 unless [m] contains
    [torrent].  (A payload with an [error] member is rejected before
    [_isAuthError] is asked.) *)
Definition gen2_auth_expired (m : string) (o : FetchOutcome) : bool :=
  match o with
  | FetchFailed _ => false
  | FetchResponse status _ _ _ =>
      negb (response_ok status) && (status =? 403)%N && negb (includes "torrent" m)
  end.

(** The panel answers the first [k] sendings of method [m] with an expired
    session (as [expired] classifies answers) and every later one with a
    clean payload. *)
Definition expires_first (P : Platform) (expired : string -> FetchOutcome -> bool)
  (m : string) (k : nat) : Prop :=
  (forall h r, req_method r = m -> count_method m h < k ->
     expired m (fetch P h r) = true)
  /\ serves P m (fun h => k <= count_method m h) (fun _ => True).

Definition is_truthy (v : JSON) : Prop := truthy v = true.
Definition is_exactly_true (v : JSON) : Prop := v = JBool true.

(** What [on_payload] of the second generation leaves behind a clean
    payload: a [state] member is copied into the connection object. *)
Definition settled (p : Payload) (w : World) : World :=
  match rpc_state p with
  | Some s => if nonempty s then set_state s w else w
  | None => w
  end.




(** The locator as the specification words it: the hosts are tried one
    after the other, in list order, and the first attempt that does not fail
    ends the search; [last] is the error of the latest failure. *)
Fixpoint first_success (attempt : JSON -> Promise JSON) (last : Error)
  (hosts : list JSON) : Promise JSON :=
  fun w =>
    match hosts with
    | [] => (Rejected last, w)
    | host :: rest =>
        match attempt host w with
        | (Rejected e, w') => first_success attempt e rest w'
        | other => other
        end
    end.

(** The method and parameters of the requests a run has sent. *)
Definition calls (w w' : World) : list (string * list JSON) :=
  map (fun r => (req_method r, req_params r)) (added w w').

Definition is_exactly_false (v : JSON) : Prop := v = JBool false.

(** Histories before and after the first login. *)
Definition not_logged_in (h : list Request) : Prop := count_method "auth.login" h = 0.
Definition logged_in (h : list Request) : Prop := 0 < count_method "auth.login" h.

Definition is_falsy (v : JSON) : Prop := truthy v = false.
Definition is_not_true (v : JSON) : Prop := is_true v = false.

(** Results of the label calls. *)
Definition array_of (labels : list JSON) (v : JSON) : Prop := v = JArr labels.

(** The panel answers every request of method [m] with a 2xx payload whose
    [error] member carries the message [msg]. *)
Definition fails_with (P : Platform) (m msg : string) : Prop :=
  forall h r, req_method r = m ->
    exists p, answered (fetch P h r) p /\ rpc_error p = Some msg.

(** The panel answers the requests of method [m] with parameters [ps] sent
    after a history that satisfies [when] with a clean payload whose result
    satisfies [good]. *)
Definition answers (P : Platform) (m : string) (ps : list JSON)
  (when : list Request -> Prop) (good : JSON -> Prop) : Prop :=
  forall h r, req_method r = m -> req_params r = ps -> when h ->
    exists p, answered (fetch P h r) p /\ clean p /\ good (rpc_result p).

Definition anything (v : JSON) : Prop := True.

(** Answers to [web.get_host_status] that report the host [id] in the state
    [s], in the two layouts the comments of [_getHostStatus] (lines 684-685)
    give: [[host_id, status, version]] and
    [[host_id, ip, port, status, version]]. *)
Definition gen1_status (id : JSON) (s : string) (v : JSON) : Prop :=
  (exists version, v = JArr [id; JStr s; version])
  \/ (exists ip port version, v = JArr [id; ip; port; JStr s; version]).

Definition never_started (h : list Request) : Prop := count_method "web.start_daemon" h = 0.
Definition started (h : list Request) : Prop := 0 < count_method "web.start_daemon" h.

(** A run adopts the host [id]: it resolves with the daemon information of
    that host, which is stored in [DAEMON_INFO], and exactly the calls
    [sent_calls] went to the panel. *)
Definition adopts_host (id : JSON) (run : Outcome JSON * World) (w : World)
  (sent_calls : list (string * list JSON)) : Prop :=
  exists info w', run = (Resolved info, w') /\ DAEMON_INFO w' = info
                  /\ prop "host_id" info = id
                  /\ calls w w' = sent_calls.

(** A run gives a host up with the error message [msg], after the calls
    [sent_calls]; the server URL and the stored daemon are as before, so the
    next host can be tried. *)
Definition gives_up (msg : string) (run : Outcome JSON * World) (w : World)
  (sent_calls : list (string * list JSON)) : Prop :=
  exists w', run = (Rejected (Err msg), w') /\ calls w w' = sent_calls
             /\ SERVER_URL w' = SERVER_URL w /\ DAEMON_INFO w' = DAEMON_INFO w.

(** No daemon is cached in the connection object. *)
Definition no_daemon (w : World) : Prop := truthy (prop "host_id" (DAEMON_INFO w)) = false.

(** The daemon information the first generation builds from a status
    answer, and the world after adopting a daemon. *)
Definition gen1_info (id ip port : JSON) (s : string) (version : JSON) : JSON :=
  JObj [("host_id", id); ("ip", ip); ("port", port); ("status", JStr s);
        ("version", version)].

Definition adopted (info : JSON) (w : World) : World :=
  set_CONNECT_ATTEMPTS 1 (set_DAEMON_INFO info w).

(** The host list stored by [_getDaemons] knows the host [id]. *)
Definition knows_host (id : JSON) (w : World) : Prop :=
  exists hosts host, daemon_hosts w = JArr hosts /\ Gen2.find_host id hosts = Some host.

(** A promise that sends only requests satisfying [Q], whatever the panel
    answers and however it settles. *)
Definition sends_only {A} (Q : Request -> Prop) (p : Promise A) : Prop :=
  forall w, exists new, trace (snd (p w)) = (trace w ++ new)%list /\ Forall Q new.

(** The requests one [_request] may send: the call itself, and the login and
    session-check calls of a re-authentication. *)
Definition is_auth (r : Request) : Prop :=
  req_method r = "auth.login" \/ req_method r = "auth.check_session".

Definition of_call (c : Call) (r : Request) : Prop :=
  (req_method r = call_method c /\ req_params r = call_params c) \/ is_auth r.

(** The parameter object can be built from the options: the copying loop
    ends without its [TypeError]. *)
Definition builds (options : option (list (string * JSON))) : Prop :=
  exists params, torrent_params options = Some params.



Definition is_auth_method (m : string) : Prop :=
  m = "auth.login" \/ m = "auth.check_session".

(** A promise that leaves the extension storage as it found it. *)
Definition keeps_storage {A} (p : Promise A) : Prop :=
  forall w, send_cookies (snd (p w)) = send_cookies w
            /\ connections (snd (p w)) = connections w.

(** A promise whose rejections all satisfy [Q]. *)
Definition rejects_only {A} (Q : Error -> Prop) (p : Promise A) : Prop :=
  forall w e w', p w = (Rejected e, w') -> Q e.


(** An add-torrent request carries the parameters [ps]. *)
Definition add_calls_carry (ps : list JSON) (r : Request) : Prop :=
  req_method r = "core.add_torrent_url" -> req_params r = ps.

(** ** Sample panels and worlds *)

Definition href_of (base : string) : option string := Some (base ++ "json").
Definition no_text (text : string) : option (option (list Connection)) := None.

Definition panel (answer : list Request -> Request -> FetchOutcome) : Platform :=
  mkPlatform href_of no_text answer.

Definition ok (r : JSON) : FetchOutcome := FetchResponse 200 None None (Some (ok_payload r)).
Definition forbidden : FetchOutcome := FetchResponse 403 None None None.
Definition failed (msg : string) : FetchOutcome :=
  FetchResponse 200 None None (Some (error_payload msg)).

(** A panel that answers by method, whatever was sent before. *)
Definition answering (table : list (string * FetchOutcome)) (otherwise : FetchOutcome)
  : list Request -> Request -> FetchOutcome :=
  fun _ r =>
    match find (fun entry => fst entry =? req_method r) table with
    | Some (_, o) => o
    | None => otherwise
    end.

Definition home : Connection := mkConnection "http://localhost:8112" "deluge".

(** The connection object as the constructor leaves it, with one stored
    connection, and the same after [_initState]. *)
Definition fresh : World :=
  mkWorld "" (JArr []) 0
    (JObj [("status", JStr ""); ("port", JNull); ("ip", JNull); ("host_id", JNull);
           ("version", JNull)])
    [] None None None None (JObj []) [] (ConnectionsArray [home]) JUndefined [].

Definition configured : World :=
  set_target [home] (Some (url home)) (Some (pass home)) fresh.

(** The same with an empty stored list, and with [send_cookies] switched off. *)
Definition unconfigured : World :=
  mkWorld "" (JArr []) 0 (DAEMON_INFO fresh) [] None None None None (JObj []) []
    (ConnectionsArray []) JUndefined [].

Definition without_cookies : World :=
  mkWorld "" (JArr []) 0 (DAEMON_INFO fresh) [home] (Some (url home)) (Some (pass home))
    None None (JObj []) [] (ConnectionsArray [home]) (JBool false) [].

(** [send_cookies] switched off on a connection object that has not read
    its server URL yet. *)
Definition unset_without_cookies : World :=
  mkWorld "" (JArr []) 0 (DAEMON_INFO fresh) [] None None None None (JObj []) []
    (ConnectionsArray [home]) (JBool false) [].

Definition with_cookies : World :=
  mkWorld "" (JArr []) 0 (DAEMON_INFO fresh) [home] (Some (url home)) (Some (pass home))
    None None (JObj []) [("tracker.example", "session=abc; sig=def")]
    (ConnectionsArray [home]) (JBool true) [].

(** A panel whose session is in order. *)
Definition healthy : list (string * FetchOutcome) :=
  [("auth.check_session", ok (JBool true)); ("auth.login", ok (JBool true));
   ("web.connected", ok (JBool true))].

(** The first [k] calls of method [m] meet HTTP 403; logins and session
    checks succeed. *)
Definition flaky (k : nat) (m : string) : Platform :=
  panel (fun h r =>
           if req_method r =? m
           then if (count_method m h <? k)%nat then forbidden else ok (JBool true)
           else answering healthy (ok JNull) h r).

(** Every call meets HTTP 403. *)
Definition locked : Platform := panel (fun _ _ => forbidden).

(** Logins are accepted, but the session check reports a session only
    after [k] logins. *)
Definition stale (k : nat) : Platform :=
  panel (fun h r =>
           if req_method r =? "auth.check_session"
           then ok (JBool (k <=? count_method "auth.login" h)%nat)
           else answering healthy (ok JNull) h r).

(** Two hosts: [h1] is offline and stays so, [h2] is connected. *)
Definition host (id : string) : JSON := JArr [JStr id; JStr "127.0.0.1"; JNum 58846].

Definition two_hosts : Platform :=
  panel (fun h r =>
           if req_method r =? "web.get_host_status" then
             match req_params r with
             | [JStr "h1"] => ok (JArr [JStr "h1"; JStr "Offline"; JStr "2.1.1"])
             | [JStr "h2"] => ok (JArr [JStr "h2"; JStr "Connected"; JStr "2.1.1"])
             | _ => failed "Unknown host"
             end
           else answering healthy (ok JNull) h r).

(** One host in the given state; an offline host is online once it has been
    started.  The answers have the layout [[host_id, status, version]]. *)
Definition one_host (status : string) : Platform :=
  panel (fun h r =>
           if req_method r =? "web.get_host_status" then
             ok (JArr [JStr "h1";
                       JStr (if (status =? "Offline")
                                && (0 <? count_method "web.start_daemon" h)%nat
                             then "Online" else status);
                       JStr "2.1.1"])
           else answering healthy (ok JNull) h r).

(** The same host on a panel of the older series, which reports the address
    of the host as well. *)
Definition legacy_host (status : string) : Platform :=
  panel (fun h r =>
           if req_method r =? "web.get_host_status" then
             ok (JArr [JStr "h1"; JStr "127.0.0.1"; JNum 58846; JStr status; JStr "1.3.5"])
           else answering healthy (ok JNull) h r).

(** A panel that is connected and takes torrents; [config] is its answer to
    both configuration calls. *)
Definition serving (config : JSON) (add : FetchOutcome) : Platform :=
  panel (answering
           (healthy ++ [("core.get_config_values", ok config); ("core.get_config", ok config);
                        ("core.add_torrent_url", add)])
           (ok JNull)).


(** Only the LabelPlus plugin answers the label calls. *)
Definition labelplus_only : Platform :=
  panel (answering
           [("labelplus.get_labels",
             ok (JObj [("1", JObj [("name", JStr "Movies")]);
                       ("2", JObj [("name", JStr "TV")])]))]
           (failed "Unknown method")).

(** No label call is answered. *)
Definition no_labels : Platform := panel (answering [] (failed "Unknown method")).

(** The session check never confirms a session. *)
Definition unconfirmed : Platform :=
  panel (fun h r =>
           if req_method r =? "auth.check_session" then ok (JBool false)
           else answering healthy (ok JNull) h r).

(** The configured client after [_getDaemons] has stored two hosts. *)
Definition listed : World := set_daemon_hosts (JArr [host "h1"; host "h2"]) configured.

(** The server configuration reports [allow_remote] as falsy. *)
Definition remote_disabled (v : JSON) : Prop :=
  truthy (prop "allow_remote" (spread v)) = false.

Definition config_is (cfg : JSON) (v : JSON) : Prop := v = cfg.

(** Panels on which the first, or only the second, label call is answered. *)
Definition label_plugin : Platform :=
  panel (answering [("label.get_labels", ok (JArr [JStr "Movies"; JStr "TV"]))]
           (failed "Unknown method")).

Definition legacy_labels : Platform :=
  panel (answering
           [("core.get_config_value", ok (JObj [("labels", JArr [JStr "Movies"; JStr "TV"])]));
            ("label.get_config", ok (JObj [("labels", JArr [JStr "Movies"; JStr "TV"])]))]
           (failed "Unknown method")).

(** ** The listeners of the background script *)

Module Messages.

(** [s.split(sep)] for a separator of one character: the pieces between the
    separators, at least one. *)
Fixpoint split (sep : ascii) (s : string) : list string :=
  match s with
  | EmptyString => [""]
  | String c rest =>
      if Ascii.eqb c sep then "" :: split sep rest
      else match split sep rest with
           | piece :: pieces => String c piece :: pieces
           | [] => [String c ""]
           end
  end.

(** [hay.indexOf(needle)]; [None] is -1. *)
Fixpoint indexOf (needle hay : string) : option nat :=
  if String.prefix needle hay then Some 0
  else match hay with
       | EmptyString => None
       | String _ rest => option_map S (indexOf needle rest)
       end.

(** [s.substring(n)] *)
Fixpoint substring_from (n : nat) (s : string) : string :=
  match n, s with
  | O, _ => s
  | S n', String _ rest => substring_from n' rest
  | S _, EmptyString => ""
  end.

(** The domain the click listener of the context menu takes from the link
    (lines 1247-1253 and 2707-2713): what follows the first [//], or the
    link without its first character when there is none, up to the next
    [/]. *)
Definition link_domain (torrentUrl : string) : string :=
  let s1 := match indexOf "//" torrentUrl with Some i => i + 2 | None => 1 end in
  let domain := substring_from s1 torrentUrl in
  match indexOf "/" domain with
  | Some s2 => substring 0 s2 domain
  | None => domain
  end.

(** [url.match(/^(magnet:)|((file|(ht|f)tp(s?)):\/\/).+/)] is not [null]
    (lines 1330 and 1554, 2807 and 3009).  The pattern has two alternatives:
    [magnet:] at the start of the string, or, anywhere in it, one of the five
    schemes with [://] and at least one more character that is not a line
    terminator. *)
Definition line_terminator (c : ascii) : bool :=
  Ascii.eqb c "010" || Ascii.eqb c "013".

Definition after (p s : string) : option string :=
  if String.prefix p s then Some (substring_from (String.length p) s) else None.

Definition scheme_here (s : string) : bool :=
  existsb (fun scheme =>
             match after (scheme ++ "://") s with
             | Some (String c _) => negb (line_terminator c)
             | _ => false
             end)
          ["file"; "http"; "https"; "ftp"; "ftps"].

Fixpoint anywhere (here : string -> bool) (s : string) : bool :=
  here s ||
  match s with
  | EmptyString => false
  | String _ rest => anywhere here rest
  end.

Definition url_match (u : string) : bool :=
  startsWith "magnet:" u || anywhere scheme_here u.

(** The branch the message listener takes (lines 1275-1606 and 2753-3068).
    The listener splits [request.method] at the hyphens,
    [const [prefix, ...parts] = request.method.split('-')], and goes through
    its tests in this order. *)
Inductive Route : Type :=
| InvalidMessage                       (* no request, or no method *)
| SettingsChanged
| Notify
| StorageSet (key : string)
| StorageGet (key : string)
| AddLink (addtype : option string)
| Connect
| Plugins (actiontype : option string)
| DefaultLabel                         (* [storage-get-default_label] *)
| TorrentList
| Add (addtype : option string)
| UnknownMethod.

Definition route (method : option string) : Route :=
  match method with
  | None => InvalidMessage
  | Some m =>
      if negb (nonempty m) then InvalidMessage
      else
        let pieces := split "-" m in
        let prefix := hd "" pieces in
        let parts := tl pieces in
        if m =? "settings-changed" then SettingsChanged
        else if m =? "notify" then Notify
        else if prefix =? "storage" then
          let key := join "-" (tl parts) in
          match parts with
          | "set" :: _ => StorageSet key
          | _ => StorageGet key
          end
        else if prefix =? "addlink" then AddLink (hd_error parts)
        else if m =? "connect" then Connect
        else if prefix =? "plugins" then Plugins (hd_error parts)
        else if m =? "storage-get-default_label" then DefaultLabel
        else if m =? "torrent-list" then TorrentList
        else if prefix =? "add" then Add (hd_error parts)
        else UnknownMethod
  end.

(** The answer of the [todeluge:withoptions] branch, from the values the two
    promises of its [Promise.all] resolved with:
    [.then(([plugins, [config]]) => sendResponse({..., config: config || {},
    plugins: plugins || {}}))], and the [.catch] that answers with an empty
    configuration and no plugins.  [[config] = value] needs an iterable
    value: an array or a string; anything else throws the [TypeError] the
    [.catch] takes. *)
Definition first_of (v : JSON) : option JSON :=
  match v with
  | JArr items => Some (hd JUndefined items)
  | JStr s => Some (hd JUndefined (chars s))
  | _ => None
  end.

Definition add_dialog (link domain config plugins : JSON) : JSON :=
  JObj [("method", JStr "add_dialog"); ("url", link); ("domain", domain);
        ("config", config); ("plugins", plugins)].

Definition or_empty_object (v : JSON) : JSON := if truthy v then v else JObj [].

Definition with_options_answer (link domain plugins config_value : JSON) : JSON :=
  match first_of config_value with
  | Some config => add_dialog link domain (or_empty_object config) (or_empty_object plugins)
  | None => add_dialog link domain (JObj []) (JObj [])
  end.

End Messages.

(** ** [retryWithBackoff] (lines 27-61 and 1637-1671)

    [options.maxRetries || 3] and [options.shouldRetry || (() => true)];
    the base and the maximal delay only set the timer that postpones the
    next attempt.  [attempt] is the inner function, [attempts] its counter. *)
Record RetryOptions : Type := mkRetryOptions {
  maxRetries : option Z;
  shouldRetry : option (Error -> bool)
}.

Definition max_retries (options : RetryOptions) : Z :=
  match maxRetries options with
  | Some n => if (n =? 0)%Z then 3%Z else n
  | None => 3%Z
  end.

Definition should_retry (options : RetryOptions) : Error -> bool :=
  match shouldRetry options with
  | Some f => f
  | None => fun _ => true
  end.

Fixpoint attempt {A} (operation : Promise A) (options : RetryOptions)
  (fuel : nat) (attempts : Z) : Promise A :=
  match fuel with
  | O => out_of_fuel
  | S fuel' =>
      let attempts' := (attempts + 1)%Z in
      catch_ operation
        (fun error =>
           if (attempts' <? max_retries options)%Z && should_retry options error
           then attempt operation options fuel' attempts'
           else reject error)
  end.

Definition retryWithBackoff {A} (operation : Promise A) (options : RetryOptions)
  (fuel : nat) : Promise A :=
  attempt operation options fuel 0%Z.

(** ** Plugins, cookies and the public methods *)

(** The plugin names [_getPlugins] reads off a truthy [payload.result]: the
    array itself, or the keys of an object whose values are truthy. *)
Definition enabled_plugins (result : JSON) : list JSON :=
  match result with
  | JArr items => items
  | JObj fields => map (fun kv => JStr (fst kv)) (filter (fun kv => truthy (snd kv)) fields)
  | _ => []
  end.

(** [plugins.includes(name)] *)
Definition lists (plugin : string) (plugins : list JSON) : bool :=
  existsb (is_str plugin) plugins.

(** [v || []] *)
Definition or_empty_array (v : JSON) : JSON := if truthy v then v else JArr [].

(** [COOKIES[cookie_domain] = cookieString] on the global [COOKIES = {}]
    (writing a string to [__proto__] changes nothing). *)
Definition store_cookie (cookie_domain cookieString : string)
  (jar : list (string * string)) : list (string * string) :=
  if cookie_domain =? "__proto__" then jar
  else if existsb (fun kv => fst kv =? cookie_domain) jar
  then map (fun kv => if fst kv =? cookie_domain then (cookie_domain, cookieString) else kv) jar
  else jar ++ [(cookie_domain, cookieString)].

Definition set_COOKIES (f : list (string * string) -> list (string * string)) (w : World)
  : World :=
  mkWorld (state w) (daemon_hosts w) (CONNECT_ATTEMPTS w) (DAEMON_INFO w) (CONNECTION_INFO w)
    (SERVER_URL w) (SERVER_PASS w) (SESSION_COOKIE w) (CSRF_TOKEN w) (server_config w)
    (f (COOKIES w)) (connections w) (send_cookies w) (trace w).

Module Cookies.

(** *** The cookies of a site ([_getDomainCookies], lines 449-576) *)

(** A cookie as [chrome.cookies.getAll] reports it (the fields the code
    reads). *)
Record Cookie : Type := mkCookie { name : string; value : string; domain : string }.

(** [s.replace(/^\./, '')] *)
Definition without_dot (s : string) : string :=
  match s with
  | String "." rest => rest
  | _ => s
  end.

(** [set.add(x)] on a [Set], kept in insertion order *)
Definition add (x : string) (set : list string) : list string :=
  if existsb (String.eqb x) set then set else set ++ [x].

(** The domains the cookies are asked for: the domain as given, with a
    leading dot, and the parent domains above the last two labels. *)
Definition domain_variants (cookie_domain : string) : list string :=
  let cleanCookieDomain := without_dot cookie_domain in
  let domains := [cookie_domain] in
  let domains := if startsWith "." cookie_domain then domains
                 else add ("." ++ cookie_domain) domains in
  let parts := Messages.split "." cleanCookieDomain in
  fold_left (fun domains i =>
               let parentDomain := join "." (skipn i parts) in
               add ("." ++ parentDomain) (add parentDomain domains))
            (seq 1 (length parts - 2)) domains.

(** The filter on the cookies of one query, and the score of a cookie. *)
Definition cookieDomainMatches (cleanCookieDomain : string) (cookie : Cookie) : bool :=
  (without_dot (domain cookie) =? cleanCookieDomain)
  || endsWith ("." ++ without_dot (domain cookie)) cleanCookieDomain.

Definition score (cleanCookieDomain : string) (cookie : Cookie) : N :=
  let d := without_dot (domain cookie) in
  if d =? cleanCookieDomain then 4
  else if domain cookie =? "." ++ cleanCookieDomain then 3
  else if endsWith ("." ++ d) cleanCookieDomain then 2
  else if startsWith "." (domain cookie) && endsWith d cleanCookieDomain then 1
  else 0.

(** [cookiesByName] is a plain object: reading a name that
    [Object.prototype] defines gives the inherited member, which is truthy
    and has no [score], so such a name is never written. *)
Definition inherited (k : string) : bool :=
  existsb (String.eqb k)
    ["constructor"; "hasOwnProperty"; "isPrototypeOf"; "propertyIsEnumerable";
     "toLocaleString"; "toString"; "valueOf"; "__proto__"; "__defineGetter__";
     "__defineSetter__"; "__lookupGetter__"; "__lookupSetter__"].

Fixpoint own {V} (k : string) (fields : list (string * V)) : option V :=
  match fields with
  | [] => None
  | (k', v) :: rest => if k' =? k then Some v else own k rest
  end.

(** The body of the [forEach]: keep the cookie unless the name is taken by
    one that scores as much. *)
Definition collect (cleanCookieDomain : string)
  (cookiesByName : list (string * (Cookie * N))) (cookie : Cookie)
  : list (string * (Cookie * N)) :=
  let s := score cleanCookieDomain cookie in
  match own (name cookie) cookiesByName with
  | Some (_, current) =>
      if (current <? s)%N
      then map (fun kv => if fst kv =? name cookie then (name cookie, (cookie, s)) else kv)
             cookiesByName
      else cookiesByName
  | None =>
      if inherited (name cookie) then cookiesByName
      else cookiesByName ++ [(name cookie, (cookie, s))]
  end.

(** [Object.values] of an object the code has built: the properties whose
    names are array indices come first, in ascending order, the others
    follow in the order of their creation. *)
Fixpoint insert_by_index {V} (i : N) (v : V) (sorted : list (N * V)) : list (N * V) :=
  match sorted with
  | [] => [(i, v)]
  | (j, u) :: rest =>
      if (i <? j)%N then (i, v) :: sorted else (j, u) :: insert_by_index i v rest
  end.

Definition is_index {V} (kv : string * V) : bool :=
  match array_index (fst kv) with Some _ => true | None => false end.

Definition values_in_order {V} (fields : list (string * V)) : list V :=
  let indexed :=
    fold_left (fun sorted kv =>
                 match array_index (fst kv) with
                 | Some i => insert_by_index i (snd kv) sorted
                 | None => sorted
                 end) fields [] in
  let named := filter (fun kv => negb (is_index kv)) fields in
  map snd indexed ++ map snd named.

(** The cookies that make the string, and the string. *)
Definition selected (cleanCookieDomain : string) (cookies : list Cookie) : list Cookie :=
  map fst (values_in_order (fold_left (collect cleanCookieDomain) cookies [])).

Definition cookie_line (cookies : list Cookie) : string :=
  join "; " (map (fun cookie => name cookie ++ "=" ++ value cookie) cookies).

(** The browser as [_getDomainCookies] meets it. *)
Record Browser : Type := mkBrowser {
  hostname : string -> option string;    (* [new URL(url).hostname]; [None]: it throws *)
  getAll : string -> list Cookie         (* [chrome.cookies.getAll({domain})] *)
}.

Definition found (B : Browser) (cookie_domain : string) : list Cookie :=
  concat (map (fun d => filter (cookieDomainMatches (without_dot cookie_domain)) (getAll B d))
            (domain_variants cookie_domain)).

Definition _getDomainCookies (B : Browser) (link : string) (cookie_domain : option string)
  : Promise string :=
  setting <- read send_cookies ;;
  if negb (truthy setting) then resolve ""
  else
    match hostname B link, cookie_domain with
    | Some host, Some d =>
        let cleanCookieDomain := without_dot d in
        if negb (nonempty cleanCookieDomain) || negb (endsWith cleanCookieDomain host)
        then resolve ""
        else
          let cookieString := cookie_line (selected cleanCookieDomain (found B d)) in
          if negb (nonempty cookieString) then resolve ""
          else update (set_COOKIES (store_cookie d cookieString)) ;; resolve cookieString
    | _, _ => resolve ""
    end.

End Cookies.

Module Gen1Actions.

Section Client.
Variable P : Platform.
Variable B : Cookies.Browser.

(** [_getPlugins] (lines 848-948).  The resolved value is also what is
    stored in [this.plugin_info], which nothing reads. *)
Definition empty_labels : JSON := JObj [("Label", JArr [])].

Definition _getPlugins (fuel : nat) : Promise JSON :=
  payload <- Gen1._request P fuel "getplugins" (mkCall "web.get_plugins" []) false ;;
  if negb (truthy (rpc_result payload)) then reject (Err "Failed to get plugins")
  else
    let plugins := enabled_plugins (rpc_result payload) in
    if lists "Label" plugins then
      catch_
        (labelPayload <- Gen1._request P fuel "getlabels" (mkCall "label.get_labels" []) false ;;
         match rpc_error labelPayload with
         | Some _ => reject (Err "Label plugin error")
         | None => resolve (JObj [("Label", or_empty_array (rpc_result labelPayload))])
         end)
        (fun _ =>
           catch_
             (altPayload <- Gen1._request P fuel "getlabels-alt"
                              (mkCall "core.get_config_value" [JStr "label_prefs"]) false ;;
              if truthy (rpc_result altPayload)
                 && isArray (prop "labels" (rpc_result altPayload))
              then resolve (JObj [("Label", prop "labels" (rpc_result altPayload))])
              else resolve empty_labels)
             (fun _ => resolve empty_labels))
    else if lists "label" plugins then
      catch_
        (labelPayload <- Gen1._request P fuel "getlabels-lowercase"
                           (mkCall "label.get_labels" []) false ;;
         match rpc_error labelPayload with
         | Some _ => reject (Err "lowercase label plugin error")
         | None => resolve (JObj [("Label", or_empty_array (rpc_result labelPayload))])
         end)
        (fun _ => resolve empty_labels)
    else resolve (JObj []).

(** [_processPluginOptions] (lines 1158-1185): [Promise.all] of at most one
    promise, which never rejects. *)
Definition _processPluginOptions (fuel : nat) (torrent_url : string)
  (plugins : option (list (string * JSON))) (torrentId : JSON) : Promise unit :=
  match plugins with
  | None => resolve tt
  | Some plugin_options =>
      if negb (truthy torrentId) then resolve tt
      else if truthy (prop "Label" (JObj plugin_options)) then
        catch_ (Gen1._request P fuel "set-torrent-label"
                  (mkCall "label.set_torrent"
                     [torrentId; prop "Label" (JObj plugin_options)]) false ;;
                resolve tt)
               (fun _ => resolve tt)
      else resolve tt
  end.

(** [connectToServer] (lines 152-167) *)
Definition connectToServer (fuel : nat) : Promise JSON :=
  Gen1._initState P ;;
  server_url <- read SERVER_URL ;;
  if negb (present server_url) then reject (Err "Server URL not set")
  else Gen1._connect P fuel false.

(** [getPluginInfo] (lines 248-250) *)
Definition getPluginInfo (fuel : nat) (silent : bool) : Promise JSON :=
  Gen1._connect P fuel silent ;; _getPlugins fuel.

(** [addTorrent] (lines 169-229); its last [.catch] notifies and throws the
    error again. *)
Definition addTorrent (fuel : nat) (torrent_url : string) (cookie_domain : option string)
  (plugins options : option (list (string * JSON))) : Promise JSON :=
  server_url <- read SERVER_URL ;;
  if negb (present server_url)
  then reject (Err "SERVER_URL is not set. Please configure it in the options.")
  else
    Gen1._connect P fuel false ;;
    Cookies._getDomainCookies B torrent_url cookie_domain ;;
    torrentId <- Gen1._addTorrentUrlToServer P fuel torrent_url options cookie_domain ;;
    match plugins with
    | Some (_ :: _) =>
        _processPluginOptions fuel torrent_url plugins torrentId ;; resolve torrentId
    | _ => resolve torrentId
    end.

End Client.
End Gen1Actions.

Module Gen2Actions.

Section Client.
Variable P : Platform.

(** [_getPlugins] (lines 2333-2429) *)
Definition plugin_info (plugins : list JSON) (labels : JSON) : JSON :=
  JObj [("plugins", JArr plugins); ("Label", labels)].

Definition _getPlugins (fuel : nat) : Promise JSON :=
  payload <- Gen2._request P fuel "web.get_plugins" (mkCall "web.get_plugins" []) false ;;
  if negb (truthy (rpc_result payload)) then reject (Err "No plugin data received")
  else
    let plugins := enabled_plugins (rpc_result payload) in
    if lists "Label" plugins then
      catch_
        (first <- Gen2._request P fuel "label.get_labels" (mkCall "label.get_labels" []) false ;;
         labelPayload <-
           (if negb (truthy (rpc_result first))
            then Gen2._request P fuel "label.get_config" (mkCall "label.get_config" []) false
            else resolve first) ;;
         if truthy (rpc_result labelPayload)
         then resolve (plugin_info plugins
                         (or_empty_array (prop "labels" (rpc_result labelPayload))))
         else resolve (plugin_info plugins (JArr [])))
        (fun _ => resolve (plugin_info plugins (JArr [])))
    else if lists "label" plugins then
      catch_
        (labelPayload <- Gen2._request P fuel "label.get_labels"
                           (mkCall "label.get_labels" []) false ;;
         resolve (plugin_info plugins (or_empty_array (rpc_result labelPayload))))
        (fun _ => resolve (plugin_info plugins (JArr [])))
    else resolve (JObj [("plugins", JArr plugins)]).

(** [connectToServer] (lines 1752-1767) *)
Definition connectToServer (fuel : nat) : Promise JSON :=
  Gen2._initState P ;;
  server_url <- read SERVER_URL ;;
  if negb (present server_url) then reject (Err "Server URL not set")
  else Gen2._connect P fuel false.

(** [getPluginInfo] (lines 1844-1846) *)
Definition getPluginInfo (fuel : nat) (silent : bool) : Promise JSON :=
  Gen2._connect P fuel silent ;; _getPlugins fuel.

End Client.
End Gen2Actions.

(** ** Describing the storage and more panels *)

(** The storage holds a list of connections that starts with [c], whose URL
    resolves to an endpoint and whose password is not empty. *)
Definition stored (P : Platform) (c : Connection) (w : World) : Prop :=
  (exists rest, connections w = ConnectionsArray (c :: rest))
  /\ nonempty (url c) = true /\ nonempty (pass c) = true
  /\ exists href, endpoint P (url c) = Some href.

(** The three calls of a connection attempt that finds a valid session. *)
Definition gen1_connect_calls : list (string * list JSON) :=
  [("auth.check_session", []); ("web.connected", []);
   ("core.get_config_values",
    [JArr [JStr "allow_remote"; JStr "download_location"; JStr "move_completed";
           JStr "move_completed_path"; JStr "add_paused"]])].

Definition gen2_connect_calls : list (string * list JSON) :=
  [("auth.check_session", []); ("web.connected", []); ("core.get_config", [])].

(** No error at all (for promises that never reject). *)
Definition never (e : Error) : Prop := False.

(** What [cookiesByName] holds after the cookies [seen] have gone through
    the [forEach]: one entry per name, filed under the name of its cookie
    with the score of that cookie, and for every cookie seen whose name is
    not a member of [Object.prototype] an entry of that name that scores at
    least as much. *)
Definition collected (cleanCookieDomain : string) (seen : list Cookies.Cookie)
  (cookiesByName : list (string * (Cookies.Cookie * N))) : Prop :=
  NoDup (map fst cookiesByName)
  /\ (forall k c s,
        In (k, (c, s)) cookiesByName ->
        k = Cookies.name c /\ s = Cookies.score cleanCookieDomain c /\ In c seen
        /\ Cookies.inherited k = false)
  /\ (forall c,
        In c seen -> Cookies.inherited (Cookies.name c) = false ->
        exists c',
          In (Cookies.name c, (c', Cookies.score cleanCookieDomain c')) cookiesByName
          /\ (Cookies.score cleanCookieDomain c <= Cookies.score cleanCookieDomain c')%N).

(** ** More sample panels *)

(** A panel given by a table of answers, one per method. *)
Definition table (answers : list (string * FetchOutcome)) : Platform :=
  panel (answering answers (ok JNull)).

Definition sample_config : JSON :=
  JObj [("allow_remote", JBool true); ("download_location", JStr "/downloads")].

(** A valid session and no daemon connected. *)
Definition idle : Platform :=
  table [("auth.check_session", ok (JBool true)); ("web.connected", ok (JBool false));
         ("core.get_config_values", ok sample_config); ("core.get_config", ok sample_config)].

(** Nobody is logged in and the password is not taken. *)
Definition closed : Platform :=
  table [("auth.check_session", ok (JBool false)); ("auth.login", ok (JBool false));
         ("web.get_hosts", failed "Not authenticated")].

(** The Label plugin with two labels. *)
Definition labelled : Platform :=
  table [("web.get_plugins", ok (JArr [JStr "AutoAdd"; JStr "Label"]));
         ("label.get_labels", ok (JArr [JStr "Movies"; JStr "TV"]))].

(** Every answer brings a session cookie and a CSRF token. *)
Definition greeting : Platform :=
  panel (fun _ _ => FetchResponse 200 (Some "_session_id=abc") (Some "token")
                      (Some (ok_payload (JBool true)))).

(** No answer in time, and an answer with status 500. *)
Definition silent_panel : Platform := panel (fun _ _ => FetchFailed Aborted).
Definition broken : Platform := panel (fun _ _ => FetchResponse 500 None None None).

Definition to_home (m : string) (ps : list JSON) : Request :=
  mkRequest "http://localhost:8112/json" None None m ps.

(** An operation that sends a request and fails. *)
Definition always_fails : Promise JSON :=
  do_fetch locked (to_home "web.connected" []) ;; reject (Err "down").

(** A browser with two cookies of one name for the site of a tracker. *)
Definition tracker : Cookies.Browser :=
  Cookies.mkBrowser
    (fun _ => Some "tracker.example.com")
    (fun d => if d =? "example.com"
              then [Cookies.mkCookie "sid" "parent" ".example.com"]
              else if d =? "tracker.example.com"
              then [Cookies.mkCookie "sid" "exact" "tracker.example.com";
                    Cookies.mkCookie "uid" "7" "tracker.example.com"]
              else []).

Definition sending : World :=
  mkWorld "" (JArr []) 0 (DAEMON_INFO fresh) [home] (Some (url home)) (Some (pass home))
    None None (JObj []) [] (ConnectionsArray [home]) (JBool true) [].


(** Torrents are taken, labels are not: the Label plugin is listed but its
    calls fail. *)
Definition unlabelled : Platform :=
  table [("auth.check_session", ok (JBool true)); ("web.connected", ok (JBool true));
         ("core.get_config_values", ok sample_config); ("core.get_config", ok sample_config);
         ("core.add_torrent_url", ok (JStr "abc123"));
         ("web.get_plugins", ok (JArr [JStr "Label"]));
         ("label.get_labels", failed "Unknown method");
         ("label.get_config", failed "Unknown method");
         ("core.get_config_value", failed "Unknown method");
         ("label.set_torrent", failed "Unknown method")].

(** * Proofs *)

(** * Runs of promises *)

Lemma then_resolved A B (p : Promise A) (f : A -> Promise B) w a w' :
  p w = (Resolved a, w') -> then_ p f w = f a w'.
Proof. intros H. unfold then_. rewrite H. reflexivity. Qed.

Lemma then_rejected A B (p : Promise A) (f : A -> Promise B) w e w' :
  p w = (Rejected e, w') -> then_ p f w = (Rejected e, w').
Proof. intros H. unfold then_. rewrite H. reflexivity. Qed.

Lemma catch_resolved A (p : Promise A) h w a w' :
  p w = (Resolved a, w') -> catch_ p h w = (Resolved a, w').
Proof. intros H. unfold catch_. rewrite H. reflexivity. Qed.

Lemma catch_rejected A (p : Promise A) h w e w' :
  p w = (Rejected e, w') -> catch_ p h w = h e w'.
Proof. intros H. unfold catch_. rewrite H. reflexivity. Qed.

Lemma then_update A (g : World -> World) (f : unit -> Promise A) w :
  then_ (update g) f w = f tt (g w).
Proof. reflexivity. Qed.

Lemma then_read A B (g : World -> A) (f : A -> Promise B) w :
  then_ (read g) f w = f (g w) w.
Proof. reflexivity. Qed.

Lemma unchanged_refl w : unchanged w w.
Proof. constructor; reflexivity. Qed.

Lemma unchanged_trans w1 w2 w3 : unchanged w1 w2 -> unchanged w2 w3 -> unchanged w1 w3.
Proof. intros [] []; constructor; congruence. Qed.

Lemma ready_unchanged P w w' : unchanged w w' -> ready P w -> ready P w'.
Proof. intros [] (u & href & H1 & H2 & H3). exists u, href. repeat split; congruence. Qed.

Lemma ready_outgoing P call w :
  ready P w -> exists r, outgoing P call w = Some r.
Proof.
  intros (u & href & H1 & H2 & H3). unfold outgoing. rewrite H1, H2, H3.
  eexists; reflexivity.
Qed.

Lemma outgoing_call P call w r :
  outgoing P call w = Some r ->
  req_method r = call_method call /\ req_params r = call_params call.
Proof.
  unfold outgoing. destruct (SERVER_URL w) as [u|]; [|discriminate].
  destruct (nonempty u); [|discriminate].
  destruct (endpoint P u); [|discriminate].
  intros [= <-]. split; reflexivity.
Qed.

Lemma outgoing_ready P call w r : outgoing P call w = Some r -> ready P w.
Proof.
  unfold outgoing, ready. destruct (SERVER_URL w) as [u|]; [|discriminate].
  destruct (nonempty u) eqn:Hn; [|discriminate].
  destruct (endpoint P u) as [href|] eqn:Hh; [|discriminate].
  intros _. exists u, href. auto.
Qed.

(** * First generation: one request *)

Lemma gen1_request_sends P n st call silent w r :
  outgoing P call w = Some r ->
  Gen1._request P (S n) st call silent w
  = (payload <- Gen1.on_response (Gen1._request P n) st call silent (fetch P (trace w) r) ;;
     Gen1.on_payload (Gen1._request P n) st call silent payload) (sent r (set_state st w)).
Proof.
  unfold outgoing. intros Hout.
  destruct (SERVER_URL w) as [u|] eqn:Hu; [|discriminate].
  destruct (nonempty u) eqn:Hn; [|discriminate].
  destruct (endpoint P u) as [href|] eqn:Hh; [|discriminate].
  injection Hout as <-.
  cbn [Gen1._request]. rewrite then_update, then_read.
  cbn [SERVER_URL set_state]. rewrite Hu. cbn [present]. rewrite Hn. cbn [negb].
  rewrite Hh. rewrite !then_read. reflexivity.
Qed.

Lemma gen1_request_resolves P n st call silent w r p :
  outgoing P call w = Some r ->
  answered (fetch P (trace w) r) p -> rpc_error p = None ->
  exists w', Gen1._request P (S n) st call silent w = (Resolved p, w')
    /\ trace w' = (trace w ++ [r])%list /\ unchanged w w'.
Proof.
  intros Hout (status & sc & csrf & Hf & Hok) He.
  rewrite (@gen1_request_sends P n st call silent w r Hout), Hf.
  eexists. split.
  - unfold Gen1.on_response. unfold then_ at 1. rewrite then_update. rewrite Hok.
    cbn [negb]. unfold resolve at 1. unfold Gen1.on_payload. rewrite He. reflexivity.
  - split; [reflexivity | constructor; reflexivity].
Qed.

Lemma then_inv A B (p : Promise A) (f : A -> Promise B) w b w' :
  then_ p f w = (Resolved b, w') ->
  exists a w1, p w = (Resolved a, w1) /\ f a w1 = (Resolved b, w').
Proof.
  unfold then_. destruct (p w) as [[a|e| |] w1]; try discriminate.
  intros H. exists a, w1. auto.
Qed.

Lemma gen1_request_cases P n st call silent w :
  Gen1._request P (S n) st call silent w =
  match outgoing P call w with
  | Some r =>
      (payload <- Gen1.on_response (Gen1._request P n) st call silent (fetch P (trace w) r) ;;
       Gen1.on_payload (Gen1._request P n) st call silent payload) (sent r (set_state st w))
  | None =>
      if present (SERVER_URL w) then (Rejected (Err "Invalid server URL"), set_state st w)
      else (Gen1._initState P ;;
            server_url' <- read SERVER_URL ;;
            if negb (present server_url') then reject (Err "Server URL not available")
            else Gen1._request P n st call silent) (set_state st w)
  end.
Proof.
  destruct (outgoing P call w) as [r|] eqn:Hout.
  - apply gen1_request_sends; assumption.
  - unfold outgoing in Hout. cbn [Gen1._request]. rewrite then_update, then_read.
    cbn [SERVER_URL set_state].
    destruct (SERVER_URL w) as [u|] eqn:Hu; cbn [present] in *.
    + destruct (nonempty u) eqn:Hn; cbn [negb].
      * destruct (endpoint P u); [discriminate|]. reflexivity.
      * reflexivity.
    + reflexivity.
Qed.

Lemma gen1_on_payload_clean (request : string -> Call -> bool -> Promise Payload) :
  (forall st c s w p w', request st c s w = (Resolved p, w') -> rpc_error p = None) ->
  forall st c s payload w p w',
    Gen1.on_payload request st c s payload w = (Resolved p, w') -> rpc_error p = None.
Proof.
  intros Hreq st c s payload w p w'. unfold Gen1.on_payload.
  destruct (rpc_error payload) as [msg|] eqn:He.
  - destruct (_ && _); [discriminate|].
    destruct (includes "Not authenticated" msg); [|discriminate].
    unfold Gen1.relogin_and_retry. intros H.
    apply then_inv in H as (? & ? & _ & H).
    apply then_inv in H as (? & ? & _ & H). eauto.
  - intros [= <- <-]. assumption.
Qed.

Lemma gen1_request_clean P fuel :
  forall st c s w p w',
    Gen1._request P fuel st c s w = (Resolved p, w') -> rpc_error p = None.
Proof.
  induction fuel as [|n IH]; intros st c s w p w'.
  - discriminate.
  - rewrite gen1_request_cases. destruct (outgoing P c w).
    + intros H. apply then_inv in H as (? & ? & _ & H).
      eapply gen1_on_payload_clean; eauto.
    + destruct (present (SERVER_URL w)); [discriminate|].
      intros H. apply then_inv in H as (? & ? & _ & H).
      apply then_inv in H as (? & ? & _ & H).
      destruct (negb _); [discriminate|]. eauto.
Qed.

(** After an answer classified as expired, the call is the re-login and
    retry, run on the world the response leaves. *)
Lemma gen1_request_expired P n st call silent w r :
  outgoing P call w = Some r ->
  gen1_auth_expired (call_method call) (fetch P (trace w) r) = true ->
  Gen1._request P (S n) st call silent w
  = Gen1.relogin_and_retry (Gen1._request P n) st call silent
      (received (fetch P (trace w) r) (sent r (set_state st w))).
Proof.
  intros Hout Hexp. rewrite (@gen1_request_sends P n st call silent w r Hout).
  destruct (fetch P (trace w) r) as [f|status sc csrf body]; [discriminate|].
  cbn [gen1_auth_expired received] in *.
  unfold Gen1.on_response. unfold then_ at 1. unfold then_ at 1. unfold update at 1.
  destruct (negb (response_ok status)) eqn:Hok.
  - rewrite Hexp.
    destruct (Gen1.relogin_and_retry _ _ _ _ _) as [[p| | |] w1] eqn:Hrun; try reflexivity.
    unfold Gen1.on_payload.
    assert (rpc_error p = None) as ->; [|reflexivity].
    unfold Gen1.relogin_and_retry in Hrun.
    apply then_inv in Hrun as (? & ? & _ & H).
    apply then_inv in H as (? & ? & _ & H).
    eapply gen1_request_clean; eauto.
  - destruct body as [p|]; [|discriminate].
    unfold resolve at 1. unfold Gen1.on_payload.
    destruct (rpc_error p) as [msg|]; [|discriminate].
    apply andb_true_iff in Hexp as [H1 H2]. apply negb_true_iff in H1.
    rewrite H1, H2. reflexivity.
Qed.

Lemma count_method_app m l1 l2 :
  count_method m (l1 ++ l2) = count_method m l1 + count_method m l2.
Proof. unfold count_method. rewrite filter_app, length_app. reflexivity. Qed.

Lemma count_method_one m r :
  count_method m [r] = if req_method r =? m then 1 else 0.
Proof. unfold count_method. cbn. destruct (req_method r =? m); reflexivity. Qed.

Lemma count_method_nil m : count_method m [] = 0.
Proof. reflexivity. Qed.

Lemma count_method_cons m r l :
  count_method m (r :: l) = (if req_method r =? m then 1 else 0) + count_method m l.
Proof. unfold count_method. cbn. destruct (req_method r =? m); reflexivity. Qed.

Ltac count_requests :=
  rewrite ?count_method_app, ?count_method_cons, ?count_method_nil;
  repeat match goal with
         | |- context [String.eqb ?a ?b] =>
             destruct (String.eqb_spec a b); try congruence
         end;
  try lia.

Lemma count_method_same m r : req_method r = m -> count_method m [r] = 1.
Proof. intros <-. rewrite count_method_one, String.eqb_refl. reflexivity. Qed.

Lemma count_method_other m r : req_method r <> m -> count_method m [r] = 0.
Proof.
  intros H. rewrite count_method_one.
  destruct (String.eqb_spec (req_method r) m); [contradiction|reflexivity].
Qed.

(** A request the panel serves: one call, resolved. *)
Lemma gen1_request_served P n st call silent w when good :
  ready P w -> serves P (call_method call) when good -> when (trace w) ->
  exists p r w',
    Gen1._request P (S n) st call silent w = (Resolved p, w')
    /\ good (rpc_result p)
    /\ trace w' = (trace w ++ [r])%list /\ req_method r = call_method call
    /\ req_params r = call_params call /\ unchanged w w'.
Proof.
  intros Hready Hserves Hwhen.
  destruct (ready_outgoing P call w Hready) as [r Hout].
  destruct (outgoing_call P call w r Hout) as [Hm Hp].
  destruct (Hserves (trace w) r Hm Hwhen) as (p & Hans & [Hclean _] & Hgood).
  destruct (gen1_request_resolves P n st call silent w r p Hout Hans Hclean) as (w' & Hrun & Htr & Hun).
  exists p, r, w'. auto 10.
Qed.


(** Login on a panel that accepts the password and then confirms the session. *)
Lemma gen1_login_succeeds P n silent w :
  ready P w -> present (SERVER_PASS w) = true ->
  serves P "auth.login" always is_truthy ->
  serves P "auth.check_session" always is_truthy ->
  exists v r1 r2 w',
    Gen1._doLogin_with (Gen1._request P (S n)) silent w = (Resolved v, w')
    /\ trace w' = (trace w ++ [r1; r2])%list
    /\ req_method r1 = "auth.login" /\ req_method r2 = "auth.check_session"
    /\ unchanged w w'.
Proof.
  intros Hready Hpass Hlogin Hprobe.
  unfold Gen1._doLogin_with. rewrite then_read.
  destruct (SERVER_PASS w) as [pw|] eqn:Hpw; [|discriminate].
  cbn [present] in Hpass. rewrite Hpass.
  destruct (gen1_request_served P n "dologin" (mkCall "auth.login" [JStr pw]) silent w
              always is_truthy Hready Hlogin I)
    as (p1 & r1 & w1 & Hrun1 & Hgood1 & Htr1 & Hm1 & _ & Hun1).
  erewrite then_resolved by exact Hrun1. rewrite Hgood1.
  assert (Hready1 : ready P w1) by (eapply ready_unchanged; eauto).
  destruct (gen1_request_served P n "getsession" (mkCall "auth.check_session" []) false w1
              always is_truthy Hready1 Hprobe I)
    as (p2 & r2 & w2 & Hrun2 & Hgood2 & Htr2 & Hm2 & _ & Hun2).
  unfold Gen1._getSession_with.
  erewrite then_resolved.
  2:{ erewrite then_resolved by exact Hrun2. rewrite Hgood2. reflexivity. }
  exists (rpc_result p1), r1, r2, w2. split; [reflexivity|].
  split; [rewrite Htr2, Htr1, <- app_assoc; reflexivity|].
  split; [assumption|]. split; [assumption|].
  eapply unchanged_trans; eauto.
Qed.

Lemma received_unchanged o w : unchanged w (received o w).
Proof. destruct o; constructor; reflexivity. Qed.

Lemma received_trace o w : trace (received o w) = trace w.
Proof. destruct o; reflexivity. Qed.

Lemma unchanged_sent_state r st w : unchanged w (sent r (set_state st w)).
Proof. constructor; reflexivity. Qed.

Lemma unchanged_set_tokens c t w : unchanged w (set_tokens c t w).
Proof. constructor; reflexivity. Qed.

(** The number of re-logins and retries of one call is the number of
    expired answers the panel gives to it. *)
Lemma gen1_rounds P m ps k :
  m <> "auth.login" -> m <> "auth.check_session" ->
  expires_first P gen1_auth_expired m k ->
  serves P "auth.login" always is_truthy ->
  serves P "auth.check_session" always is_truthy ->
  forall j fuel st silent w,
    ready P w -> present (SERVER_PASS w) = true ->
    count_method m (trace w) + j = k -> j < fuel ->
    exists p new w',
      Gen1._request P fuel st (mkCall m ps) silent w = (Resolved p, w')
      /\ trace w' = (trace w ++ new)%list
      /\ count_method m new = j + 1
      /\ count_method "auth.login" new = j
      /\ unchanged w w'.
Proof.
  intros Hm1 Hm2 [Hexp Hok] Hlogin Hprobe.
  induction j as [|j IH]; intros fuel st silent w Hready Hpass Hcount Hfuel.
  - destruct fuel as [|n]; [lia|].
    destruct (gen1_request_served P n st (mkCall m ps) silent w _ _ Hready Hok)
      as (p & r & w' & Hrun & _ & Htr & Hm & _ & Hun); [cbn; lia|].
    exists p, [r], w'. split; [exact Hrun|]. split; [exact Htr|].
    split; [apply count_method_same; exact Hm|].
    split; [apply count_method_other; cbn in Hm; congruence | exact Hun].
  - destruct fuel as [|n]; [lia|].
    destruct (ready_outgoing P (mkCall m ps) w Hready) as [r Hout].
    destruct (outgoing_call P _ w r Hout) as [Hm _]. cbn in Hm.
    rewrite (gen1_request_expired P n st _ silent w r Hout)
      by (apply Hexp; [exact Hm | lia]).
    set (w1 := received (fetch P (trace w) r) (sent r (set_state st w))).
    assert (Hun1 : unchanged w w1).
    { eapply unchanged_trans; [apply unchanged_sent_state | apply received_unchanged]. }
    assert (Htr1 : trace w1 = (trace w ++ [r])%list).
    { unfold w1. rewrite received_trace. reflexivity. }
    unfold Gen1.relogin_and_retry. rewrite then_update.
    set (w2 := set_tokens None None w1).
    assert (Hun2 : unchanged w w2).
    { eapply unchanged_trans; [exact Hun1 | apply unchanged_set_tokens]. }
    destruct n as [|n]; [lia|].
    destruct (gen1_login_succeeds P n silent w2) as (v & r1 & r2 & w3 & Hrun3 & Htr3 & Hr1 & Hr2 & Hun3);
      try assumption.
    { eapply ready_unchanged; eauto. }
    { rewrite (same_pass _ _ Hun2). exact Hpass. }
    erewrite then_resolved by exact Hrun3.
    assert (Hun03 : unchanged w w3) by (eapply unchanged_trans; eauto).
    destruct (IH (S n) st silent w3) as (p & new & w' & Hrun & Htr & Hc1 & Hc2 & Hun).
    { eapply ready_unchanged; eauto. }
    { rewrite (same_pass _ _ Hun03). exact Hpass. }
    { rewrite Htr3. change (trace w2) with (trace w1). rewrite Htr1.
      count_requests. }
    { lia. }
    exists p, (r :: r1 :: r2 :: new)%list, w'. split; [exact Hrun|].
    split.
    { rewrite Htr, Htr3. change (trace w2) with (trace w1). rewrite Htr1.
      rewrite <- !app_assoc. reflexivity. }
    split.
    { count_requests. }
    split.
    { count_requests. }
    eapply unchanged_trans; eauto.
Qed.

(** * Second generation: one request *)

Lemma gen2_request_cases P n st call silent w :
  Gen2._request P (S n) st call silent w =
  match outgoing P call w with
  | Some r =>
      catch_
        (payload <- Gen2.on_response (Gen2._getSession P n)
                      (Gen2._request P n st call silent) call (fetch P (trace w) r) ;;
         Gen2.on_payload (Gen2._getSession P n) (Gen2._request P n st call silent) payload)
        Gen2.on_failure (sent r (set_state st w))
  | None =>
      if present (SERVER_URL w) then (Rejected (Err "Invalid server URL"), set_state st w)
      else (Gen2._initState P ;;
            server_url' <- read SERVER_URL ;;
            if negb (present server_url') then reject (Err "Server URL not available")
            else Gen2._request P n st call silent) (set_state st w)
  end.
Proof.
  unfold outgoing. cbn [Gen2._request]. rewrite then_update, then_read.
  cbn [SERVER_URL set_state].
  destruct (SERVER_URL w) as [u|] eqn:Hu; cbn [present].
  - destruct (nonempty u) eqn:Hn; cbn [negb].
    + destruct (endpoint P u); reflexivity.
    + reflexivity.
  - reflexivity.
Qed.

Lemma catch_inv A (p : Promise A) h w a w' :
  catch_ p h w = (Resolved a, w') ->
  p w = (Resolved a, w') \/ exists e w1, p w = (Rejected e, w1) /\ h e w1 = (Resolved a, w').
Proof.
  unfold catch_. destruct (p w) as [[x|e| |] w1]; intros H; try discriminate.
  - left. exact H.
  - right. exists e, w1. auto.
Qed.

Lemma gen2_on_failure_rejects e w : exists e', Gen2.on_failure e w = (Rejected e', w).
Proof. unfold Gen2.on_failure. destruct (_ =? _); eexists; reflexivity. Qed.

Lemma gen2_on_payload_clean session retry :
  (forall w p w', retry w = (Resolved p, w') -> clean p) ->
  forall payload w p w',
    Gen2.on_payload session retry payload w = (Resolved p, w') -> clean p.
Proof.
  intros Hretry payload w p w'. unfold Gen2.on_payload.
  destruct (rpc_error payload) as [msg|] eqn:He; [discriminate|].
  destruct (rpc_status payload) as [z|] eqn:Hs.
  - destruct (Z.eqb_spec z 403) as [->|Hz]; [discriminate|].
    assert (Hc : clean payload) by (split; [exact He | congruence]).
    replace (match z with 403%Z => true | _ => false end) with false.
    2:{ destruct z as [|q|q]; try reflexivity.
        repeat (destruct q as [q|q|]; try reflexivity). contradiction. }
    unfold Gen2._isAuthError. rewrite He.
    destruct (rpc_state payload) as [s|]; [destruct (nonempty s)|]; intros [= <- <-]; exact Hc.
  - assert (Hc : clean payload) by (split; [exact He | congruence]).
    unfold Gen2._isAuthError. rewrite He.
    destruct (rpc_state payload) as [s|]; [destruct (nonempty s)|]; intros [= <- <-]; exact Hc.
Qed.

Lemma gen2_request_clean P fuel :
  forall st c s w p w',
    Gen2._request P fuel st c s w = (Resolved p, w') -> clean p.
Proof.
  induction fuel as [|n IH]; intros st c s w p w'.
  - discriminate.
  - rewrite gen2_request_cases. destruct (outgoing P c w).
    + intros H. apply catch_inv in H as [H|(e & w1 & _ & H)].
      * apply then_inv in H as (? & ? & _ & H).
        eapply gen2_on_payload_clean; [|exact H]. intros. eapply IH; eauto.
      * destruct (gen2_on_failure_rejects e w1) as [e' He']. congruence.
    + destruct (present (SERVER_URL w)); [discriminate|].
      intros H. apply then_inv in H as (? & ? & _ & H).
      apply then_inv in H as (? & ? & _ & H).
      destruct (negb _); [discriminate|]. eauto.
Qed.

Lemma settled_unchanged p w : unchanged w (settled p w).
Proof.
  unfold settled. destruct (rpc_state p) as [s|]; [destruct (nonempty s)|];
    constructor; reflexivity.
Qed.

Lemma settled_trace p w : trace (settled p w) = trace w.
Proof.
  unfold settled. destruct (rpc_state p) as [s|]; [destruct (nonempty s)|]; reflexivity.
Qed.

Lemma gen2_on_payload_passes session retry p w :
  clean p -> Gen2.on_payload session retry p w = (Resolved p, settled p w).
Proof.
  intros [He Hs]. unfold Gen2.on_payload, settled. rewrite He.
  replace (match rpc_status p with Some 403%Z => true | _ => false end) with false.
  2:{ destruct (rpc_status p) as [z|]; [|reflexivity].
      destruct z as [|q|q]; try reflexivity.
      repeat (destruct q as [q|q|]; try reflexivity). contradiction. }
  unfold Gen2._isAuthError. rewrite He.
  destruct (rpc_state p) as [s|]; [destruct (nonempty s)|]; reflexivity.
Qed.

Lemma gen2_request_resolves P n st call silent w r p :
  outgoing P call w = Some r ->
  answered (fetch P (trace w) r) p -> clean p ->
  exists w', Gen2._request P (S n) st call silent w = (Resolved p, w')
    /\ trace w' = (trace w ++ [r])%list /\ unchanged w w'.
Proof.
  intros Hout (status & sc & csrf & Hf & Hok) Hc.
  rewrite gen2_request_cases, Hout, Hf.
  eexists. split.
  - unfold catch_. unfold Gen2.on_response. unfold then_ at 1. unfold then_ at 1.
    unfold update at 1. rewrite Hok. cbn [negb]. unfold resolve at 1.
    rewrite gen2_on_payload_passes by exact Hc. reflexivity.
  - split; [rewrite settled_trace; reflexivity|].
    eapply unchanged_trans; [|apply settled_unchanged]. constructor; reflexivity.
Qed.

Lemma gen2_request_served P n st call silent w when good :
  ready P w -> serves P (call_method call) when good -> when (trace w) ->
  exists p r w',
    Gen2._request P (S n) st call silent w = (Resolved p, w')
    /\ good (rpc_result p)
    /\ trace w' = (trace w ++ [r])%list /\ req_method r = call_method call
    /\ req_params r = call_params call /\ unchanged w w'.
Proof.
  intros Hready Hserves Hwhen.
  destruct (ready_outgoing P call w Hready) as [r Hout].
  destruct (outgoing_call P call w r Hout) as [Hm Hp].
  destruct (Hserves (trace w) r Hm Hwhen) as (p & Hans & Hclean & Hgood).
  destruct (gen2_request_resolves P n st call silent w r p Hout Hans Hclean)
    as (w' & Hrun & Htr & Hun).
  exists p, r, w'. auto 10.
Qed.

(** After HTTP 403 on a call that is not a torrent call, the request is the
    session check followed by the retry, run on the world the response
    leaves; what they resolve with is handed on. *)
Lemma gen2_request_expired P n st call silent w r p w2 :
  outgoing P call w = Some r ->
  gen2_auth_expired (call_method call) (fetch P (trace w) r) = true ->
  (Gen2._getSession P n ;; Gen2._request P n st call silent)
    (received (fetch P (trace w) r) (sent r (set_state st w))) = (Resolved p, w2) ->
  Gen2._request P (S n) st call silent w = (Resolved p, settled p w2).
Proof.
  intros Hout Hexp Hrun. rewrite gen2_request_cases, Hout.
  destruct (fetch P (trace w) r) as [f|status sc csrf body]; [discriminate|].
  cbn [gen2_auth_expired received] in *.
  apply andb_true_iff in Hexp as [Hexp H3]. apply andb_true_iff in Hexp as [H1 H2].
  unfold catch_. unfold Gen2.on_response. unfold then_ at 1. unfold then_ at 1.
  unfold update at 1. rewrite H1, H2, H3. cbn [andb].
  rewrite Hrun.
  rewrite gen2_on_payload_passes; [reflexivity|].
  apply then_inv in Hrun as (? & ? & _ & H).
  eapply gen2_request_clean; eauto.
Qed.

Lemma gen2_session_valid P n w :
  ready P w -> serves P "auth.check_session" always is_exactly_true ->
  exists r w',
    Gen2._getSession P (S (S n)) w = (Resolved (JBool true), w')
    /\ trace w' = (trace w ++ [r])%list
    /\ req_method r = "auth.check_session" /\ unchanged w w'.
Proof.
  intros Hready Hprobe.
  destruct (gen2_request_served P n "auth.check_session" (mkCall "auth.check_session" [])
              true w always is_exactly_true Hready Hprobe I)
    as (p & r & w' & Hrun & Hgood & Htr & Hm & _ & Hun).
  exists r, w'. split; [|auto].
  cbn [Gen2._getSession]. erewrite then_resolved by exact Hrun.
  rewrite Hgood. reflexivity.
Qed.

Lemma gen2_rounds P m ps k :
  m <> "auth.login" -> m <> "auth.check_session" ->
  expires_first P gen2_auth_expired m k ->
  serves P "auth.check_session" always is_exactly_true ->
  forall j fuel st silent w,
    ready P w ->
    count_method m (trace w) + j = k -> j + 2 <= fuel ->
    exists p new w',
      Gen2._request P fuel st (mkCall m ps) silent w = (Resolved p, w')
      /\ trace w' = (trace w ++ new)%list
      /\ count_method m new = j + 1
      /\ count_method "auth.check_session" new = j
      /\ count_method "auth.login" new = 0
      /\ unchanged w w'.
Proof.
  intros Hm1 Hm2 [Hexp Hok] Hprobe.
  induction j as [|j IH]; intros fuel st silent w Hready Hcount Hfuel.
  - destruct fuel as [|n]; [lia|].
    destruct (gen2_request_served P n st (mkCall m ps) silent w _ _ Hready Hok)
      as (p & r & w' & Hrun & _ & Htr & Hm & _ & Hun); [cbn; lia|].
    cbn in Hm.
    exists p, [r], w'. split; [exact Hrun|]. split; [exact Htr|].
    split; [count_requests|]. split; [count_requests|]. split; [count_requests|exact Hun].
  - destruct fuel as [|n]; [lia|].
    destruct (ready_outgoing P (mkCall m ps) w Hready) as [r Hout].
    destruct (outgoing_call P _ w r Hout) as [Hm _]. cbn in Hm.
    assert (Hx : gen2_auth_expired m (fetch P (trace w) r) = true)
      by (apply Hexp; [exact Hm | lia]).
    set (w1 := received (fetch P (trace w) r) (sent r (set_state st w))).
    assert (Hun1 : unchanged w w1).
    { eapply unchanged_trans; [apply unchanged_sent_state | apply received_unchanged]. }
    assert (Htr1 : trace w1 = (trace w ++ [r])%list).
    { unfold w1. rewrite received_trace. reflexivity. }
    destruct n as [|[|n]]; try lia.
    destruct (gen2_session_valid P n w1) as (r1 & w2 & Hrun2 & Htr2 & Hr1 & Hun2);
      [eapply ready_unchanged; eauto | assumption |].
    assert (Hun02 : unchanged w w2) by (eapply unchanged_trans; eauto).
    destruct (IH (S (S n)) st silent w2) as (p & new & w' & Hrun & Htr & Hc1 & Hc2 & Hc3 & Hun).
    { eapply ready_unchanged; eauto. }
    { rewrite Htr2, Htr1. count_requests. }
    { lia. }
    exists p, (r :: r1 :: new)%list, (settled p w').
    split.
    { apply (gen2_request_expired P (S (S n)) st (mkCall m ps) silent w r p w' Hout Hx).
      fold w1. erewrite then_resolved by exact Hrun2. exact Hrun. }
    split.
    { rewrite settled_trace, Htr, Htr2, Htr1. rewrite <- !app_assoc. reflexivity. }
    split; [count_requests|]. split; [count_requests|]. split; [count_requests|].
    eapply unchanged_trans; [|apply settled_unchanged].
    eapply unchanged_trans; eauto.
Qed.

Lemma added_app w w' new : trace w' = (trace w ++ new)%list -> added w w' = new.
Proof.
  intros H. unfold added. rewrite H.
  rewrite skipn_app, Nat.sub_diag, skipn_all. reflexivity.
Qed.

Lemma calls_app w w' new :
  trace w' = (trace w ++ new)%list ->
  calls w w' = map (fun r => (req_method r, req_params r)) new.
Proof. intros H. unfold calls. rewrite (added_app w w' new H). reflexivity. Qed.

(** * One request that is refused *)





(** * Establishing a session *)

Lemma gen1_session_one_login P n silent w :
  ready P w -> present (SERVER_PASS w) = true -> not_logged_in (trace w) ->
  serves P "auth.check_session" not_logged_in is_falsy ->
  serves P "auth.login" always is_truthy ->
  serves P "auth.check_session" logged_in is_truthy ->
  exists v w',
    Gen1.establish_session P (S n) silent w = (Resolved v, w')
    /\ map req_method (added w w')
       = ["auth.check_session"; "auth.login"; "auth.check_session"]
    /\ unchanged w w'.
Proof.
  intros Hready Hpass Hnot Hprobe0 Hlogin Hprobe1.
  unfold Gen1.establish_session, Gen1._getSession, Gen1._doLogin.
  destruct (gen1_request_served P n "getsession" (mkCall "auth.check_session" []) false w
              _ _ Hready Hprobe0 Hnot)
    as (p0 & r0 & w0 & Hrun0 & Hgood0 & Htr0 & Hm0 & _ & Hun0).
  erewrite catch_rejected.
  2:{ unfold Gen1._getSession_with. erewrite then_resolved by exact Hrun0.
      rewrite Hgood0. reflexivity. }
  unfold Gen1._doLogin_with. rewrite then_read.
  rewrite (same_pass _ _ Hun0).
  destruct (SERVER_PASS w) as [pw|] eqn:Hpw; [|discriminate].
  cbn [present] in Hpass. rewrite Hpass.
  assert (Hready0 : ready P w0) by (eapply ready_unchanged; eauto).
  destruct (gen1_request_served P n "dologin" (mkCall "auth.login" [JStr pw]) silent w0
              _ _ Hready0 Hlogin I)
    as (p1 & r1 & w1 & Hrun1 & Hgood1 & Htr1 & Hm1 & _ & Hun1).
  erewrite then_resolved by exact Hrun1. rewrite Hgood1.
  assert (Hready1 : ready P w1) by (eapply ready_unchanged; eauto).
  destruct (gen1_request_served P n "getsession" (mkCall "auth.check_session" []) false w1
              _ _ Hready1 Hprobe1)
    as (p2 & r2 & w2 & Hrun2 & Hgood2 & Htr2 & Hm2 & _ & Hun2).
  { unfold logged_in. rewrite Htr1, Htr0. cbn in Hm0, Hm1. count_requests. }
  erewrite then_resolved.
  2:{ unfold Gen1._getSession_with. erewrite then_resolved by exact Hrun2.
      rewrite Hgood2. reflexivity. }
  exists (rpc_result p1), w2. split; [reflexivity|]. split.
  - rewrite (added_app w w2 [r0; r1; r2]).
    + cbn in *. congruence.
    + rewrite Htr2, Htr1, Htr0, <- !app_assoc. reflexivity.
  - eapply unchanged_trans; [|exact Hun2]. eapply unchanged_trans; eauto.
Qed.

Lemma gen2_session_one_login P n silent w :
  ready P w -> present (SERVER_PASS w) = true -> not_logged_in (trace w) ->
  serves P "auth.check_session" not_logged_in is_not_true ->
  serves P "auth.login" always is_truthy ->
  serves P "auth.check_session" logged_in is_exactly_true ->
  exists v w',
    Gen2.establish_session P (S (S (S (S n)))) silent w = (Resolved v, w')
    /\ map req_method (added w w')
       = ["auth.check_session"; "auth.login"; "auth.check_session"]
    /\ unchanged w w'.
Proof.
  intros Hready Hpass Hnot Hprobe0 Hlogin Hprobe1.
  unfold Gen2.establish_session.
  destruct (gen2_request_served P (S (S n)) "auth.check_session"
              (mkCall "auth.check_session" []) true w _ _ Hready Hprobe0 Hnot)
    as (p0 & r0 & w0 & Hrun0 & Hgood0 & Htr0 & Hm0 & _ & Hun0).
  assert (Hready0 : ready P w0) by (eapply ready_unchanged; eauto).
  destruct (SERVER_PASS w) as [pw|] eqn:Hpw; [|discriminate].
  cbn [present] in Hpass.
  destruct (gen2_request_served P (S n) "auth.login" (mkCall "auth.login" [JStr pw]) false w0
              _ _ Hready0 Hlogin I)
    as (p1 & r1 & w1 & Hrun1 & Hgood1 & Htr1 & Hm1 & _ & Hun1).
  assert (Hready1 : ready P w1) by (eapply ready_unchanged; eauto).
  destruct (gen2_request_served P n "auth.check_session"
              (mkCall "auth.check_session" []) true w1 _ _ Hready1 Hprobe1)
    as (p2 & r2 & w2 & Hrun2 & Hgood2 & Htr2 & Hm2 & _ & Hun2).
  { unfold logged_in. rewrite Htr1, Htr0. cbn in Hm0, Hm1. count_requests. }
  exists (rpc_result p1), w2. split.
  - apply catch_resolved.
    cbn [Gen2._getSession]. erewrite then_resolved by exact Hrun0.
    rewrite Hgood0.
    cbn [Gen2._doLogin]. rewrite then_read. rewrite (same_pass _ _ Hun0), Hpw, Hpass.
    erewrite then_resolved by exact Hrun1. rewrite Hgood1.
    erewrite then_resolved; [reflexivity|].
    cbn [Gen2._getSession]. erewrite then_resolved by exact Hrun2.
    rewrite Hgood2. reflexivity.
  - split.
    + rewrite (added_app w w2 [r0; r1; r2]).
      * cbn in *. congruence.
      * rewrite Htr2, Htr1, Htr0, <- !app_assoc. reflexivity.
    + eapply unchanged_trans; [|exact Hun2]. eapply unchanged_trans; eauto.
Qed.

(** * Label discovery *)


Section Gen1Labels.
Variable P : Platform.
Variable n : nat.
Variable w : World.
Hypothesis Hready : ready P w.







End Gen1Labels.

Section Gen2Labels.
Variable P : Platform.
Variable n : nat.
Variable w : World.
Hypothesis Hready : ready P w.







End Gen2Labels.

(** * Adding a torrent *)

Lemma answered_ok o p : answered o p -> exists status sc csrf,
  o = FetchResponse status sc csrf (Some p) /\ negb (response_ok status) = false.
Proof.
  intros (status & sc & csrf & H & Hok). exists status, sc, csrf.
  rewrite Hok. auto.
Qed.

Lemma includes_nonempty needle msg :
  nonempty needle = true -> includes needle msg = true -> nonempty msg = true.
Proof.
  intros Hn. destruct msg; [|reflexivity].
  destruct needle; [discriminate|]. cbn. discriminate.
Qed.

Lemma or_default_nonempty msg fallback : nonempty msg = true -> or_default msg fallback = msg.
Proof. intros H. unfold or_default. rewrite H. reflexivity. Qed.

(** One request answered with an error payload, first generation. *)
Lemma gen1_request_error P n st call silent w msg :
  ready P w -> fails_with P (call_method call) msg ->
  includes "Not authenticated" msg = false ->
  exists r w',
    Gen1._request P (S n) st call silent w
    = (Rejected (Err (if includes "403 Forbidden" msg
                         && includes "add_torrent" (call_method call)
                      then "Remote server denied access - the site may require authentication"
                      else or_default msg "Server error")), w')
    /\ trace w' = (trace w ++ [r])%list /\ req_method r = call_method call
    /\ req_params r = call_params call /\ unchanged w w'.
Proof.
  intros Hready Hfail Hna.
  destruct (ready_outgoing P call w Hready) as [r Hout].
  destruct (outgoing_call P call w r Hout) as [Hm Hp].
  destruct (Hfail (trace w) r Hm) as (p & Hans & He).
  apply answered_ok in Hans as (status & sc & csrf & Hf & Hok).
  exists r. eexists. split.
  - rewrite (gen1_request_sends P n st call silent w r Hout), Hf.
    unfold Gen1.on_response. unfold then_ at 1. unfold then_ at 1. unfold update at 1.
    rewrite Hok. unfold resolve at 1. unfold Gen1.on_payload. rewrite He.
    destruct (includes "403 Forbidden" msg && includes "add_torrent" (call_method call)).
    + reflexivity.
    + rewrite Hna. reflexivity.
  - split; [reflexivity|]. split; [exact Hm|]. split; [exact Hp|constructor; reflexivity].
Qed.

(** The same for the second generation: the message is handed on as it is. *)
Lemma gen2_request_error P n st call silent w msg :
  ready P w -> fails_with P (call_method call) msg ->
  exists r w',
    Gen2._request P (S n) st call silent w
    = (Rejected (Err (or_default msg "Unknown server error")), w')
    /\ trace w' = (trace w ++ [r])%list /\ req_method r = call_method call
    /\ req_params r = call_params call /\ unchanged w w'.
Proof.
  intros Hready Hfail.
  destruct (ready_outgoing P call w Hready) as [r Hout].
  destruct (outgoing_call P call w r Hout) as [Hm Hp].
  destruct (Hfail (trace w) r Hm) as (p & Hans & He).
  apply answered_ok in Hans as (status & sc & csrf & Hf & Hok).
  exists r. eexists. split.
  - rewrite gen2_request_cases, Hout, Hf.
    erewrite catch_rejected.
    2:{ unfold Gen2.on_response. unfold then_ at 1. unfold then_ at 1. unfold update at 1.
        rewrite Hok. unfold resolve at 1. unfold Gen2.on_payload. rewrite He. reflexivity. }
    reflexivity.
  - split; [reflexivity|]. split; [exact Hm|]. split; [exact Hp|constructor; reflexivity].
Qed.

(** The wrong-argument-count answer: one call, no second shape. *)
Lemma gen1_mismatch_not_retried P n u params w msg :
  ready P w -> fails_with P "core.add_torrent_url" msg ->
  wrong_argument_count msg = true ->
  includes "Not authenticated" msg = false ->
  exists e w',
    Gen1._addTorrentViaUrl P (S n) u params w = (Rejected e, w')
    /\ calls w w' = [("core.add_torrent_url", [JStr u; JObj params])].
Proof.
  intros Hready Hfail _ Hna.
  destruct (gen1_request_error P n "addtorrent"
              (mkCall "core.add_torrent_url" [JStr u; JObj params]) false w msg
              Hready Hfail Hna)
    as (r & w' & Hrun & Htr & Hm & Hp & _).
  eexists _, w'. split.
  - unfold Gen1._addTorrentViaUrl. erewrite then_rejected by exact Hrun. reflexivity.
  - rewrite (calls_app w w' [r] Htr). cbn in *. congruence.
Qed.

Lemma gen2_mismatch_not_retried P n u params w msg :
  ready P w -> fails_with P "core.add_torrent_url" msg ->
  wrong_argument_count msg = true ->
  exists w',
    Gen2._addTorrentViaUrl P (S n) u params w = (Rejected (Err msg), w')
    /\ count_method "core.add_torrent_url" (added w w') = 1.
Proof.
  intros Hready Hfail Hwrong.
  unfold Gen2._addTorrentViaUrl.
  match goal with
  | |- context [Gen2._request P (S n) ?st ?c ?s] =>
      destruct (gen2_request_error P n st c s w msg Hready Hfail)
        as (r & w' & Hrun & Htr & Hm & Hp & _)
  end.
  exists w'. split.
  - erewrite then_rejected by exact Hrun.
    rewrite or_default_nonempty; [reflexivity|].
    unfold wrong_argument_count in Hwrong.
    apply andb_true_iff in Hwrong as [H _]. exact H.
  - rewrite (added_app w w' [r] Htr). cbn in Hm. count_requests.
Qed.

(** A 403-flavoured answer to the add-torrent call, with site cookies. *)
Lemma gen1_access_denied P n u options domain w msg :
  ready P w -> builds options -> fails_with P "core.add_torrent_url" msg ->
  includes "403 Forbidden" msg = true ->
  includes "Not authenticated" msg = false ->
  exists w',
    Gen1._addTorrentUrlToServer P (S n) u options domain w
    = (Rejected (Err "Remote server denied access - the site may require authentication"), w')
    /\ count_method "core.add_torrent_url" (added w w') = 1
    /\ length (added w w') = 1.
Proof.
  intros Hready [built Hbuilt] Hfail H403 Hna.
  assert (Hvia : forall params,
            exists w', Gen1._addTorrentViaUrl P (S n) (encodedUrl u) params w
              = (Rejected (Err "Remote server denied access - the site may require authentication"), w')
              /\ count_method "core.add_torrent_url" (added w w') = 1
              /\ length (added w w') = 1).
  { intros params.
    destruct (gen1_request_error P n "addtorrent"
                (mkCall "core.add_torrent_url" [JStr (encodedUrl u); JObj params]) false w msg
                Hready Hfail Hna)
      as (r & w' & Hrun & Htr & Hm & Hp & _).
    cbn [call_method] in Hrun. rewrite H403 in Hrun. cbn in Hrun.
    exists w'. split.
    - unfold Gen1._addTorrentViaUrl. erewrite then_rejected by exact Hrun. reflexivity.
    - rewrite (added_app w w' [r] Htr). split; [cbn in Hm; count_requests|reflexivity]. }
  unfold Gen1._addTorrentUrlToServer. rewrite then_read, Hbuilt.
  destruct (startsWith "magnet:" u).
  - apply Hvia.
  - rewrite then_read.
    match goal with
    | |- context [Gen1._addTorrentViaUrl P (S n) (encodedUrl u) ?ps] =>
        destruct (Hvia ps) as (w' & Hrun & Hc)
    end.
    exists w'. split; [|exact Hc].
    erewrite catch_rejected by exact Hrun. cbn [err_code Err]. reflexivity.
Qed.

Lemma gen2_access_error_verbatim P n u options jar w msg :
  ready P w -> builds options -> fails_with P "core.add_torrent_url" msg ->
  includes "403 Forbidden" msg = true ->
  startsWith "magnet:" u = false -> send_cookies w <> JBool false ->
  exists w',
    Gen2._addTorrentUrlToServer P (S n) u options (Some jar) w = (Rejected (Err msg), w')
    /\ count_method "core.add_torrent_url" (added w w') = 1
    /\ length (added w w') = 1.
Proof.
  intros Hready [built Hbuilt] Hfail H403 Hmag Hsend.
  unfold Gen2._addTorrentUrlToServer. rewrite Hbuilt, Hmag, then_read.
  assert (Hvia : forall ps, exists w',
            Gen2._addTorrentViaUrl P (S n) (encodedUrl u) ps w = (Rejected (Err msg), w')
            /\ count_method "core.add_torrent_url" (added w w') = 1
            /\ length (added w w') = 1);
    [|destruct (send_cookies w) as [| |[|]| | | |]; try apply Hvia; contradiction].
  intros ps.
  unfold Gen2._addTorrentViaUrl.
  match goal with
  | |- context [Gen2._request P (S n) ?st ?c ?s] =>
      destruct (gen2_request_error P n st c s w msg Hready Hfail)
        as (r & w' & Hrun & Htr & Hm & Hp & _)
  end.
  exists w'. split.
  - erewrite then_rejected by exact Hrun.
    rewrite or_default_nonempty; [reflexivity|].
    eapply includes_nonempty; [|exact H403]. reflexivity.
  - rewrite (added_app w w' [r] Htr). split; [cbn in Hm; count_requests|reflexivity].
Qed.

(** * The server configuration *)

Lemma gen1_config_remote_disabled P n w :
  ready P w -> serves P "core.get_config_values" always remote_disabled ->
  exists w',
    Gen1._getServerConfig P (S n) w = (Rejected (Err "Remote connections disabled"), w')
    /\ length (added w w') = 1.
Proof.
  intros Hready Hcfg. unfold Gen1._getServerConfig.
  match goal with
  | |- context [Gen1._request P (S n) ?st ?c ?s] =>
      destruct (gen1_request_served P n st c s w _ _ Hready Hcfg I)
        as (p & r & w' & Hrun & Hgood & Htr & Hm & Hp & _)
  end.
  eexists. split.
  - erewrite then_resolved by exact Hrun. rewrite then_update, then_read.
    cbn [server_config set_server_config]. unfold remote_disabled in Hgood.
    rewrite Hgood. reflexivity.
  - cbn [trace set_server_config]. rewrite (added_app w _ [r]); [reflexivity|exact Htr].
Qed.

Lemma gen2_config_ignores_allow_remote P n w cfg :
  ready P w -> serves P "core.get_config" always (config_is cfg) ->
  truthy cfg = true ->
  exists w',
    Gen2._getServerConfig P (S n) w = (Resolved cfg, w')
    /\ server_config w' = cfg /\ length (added w w') = 1.
Proof.
  intros Hready Hcfg Htruthy. unfold Gen2._getServerConfig.
  match goal with
  | |- context [Gen2._request P (S n) ?st ?c ?s] =>
      destruct (gen2_request_served P n st c s w _ _ Hready Hcfg I)
        as (p & r & w' & Hrun & Hgood & Htr & Hm & Hp & Hun)
  end.
  unfold config_is in Hgood.
  eexists. split.
  - apply catch_resolved. erewrite then_resolved by exact Hrun.
    rewrite Hgood, Htruthy. reflexivity.
  - split; [reflexivity|]. cbn [trace set_server_config].
    rewrite (added_app w _ [r]); [reflexivity|exact Htr].
Qed.

(** * The daemon locator *)

Lemma fold_catch_first_success (attempt : JSON -> Promise JSON) hosts :
  forall (p : Promise JSON) w,
    fold_left (fun promise host => catch_ promise (fun _ => attempt host)) hosts p w
    = match p w with
      | (Rejected e, w') => first_success attempt e hosts w'
      | other => other
      end.
Proof.
  induction hosts as [|h rest IH]; intros p w; cbn [fold_left first_success].
  - destruct (p w) as [[v|e| |] w']; reflexivity.
  - rewrite IH. unfold catch_ at 1.
    destruct (p w) as [[v|e| |] w']; try reflexivity.
Qed.

Lemma first_success_stops attempt :
  forall before last w e w1 h after v w2,
    first_success attempt last before w = (Rejected e, w1) ->
    attempt h w1 = (Resolved v, w2) ->
    first_success attempt last (before ++ h :: after) w = (Resolved v, w2).
Proof.
  induction before as [|b before IH]; intros last w e w1 h after v w2 Hfail Hok.
  - cbn in Hfail. injection Hfail as <- <-. cbn. rewrite Hok. reflexivity.
  - cbn in Hfail |- *. destruct (attempt b w) as [[x|e0| |] w0]; try discriminate.
    eapply IH; eauto.
Qed.

Lemma gen1_try_hosts_in_order P fuel hosts w :
  Gen1.try_hosts P fuel hosts w
  = first_success (Gen1.try_host P fuel) (Err "Starting daemon connection attempts") hosts w.
Proof. unfold Gen1.try_hosts. rewrite fold_catch_first_success. reflexivity. Qed.

Lemma gen2_try_hosts_in_order P fuel hosts w :
  Gen2.try_hosts P fuel hosts w
  = first_success (Gen2.try_host P fuel) (Err "Starting daemon connection attempts") hosts w.
Proof. unfold Gen2.try_hosts. rewrite fold_catch_first_success. reflexivity. Qed.

Lemma gen1_locator_first_success P fuel before h after w e w1 v w2 :
  no_daemon w ->
  first_success (Gen1.try_host P fuel) (Err "Starting daemon connection attempts") before w
    = (Rejected e, w1) ->
  Gen1.try_host P fuel h w1 = (Resolved v, w2) ->
  Gen1._getConnectedDaemon P fuel (JArr (before ++ h :: after)) w = (Resolved v, w2).
Proof.
  intros Hno Hfail Hok. unfold Gen1._getConnectedDaemon. rewrite then_read.
  unfold no_daemon in Hno. rewrite Hno.
  destruct (before ++ h :: after)%list eqn:Hl; [destruct before; discriminate|].
  rewrite <- Hl, gen1_try_hosts_in_order. eapply first_success_stops; eauto.
Qed.

Lemma gen2_locator_first_success P fuel before h after w e w1 v w2 :
  no_daemon w ->
  first_success (Gen2.try_host P fuel) (Err "Starting daemon connection attempts") before w
    = (Rejected e, w1) ->
  Gen2.try_host P fuel h w1 = (Resolved v, w2) ->
  Gen2._getConnectedDaemon P fuel (JArr (before ++ h :: after)) w = (Resolved v, w2).
Proof.
  intros Hno Hfail Hok. unfold Gen2._getConnectedDaemon. rewrite then_read.
  unfold no_daemon in Hno. rewrite Hno.
  destruct (before ++ h :: after)%list eqn:Hl; [destruct before; discriminate|].
  rewrite <- Hl, gen2_try_hosts_in_order. eapply first_success_stops; eauto.
Qed.

Lemma gen1_request_answered P n st call silent w when good :
  ready P w -> answers P (call_method call) (call_params call) when good -> when (trace w) ->
  exists p r w',
    Gen1._request P (S n) st call silent w = (Resolved p, w')
    /\ good (rpc_result p) /\ rpc_error p = None
    /\ trace w' = (trace w ++ [r])%list
    /\ (req_method r, req_params r) = (call_method call, call_params call)
    /\ unchanged w w'.
Proof.
  intros Hready Hans Hwhen.
  destruct (ready_outgoing P call w Hready) as [r Hout].
  destruct (outgoing_call P call w r Hout) as [Hm Hp].
  destruct (Hans (trace w) r Hm Hp Hwhen) as (p & Ha & [Hclean Hs] & Hgood).
  destruct (gen1_request_resolves P n st call silent w r p Hout Ha Hclean)
    as (w' & Hrun & Htr & Hun).
  exists p, r, w'. rewrite Hm, Hp. auto 10.
Qed.

Lemma gen2_request_answered P n st call silent w when good :
  ready P w -> answers P (call_method call) (call_params call) when good -> when (trace w) ->
  exists p r w',
    Gen2._request P (S n) st call silent w = (Resolved p, w')
    /\ good (rpc_result p)
    /\ trace w' = (trace w ++ [r])%list
    /\ (req_method r, req_params r) = (call_method call, call_params call)
    /\ unchanged w w'.
Proof.
  intros Hready Hans Hwhen.
  destruct (ready_outgoing P call w Hready) as [r Hout].
  destruct (outgoing_call P call w r Hout) as [Hm Hp].
  destruct (Hans (trace w) r Hm Hp Hwhen) as (p & Ha & Hclean & Hgood).
  destruct (gen2_request_resolves P n st call silent w r p Hout Ha Hclean)
    as (w' & Hrun & Htr & Hun).
  exists p, r, w'. rewrite Hm, Hp. auto 10.
Qed.

(** ** First generation: what one attempt sends *)

(** Both layouts of the status answer give the same host id and status. *)
Lemma gen1_reads_status id s v ip port :
  gen1_status id s v ->
  exists items ip' port' version,
    v = JArr items
    /\ Gen1.daemon_info_of items ip port = gen1_info id ip' port' s version.
Proof.
  intros [[version ->]|(ip0 & port0 & version & ->)].
  - exists [id; JStr s; version], ip, port, version. split; reflexivity.
  - exists [id; ip0; port0; JStr s; version], ip0, port0, version. split; reflexivity.
Qed.

Lemma gen1_host_status P n id ip port s w when :
  ready P w -> answers P "web.get_host_status" [id] when (gen1_status id s) ->
  when (trace w) ->
  exists ip' port' version r w',
    Gen1._getHostStatus P (S n) id ip port w
      = (Resolved (gen1_info id ip' port' s version), w')
    /\ trace w' = (trace w ++ [r])%list
    /\ (req_method r, req_params r) = ("web.get_host_status", [id])
    /\ unchanged w w'.
Proof.
  intros Hready Hans Hwhen. unfold Gen1._getHostStatus.
  destruct (gen1_request_answered P n "gethoststatus" (mkCall "web.get_host_status" [id])
              false w _ _ Hready Hans Hwhen)
    as (p & r & w' & Hrun & Hgood & _ & Htr & Hc & Hun).
  destruct (gen1_reads_status id s _ ip port Hgood)
    as (items & ip' & port' & version & Hv & Hinfo).
  exists ip', port', version, r, w'. split; [|auto].
  erewrite then_resolved by exact Hrun. rewrite Hv, Hinfo. reflexivity.
Qed.

Lemma gen1_connect_online P n id ip port version w :
  ready P w -> answers P "web.connect" [id] always anything ->
  exists r w',
    Gen1._connectDaemon P (S n) (gen1_info id ip port "Online" version) w
      = (Resolved (gen1_info id ip port "Online" version), w')
    /\ trace w' = (trace w ++ [r])%list
    /\ (req_method r, req_params r) = ("web.connect", [id])
    /\ unchanged w w'.
Proof.
  intros Hready Hans. cbn [Gen1._connectDaemon].
  change (is_str "Online" (prop "status" (gen1_info id ip port "Online" version))) with true.
  cbv iota.
  change (prop "host_id" (gen1_info id ip port "Online" version)) with id.
  destruct (gen1_request_answered P n "connectdaemon" (mkCall "web.connect" [id])
              false w _ _ Hready Hans I)
    as (p & r & w' & Hrun & _ & He & Htr & Hc & Hun).
  exists r, w'. split; [|auto].
  erewrite then_resolved by exact Hrun. rewrite He. reflexivity.
Qed.

Lemma gen1_path_connected P n id ip port w :
  ready P w -> answers P "web.get_host_status" [id] always (gen1_status id "Connected") ->
  adopts_host id (Gen1.try_host P (S n) (JArr [id; ip; port]) w) w
    [("web.get_host_status", [id])].
Proof.
  intros Hready Hst.
  destruct (gen1_host_status P n id ip port "Connected" w _ Hready Hst I)
    as (ip' & port' & version & r & w1 & Hrun & Htr & Hc & Hun).
  exists (gen1_info id ip' port' "Connected" version),
         (adopted (gen1_info id ip' port' "Connected" version) w1).
  split.
  - unfold Gen1.try_host. cbn [element nth].
    erewrite then_resolved; [reflexivity|].
    erewrite then_resolved by exact Hrun. reflexivity.
  - split; [reflexivity|]. split; [reflexivity|].
    rewrite (calls_app w _ [r]); [cbn; congruence|exact Htr].
Qed.

Lemma gen1_path_online P n id ip port w :
  ready P w -> answers P "web.get_host_status" [id] always (gen1_status id "Online") ->
  answers P "web.connect" [id] always anything ->
  adopts_host id (Gen1.try_host P (S n) (JArr [id; ip; port]) w) w
    [("web.get_host_status", [id]); ("web.connect", [id])].
Proof.
  intros Hready Hst Hcon.
  destruct (gen1_host_status P n id ip port "Online" w _ Hready Hst I)
    as (ip' & port' & version & r & w1 & Hrun & Htr & Hc & Hun).
  assert (Hready1 : ready P w1) by (eapply ready_unchanged; eauto).
  destruct (gen1_connect_online P n id ip' port' version w1 Hready1 Hcon)
    as (r2 & w2 & Hrun2 & Htr2 & Hc2 & Hun2).
  exists (gen1_info id ip' port' "Online" version),
         (adopted (gen1_info id ip' port' "Online" version) w2).
  split.
  - unfold Gen1.try_host. cbn [element nth].
    erewrite then_resolved; [reflexivity|].
    erewrite then_resolved by exact Hrun.
    change (is_str "Connected" (prop "status" (gen1_info id ip' port' "Online" version)))
      with false.
    change (is_str "Online" (prop "status" (gen1_info id ip' port' "Online" version)))
      with true.
    cbv iota. exact Hrun2.
  - split; [reflexivity|]. split; [reflexivity|].
    rewrite (calls_app w _ [r; r2]); [cbn; congruence|].
    cbn [trace adopted set_CONNECT_ATTEMPTS set_DAEMON_INFO].
    rewrite Htr2, Htr, <- app_assoc. reflexivity.
Qed.

(** The start of an [Offline] host: the status query and [web.start_daemon]
    with the port of the host, after which [_connectDaemon] takes over. *)
Lemma gen1_start P n id ip port w when :
  ready P w -> when (trace w) ->
  answers P "web.get_host_status" [id] when (gen1_status id "Offline") ->
  (forall ps, answers P "web.start_daemon" ps always anything) ->
  exists ip' port' version r r2 w2,
    (daemon_info <- Gen1._getHostStatus P (S n) id ip port ;;
     let status := prop "status" daemon_info in
     if is_str "Connected" status then resolve daemon_info
     else if is_str "Online" status then Gen1._connectDaemon P (S n) daemon_info
     else if is_str "Offline" status then
       info <- Gen1._startDaemon P (S n) daemon_info ;; Gen1._connectDaemon P (S n) info
     else reject (Err ("Unknown daemon status: " ++ js_String status))) w
    = Gen1._connectDaemon P (S n) (gen1_info id ip' port' "Offline" version) w2
    /\ trace w2 = (trace w ++ [r; r2])%list
    /\ (req_method r, req_params r) = ("web.get_host_status", [id])
    /\ (req_method r2, req_params r2) = ("web.start_daemon", [port'])
    /\ unchanged w w2.
Proof.
  intros Hready Hwhen Hoff Hstart.
  destruct (gen1_host_status P n id ip port "Offline" w _ Hready Hoff Hwhen)
    as (ip' & port' & version & r & w1 & Hrun & Htr & Hc & Hun).
  assert (Hready1 : ready P w1) by (eapply ready_unchanged; eauto).
  set (info := gen1_info id ip' port' "Offline" version).
  destruct (gen1_request_answered P n "startdaemon" (mkCall "web.start_daemon" [port'])
              false w1 _ _ Hready1 (Hstart [port']) I)
    as (p2 & r2 & w2 & Hrun2 & _ & He2 & Htr2 & Hc2 & Hun2).
  exists ip', port', version, r, r2, w2. split; [|split; [|split; [|split]]].
  - erewrite then_resolved by exact Hrun. fold info. cbv zeta.
    change (is_str "Connected" (prop "status" info)) with false.
    change (is_str "Online" (prop "status" info)) with false.
    change (is_str "Offline" (prop "status" info)) with true.
    cbv iota.
    erewrite then_resolved.
    2:{ unfold Gen1._startDaemon. change (prop "port" info) with port'.
        erewrite then_resolved by exact Hrun2. rewrite He2. reflexivity. }
    reflexivity.
  - rewrite Htr2, Htr, <- app_assoc. reflexivity.
  - exact Hc.
  - exact Hc2.
  - eapply unchanged_trans; eauto.
Qed.

Lemma ready_set_attempts P k w : ready P w -> ready P (set_CONNECT_ATTEMPTS k w).
Proof. intros (u & href & H1 & H2 & H3). exists u, href. auto. Qed.

Lemma gen1_path_offline P n id ip port w :
  ready P w -> CONNECT_ATTEMPTS w < 5 -> never_started (trace w) ->
  answers P "web.get_host_status" [id] never_started (gen1_status id "Offline") ->
  (forall ps, answers P "web.start_daemon" ps always anything) ->
  answers P "web.get_host_status" [id] started (gen1_status id "Online") ->
  answers P "web.connect" [id] always anything ->
  exists started_port,
    adopts_host id (Gen1.try_host P (S (S n)) (JArr [id; ip; port]) w) w
      [("web.get_host_status", [id]); ("web.start_daemon", [started_port]);
       ("web.get_host_status", [id]); ("web.connect", [id])].
Proof.
  intros Hready Hatt Hnever Hoff Hstart Hon Hcon.
  destruct (gen1_start P (S n) id ip port w never_started Hready Hnever Hoff Hstart)
    as (ip' & port' & version & r & r2 & w2 & Hhead & Htr2 & Hc & Hc2 & Hun2).
  assert (Hready2 : ready P w2) by (eapply ready_unchanged; eauto).
  set (info := gen1_info id ip' port' "Offline" version) in *.
  set (w3 := set_CONNECT_ATTEMPTS (CONNECT_ATTEMPTS w2 + 1) w2).
  assert (Hready3 : ready P w3) by (apply ready_set_attempts; exact Hready2).
  destruct (gen1_host_status P (S n) id JUndefined JUndefined "Online" w3 _ Hready3 Hon)
    as (ip4 & port4 & version' & r4 & w4 & Hrun4 & Htr4 & Hc4 & Hun4).
  { unfold started. change (trace w3) with (trace w2). rewrite Htr2.
    injection Hc2 as Hm2 _. count_requests. }
  assert (Hready4 : ready P w4) by (eapply ready_unchanged; eauto).
  destruct (gen1_connect_online P n id ip4 port4 version' w4 Hready4 Hcon)
    as (r5 & w5 & Hrun5 & Htr5 & Hc5 & Hun5).
  set (info' := gen1_info id ip4 port4 "Online" version').
  exists port', info', (adopted info' w5). split.
  - assert (Hconnect : Gen1._connectDaemon P (S (S n)) info w2 = (Resolved info', w5)).
    { cbn [Gen1._connectDaemon].
      change (is_str "Online" (prop "status" info)) with false. cbv iota.
      rewrite then_read.
      assert (Ha : (5 <=? CONNECT_ATTEMPTS w2)%nat = false).
      { apply Nat.leb_gt. rewrite (same_attempts _ _ Hun2). exact Hatt. }
      rewrite Ha. rewrite then_update. fold w3.
      change (prop "host_id" info) with id.
      erewrite then_resolved by exact Hrun4. exact Hrun5. }
    unfold Gen1.try_host. cbn [element nth].
    cbv zeta in Hhead. unfold then_ at 1. rewrite Hhead, Hconnect. reflexivity.
  - split; [reflexivity|]. split; [reflexivity|].
    rewrite (calls_app w _ [r; r2; r4; r5]); [cbn in *; congruence|].
    cbn [trace adopted set_CONNECT_ATTEMPTS set_DAEMON_INFO].
    rewrite Htr5, Htr4. change (trace w3) with (trace w2).
    rewrite Htr2, <- !app_assoc. reflexivity.
Qed.

(** A host that is not reported [Online]: [_connectDaemon] asks for its
    status until the attempts are used up. *)
Lemma gen1_polls P id s :
  s <> "Online" ->
  answers P "web.get_host_status" [id] always (gen1_status id s) ->
  forall k fuel info w,
    ready P w -> prop "host_id" info = id -> is_str "Online" (prop "status" info) = false ->
    CONNECT_ATTEMPTS w + k = 5 -> k < fuel ->
    exists w' new,
      Gen1._connectDaemon P fuel info w
      = (Rejected (Err "Max connection attempts reached"), w')
      /\ trace w' = (trace w ++ new)%list
      /\ map (fun r => (req_method r, req_params r)) new
         = repeat ("web.get_host_status", [id]) k
      /\ CONNECT_ATTEMPTS w' = 5
      /\ SERVER_URL w' = SERVER_URL w /\ DAEMON_INFO w' = DAEMON_INFO w.
Proof.
  intros Hs Hstatus. induction k as [|k IH]; intros fuel info w Hready Hid Hoff Hsum Hfuel.
  - destruct fuel as [|fuel]; [lia|]. exists w, [].
    cbn [Gen1._connectDaemon]. rewrite Hoff, then_read.
    assert ((5 <=? CONNECT_ATTEMPTS w)%nat = true) as -> by (apply Nat.leb_le; lia).
    split; [reflexivity|]. split; [rewrite app_nil_r; reflexivity|]. split; [reflexivity|].
    split; [lia|]. split; reflexivity.
  - destruct fuel as [|fuel]; [lia|].
    set (w1 := set_CONNECT_ATTEMPTS (CONNECT_ATTEMPTS w + 1) w).
    pose proof (ready_set_attempts P (CONNECT_ATTEMPTS w + 1) w Hready) as Hready1.
    fold w1 in Hready1.
    destruct (gen1_host_status P fuel id JUndefined JUndefined s w1 always Hready1 Hstatus I)
      as (ip' & port' & version & r & w2 & Hrun & Htr & Hc & Hun).
    pose proof (ready_unchanged P w1 w2 Hun Hready1) as Hready2.
    destruct (IH fuel (gen1_info id ip' port' s version) w2 Hready2 eq_refl)
      as (w' & new & Hrest & Htr' & Hnew & Hattempts & Hurl & Hdaemon).
    { cbn. destruct (String.eqb_spec s "Online"); [contradiction|reflexivity]. }
    { rewrite (same_attempts _ _ Hun). cbn [CONNECT_ATTEMPTS w1 set_CONNECT_ATTEMPTS]. lia. }
    { lia. }
    exists w', (r :: new). split; [|split; [|split; [|split; [exact Hattempts|]]]].
    + cbn [Gen1._connectDaemon]. rewrite Hoff, then_read.
      assert ((5 <=? CONNECT_ATTEMPTS w)%nat = false) as -> by (apply Nat.leb_gt; lia).
      rewrite then_update. fold w1. rewrite Hid.
      erewrite then_resolved by exact Hrun. exact Hrest.
    + rewrite Htr', Htr. change (trace w1) with (trace w). rewrite <- app_assoc. reflexivity.
    + cbn [map repeat]. rewrite Hnew, Hc. reflexivity.
    + rewrite Hurl, Hdaemon, (same_url _ _ Hun), (same_daemon _ _ Hun). split; reflexivity.
Qed.

(** An [Offline] host that the panel goes on reporting [Offline] after the
    start call is given up when the attempts are used up; [web.connect] is
    never sent. *)
Lemma gen1_path_stays_offline P fuel id ip port w :
  ready P w -> CONNECT_ATTEMPTS w <= 5 -> 6 - CONNECT_ATTEMPTS w < fuel ->
  answers P "web.get_host_status" [id] always (gen1_status id "Offline") ->
  (forall ps, answers P "web.start_daemon" ps always anything) ->
  exists started_port,
    gives_up "Max connection attempts reached"
      (Gen1.try_host P fuel (JArr [id; ip; port]) w) w
      (("web.get_host_status", [id]) :: ("web.start_daemon", [started_port])
       :: repeat ("web.get_host_status", [id]) (5 - CONNECT_ATTEMPTS w)).
Proof.
  intros Hready Hle Hfuel Hoff Hstart.
  destruct fuel as [|n]; [lia|].
  destruct (gen1_start P n id ip port w always Hready I Hoff Hstart)
    as (ip' & port' & version & r & r2 & w2 & Hhead & Htr2 & Hc & Hc2 & Hun2).
  assert (Hready2 : ready P w2) by (eapply ready_unchanged; eauto).
  destruct (gen1_polls P id "Offline" ltac:(discriminate) Hoff (5 - CONNECT_ATTEMPTS w) (S n)
              (gen1_info id ip' port' "Offline" version) w2 Hready2 eq_refl eq_refl)
    as (w' & new & Hrun & Htr & Hnew & Hattempts & Hurl & Hdaemon).
  { rewrite (same_attempts _ _ Hun2). lia. }
  { lia. }
  exists port', w'. split; [|split; [|split]].
  - unfold Gen1.try_host. cbn [element nth].
    cbv zeta in Hhead. unfold then_ at 1. rewrite Hhead, Hrun. reflexivity.
  - unfold calls. rewrite (added_app w w' ([r; r2] ++ new)).
    + rewrite map_app, Hnew. cbn [map app]. congruence.
    + rewrite Htr, Htr2, <- app_assoc. reflexivity.
  - rewrite Hurl. apply (same_url _ _ Hun2).
  - rewrite Hdaemon. apply (same_daemon _ _ Hun2).
Qed.

(** ** Second generation: what one attempt sends *)

Lemma knows_host_unchanged id w w' : unchanged w w' -> knows_host id w -> knows_host id w'.
Proof.
  intros Hun (hosts & host & H1 & H2). exists hosts, host.
  rewrite (same_hosts _ _ Hun). auto.
Qed.

(** The second generation destructures the status answer as
    [[status, info]]: of an answer in either of the two layouts it takes the
    host id for the status, and gives the host up. *)
Lemma gen2_misreads_status P n id s ip port w :
  ready P w -> knows_host (JStr id) w ->
  answers P "web.get_host_status" [JStr id] always (gen1_status (JStr id) s) ->
  id <> "Connected" -> id <> "Online" -> id <> "Offline" ->
  exists w',
    Gen2.try_host P (S n) (JArr [JStr id; ip; port]) w
    = (Rejected (Err ("Unknown daemon status: " ++ id)), w')
    /\ calls w w' = [("web.get_host_status", [JStr id])]
    /\ unchanged w w'.
Proof.
  intros Hready Hknows Hans Hc Hon Hoff.
  destruct (gen2_request_answered P n "web.get_host_status"
              (mkCall "web.get_host_status" [JStr id]) false w _ _ Hready Hans I)
    as (p & r & w' & Hrun & Hgood & Htr & Hcall & Hun).
  destruct (knows_host_unchanged (JStr id) w w' Hun Hknows) as (hosts & host & Hh & Hf).
  assert (Hstatus : exists info,
            Gen2._getHostStatus P (S n) (JStr id) w
            = (Resolved (JObj [("status", JStr id); ("info", info);
                               ("hostId", JStr id); ("host", host)]), w')).
  { assert (Hread : truthy (rpc_result p) = true
                    /\ exists info, Gen2.destructure (rpc_result p) = Some (JStr id, info)).
    { destruct Hgood as [[version ->]|(ip0 & port0 & version & ->)];
        (split; [reflexivity|eexists; reflexivity]). }
    destruct Hread as [Htruthy [info Hinfo]]. exists info.
    unfold Gen2._getHostStatus. erewrite then_resolved by exact Hrun.
    rewrite Htruthy, Hinfo. cbn [negb]. rewrite then_read, Hh, Hf. reflexivity. }
  destruct Hstatus as [info Hstatus].
  exists w'. split.
  - unfold Gen2.try_host. cbn [element nth].
    unfold then_ at 1. unfold then_ at 1. rewrite Hstatus.
    cbn [prop assoc String.eqb Ascii.eqb Bool.eqb is_str].
    destruct (String.eqb_spec id "Connected"); [contradiction|].
    destruct (String.eqb_spec id "Online"); [contradiction|].
    destruct (String.eqb_spec id "Offline"); [contradiction|].
    reflexivity.
  - split; [|exact Hun].
    rewrite (calls_app w w' [r] Htr). cbn [map]. rewrite Hcall. reflexivity.
Qed.

(** * What a run can send *)

Lemma sends_weaken A (Q Q' : Request -> Prop) (p : Promise A) :
  (forall r, Q r -> Q' r) -> sends_only Q p -> sends_only Q' p.
Proof.
  intros HQ Hp w. destruct (Hp w) as (new & Htr & Hall).
  exists new. split; [exact Htr|]. eapply Forall_impl; eauto.
Qed.

Lemma sends_nothing A (Q : Request -> Prop) (p : Promise A) :
  (forall w, trace (snd (p w)) = trace w) -> sends_only Q p.
Proof. intros H w. exists []. rewrite app_nil_r. split; [apply H|constructor]. Qed.

Lemma sends_resolve A Q (a : A) : sends_only Q (resolve a).
Proof. apply sends_nothing. reflexivity. Qed.

Lemma sends_reject A Q e : sends_only Q (@reject A e).
Proof. apply sends_nothing. reflexivity. Qed.

Lemma sends_pending A Q : sends_only Q (@pending A).
Proof. apply sends_nothing. reflexivity. Qed.

Lemma sends_out_of_fuel A Q : sends_only Q (@out_of_fuel A).
Proof. apply sends_nothing. reflexivity. Qed.

Lemma sends_read A Q (f : World -> A) : sends_only Q (read f).
Proof. apply sends_nothing. reflexivity. Qed.

Lemma sends_update Q (f : World -> World) :
  (forall w, trace (f w) = trace w) -> sends_only Q (update f).
Proof. intros H. apply sends_nothing. exact H. Qed.

Lemma sends_fetch P (Q : Request -> Prop) r : Q r -> sends_only Q (do_fetch P r).
Proof. intros H w. exists [r]. split; [reflexivity|]. constructor; [exact H|constructor]. Qed.

Lemma sends_then A B Q (p : Promise A) (f : A -> Promise B) :
  sends_only Q p -> (forall a, sends_only Q (f a)) -> sends_only Q (then_ p f).
Proof.
  intros Hp Hf w. unfold then_. destruct (Hp w) as (new & Htr & Hall).
  destruct (p w) as [[a|e| |] w1]; cbn [snd] in *; try (exists new; split; assumption).
  destruct (Hf a w1) as (new' & Htr' & Hall').
  exists (new ++ new')%list. rewrite Htr', Htr, app_assoc. split; [reflexivity|].
  apply Forall_app. auto.
Qed.

Lemma sends_catch A Q (p : Promise A) (h : Error -> Promise A) :
  sends_only Q p -> (forall e, sends_only Q (h e)) -> sends_only Q (catch_ p h).
Proof.
  intros Hp Hh w. unfold catch_. destruct (Hp w) as (new & Htr & Hall).
  destruct (p w) as [[a|e| |] w1]; cbn [snd] in *; try (exists new; split; assumption).
  destruct (Hh e w1) as (new' & Htr' & Hall').
  exists (new ++ new')%list. rewrite Htr', Htr, app_assoc. split; [reflexivity|].
  apply Forall_app. auto.
Qed.

Lemma trace_store_tokens a b w : trace (store_tokens a b w) = trace w.
Proof. reflexivity. Qed.

Ltac sends_step :=
  match goal with
  | |- _ => assumption
  | |- sends_only _ (resolve _) => apply sends_resolve
  | |- sends_only _ (reject _) => apply sends_reject
  | |- sends_only _ pending => apply sends_pending
  | |- sends_only _ out_of_fuel => apply sends_out_of_fuel
  | |- sends_only _ (read _) => apply sends_read
  | |- sends_only _ (update _) => apply sends_update; reflexivity
  | |- sends_only _ (then_ _ _) => apply sends_then; [|intro]
  | |- sends_only _ (catch_ _ _) => apply sends_catch; [|intro]
  | |- sends_only _ (if ?b then _ else _) => destruct b
  | |- sends_only _ (match ?x with _ => _ end) => destruct x
  end.

Ltac sends := repeat sends_step.


Lemma gen1_login_sends (request : string -> Call -> bool -> Promise Payload) silent :
  (forall st c s, sends_only (of_call c) (request st c s)) ->
  sends_only is_auth (Gen1._doLogin_with request silent).
Proof.
  intros Hreq.
  assert (Hauth : forall st c s, is_auth_method (call_method c) ->
            sends_only is_auth (request st c s)).
  { intros st c s Hc. eapply sends_weaken; [|apply Hreq].
    intros r [[Hm _]|H]; [|exact H]. unfold is_auth. rewrite Hm. exact Hc. }
  unfold Gen1._doLogin_with, Gen1._getSession_with. sends.
  - apply Hauth. left. reflexivity.
  - apply Hauth. right. reflexivity.
Qed.

Lemma of_call_auth c r : is_auth r -> of_call c r.
Proof. intros H. right. exact H. Qed.

Lemma gen1_request_sends_only P fuel :
  forall st c s, sends_only (of_call c) (Gen1._request P fuel st c s).
Proof.
  induction fuel as [|n IH]; intros st c s.
  - apply sends_out_of_fuel.
  - assert (Hlogin : sends_only (of_call c) (Gen1._doLogin_with (Gen1._request P n) s)).
    { eapply sends_weaken; [apply of_call_auth|]. apply gen1_login_sends. exact IH. }
    assert (Hretry : sends_only (of_call c)
                       (Gen1.relogin_and_retry (Gen1._request P n) st c s)).
    { unfold Gen1.relogin_and_retry. sends. apply IH. }
    cbn [Gen1._request]. sends.
    + apply sends_nothing. intros w. unfold Gen1._initState.
      destruct (Gen1.stored_list P (connections w)); reflexivity.
    + apply IH.
    + apply sends_fetch. left. split; reflexivity.
    + unfold Gen1.on_response. sends.
    + unfold Gen1.on_payload. sends.
Qed.

Lemma gen2_request_sends_only P fuel :
  (forall st c s, sends_only (of_call c) (Gen2._request P fuel st c s))
  /\ sends_only is_auth (Gen2._getSession P fuel)
  /\ (forall s, sends_only is_auth (Gen2._doLogin P fuel s)).
Proof.
  induction fuel as [|n (IHr & IHs & IHl)].
  - split; [|split]; intros; apply sends_out_of_fuel.
  - assert (Hauth : forall st c s, is_auth_method (call_method c) ->
              sends_only is_auth (Gen2._request P n st c s)).
    { intros st c s Hc. eapply sends_weaken; [|apply IHr].
      intros r [[Hm _]|H]; [|exact H]. unfold is_auth. rewrite Hm. exact Hc. }
    split; [|split].
    + intros st c s.
      assert (Hsession : sends_only (of_call c) (Gen2._getSession P n)).
      { eapply sends_weaken; [apply of_call_auth|exact IHs]. }
      cbn [Gen2._request]. sends.
      * apply sends_nothing. intros w. unfold Gen2._initState.
        destruct (Gen2.stored_list P (connections w)); reflexivity.
      * apply IHr.
      * apply sends_fetch. left. split; reflexivity.
      * unfold Gen2.on_response. sends. apply IHr.
      * unfold Gen2.on_payload. sends. apply IHr.
      * unfold Gen2.on_failure. sends.
    + cbn [Gen2._getSession]. sends.
      * apply Hauth. right. reflexivity.
      * apply IHl.
    + intros s. cbn [Gen2._doLogin]. sends.
      apply Hauth. left. reflexivity.
Qed.








(** ** Branches that are never taken *)

Lemma then_rejected_inv A B (p : Promise A) (f : A -> Promise B) w e w' :
  then_ p f w = (Rejected e, w') ->
  p w = (Rejected e, w')
  \/ exists a w1, p w = (Resolved a, w1) /\ f a w1 = (Rejected e, w').
Proof.
  unfold then_. destruct (p w) as [[a|e0| |] w1]; intros H; try discriminate.
  - right. exists a, w1. auto.
  - left. injection H as <- <-. reflexivity.
Qed.

Lemma rejects_resolve A (Q : Error -> Prop) (a : A) : rejects_only Q (resolve a).
Proof. intros w e w' H. discriminate. Qed.

Lemma rejects_reject A (Q : Error -> Prop) e : Q e -> rejects_only Q (@reject A e).
Proof. intros He w e' w' [= <- <-]. exact He. Qed.

Lemma rejects_pending A Q : rejects_only Q (@pending A).
Proof. intros w e w' H. discriminate. Qed.

Lemma rejects_out_of_fuel A Q : rejects_only Q (@out_of_fuel A).
Proof. intros w e w' H. discriminate. Qed.

Lemma rejects_read A Q (f : World -> A) : rejects_only Q (read f).
Proof. intros w e w' H. discriminate. Qed.

Lemma rejects_update Q f : rejects_only Q (update f).
Proof. intros w e w' H. discriminate. Qed.

Lemma rejects_fetch P Q r : rejects_only Q (do_fetch P r).
Proof. intros w e w' H. discriminate. Qed.

Lemma rejects_then A B Q (p : Promise A) (f : A -> Promise B) :
  rejects_only Q p -> (forall a, rejects_only Q (f a)) -> rejects_only Q (then_ p f).
Proof.
  intros Hp Hf w e w' H. apply then_rejected_inv in H as [H|(a & w1 & _ & H)].
  - eapply Hp; eauto.
  - eapply Hf; eauto.
Qed.

Lemma rejects_catch A Q (p : Promise A) (h : Error -> Promise A) :
  (forall e, rejects_only Q (h e)) -> rejects_only Q (catch_ p h).
Proof.
  intros Hh w e w'. unfold catch_.
  destruct (p w) as [[a|e0| |] w1]; intros H; try discriminate.
  eapply Hh; eauto.
Qed.

Ltac rejects_step :=
  match goal with
  | |- _ => assumption
  | |- rejects_only _ (resolve _) => apply rejects_resolve
  | |- rejects_only _ (reject _) => apply rejects_reject; try discriminate
  | |- rejects_only _ pending => apply rejects_pending
  | |- rejects_only _ out_of_fuel => apply rejects_out_of_fuel
  | |- rejects_only _ (read _) => apply rejects_read
  | |- rejects_only _ (update _) => apply rejects_update
  | |- rejects_only _ (do_fetch _ _) => apply rejects_fetch
  | |- rejects_only _ (then_ _ _) => apply rejects_then; [|intro]
  | |- rejects_only _ (catch_ _ _) => apply rejects_catch; intro
  | |- rejects_only _ (if ?b then _ else _) => destruct b
  | |- rejects_only _ (match ?x with _ => _ end) => destruct x
  end.

Ltac rejects := repeat rejects_step.




Lemma sends_same A Q (p q : Promise A) :
  (forall w, p w = q w) -> sends_only Q q -> sends_only Q p.
Proof. intros Heq Hq w. rewrite Heq. apply Hq. Qed.

(** [_request] resolves only with payloads that have no [error] member, so
    the callback of [_addTorrentViaUrl] goes straight to the result. *)
Lemma gen1_add_via_url_reads_no_error P fuel u params w :
  Gen1._addTorrentViaUrl P fuel u params w
  = then_ (Gen1._request P fuel "addtorrent"
             (mkCall "core.add_torrent_url" [JStr u; JObj params]) false)
      (fun payload =>
         match rpc_result payload with
         | JBool false => reject (Err "Server refused torrent")
         | torrentId => resolve torrentId
         end) w.
Proof.
  unfold Gen1._addTorrentViaUrl, then_ at 1 3.
  destruct (Gen1._request P fuel "addtorrent" _ false w) as [[p|e| |] w1] eqn:H;
    try reflexivity.
  rewrite (gen1_request_clean P fuel _ _ _ _ _ _ H). reflexivity.
Qed.

Lemma gen2_add_via_url_reads_no_error P fuel u params w :
  let sends := truthy (cookie_of params) in
  let headers := if sends then [("Cookie", cookie_of params)] else [] in
  let params' := if sends then delete "cookie" (properties params) else properties params in
  Gen2._addTorrentViaUrl P fuel u params w
  = then_ (Gen2._request P fuel "core.add_torrent_url"
             (mkCall "core.add_torrent_url" [JStr u; JObj params'; JObj headers]) false)
      (fun payload =>
         match rpc_result payload with
         | JBool false => reject (Err "Server refused torrent")
         | torrentId => resolve torrentId
         end) w.
Proof.
  intros sends headers params'.
  unfold Gen2._addTorrentViaUrl. cbv zeta. fold sends. fold headers. fold params'.
  unfold then_ at 1 3.
  destruct (Gen2._request P fuel "core.add_torrent_url" _ false w) as [[p|e| |] w1] eqn:H;
    try reflexivity.
  destruct (gen2_request_clean P fuel _ _ _ _ _ _ H) as [He _].
  rewrite He. reflexivity.
Qed.

Lemma of_call_carries c r :
  call_method c = "core.add_torrent_url" ->
  of_call c r -> add_calls_carry (call_params c) r.
Proof.
  intros Hm [[_ Hrp]|[Ha|Ha]] Hadd.
  - exact Hrp.
  - rewrite Ha in Hadd. discriminate.
  - rewrite Ha in Hadd. discriminate.
Qed.

(** Whatever the panel answers, every add-torrent request of
    [_addTorrentViaUrl] has the first parameter shape: the shape of the retry
    is never sent. *)
Lemma gen1_add_via_url_one_shape P fuel u params :
  sends_only (add_calls_carry [JStr u; JObj params])
    (Gen1._addTorrentViaUrl P fuel u params).
Proof.
  apply sends_same with
    (q := then_ (Gen1._request P fuel "addtorrent"
                   (mkCall "core.add_torrent_url" [JStr u; JObj params]) false)
            (fun payload =>
               match rpc_result payload with
               | JBool false => reject (Err "Server refused torrent")
               | torrentId => resolve torrentId
               end));
    [intros w; apply gen1_add_via_url_reads_no_error|].
  sends. eapply sends_weaken; [|apply gen1_request_sends_only].
  intros r Hr. eapply of_call_carries in Hr; [exact Hr|reflexivity].
Qed.

Lemma gen2_add_via_url_one_shape P fuel u params :
  let sends := truthy (cookie_of params) in
  let headers := if sends then [("Cookie", cookie_of params)] else [] in
  let params' := if sends then delete "cookie" (properties params) else properties params in
  sends_only (add_calls_carry [JStr u; JObj params'; JObj headers])
    (Gen2._addTorrentViaUrl P fuel u params).
Proof.
  intros sends0 headers params'.
  apply sends_same with
    (q := then_ (Gen2._request P fuel "core.add_torrent_url"
                   (mkCall "core.add_torrent_url" [JStr u; JObj params'; JObj headers])
                   false)
            (fun payload =>
               match rpc_result payload with
               | JBool false => reject (Err "Server refused torrent")
               | torrentId => resolve torrentId
               end));
    [intros w; apply gen2_add_via_url_reads_no_error|].
  sends. eapply sends_weaken; [|apply gen2_request_sends_only].
  intros r Hr. eapply of_call_carries in Hr; [exact Hr|reflexivity].
Qed.

(** * The storage is only read *)

Lemma keeps_nothing A (p : Promise A) :
  (forall w, send_cookies (snd (p w)) = send_cookies w
             /\ connections (snd (p w)) = connections w) -> keeps_storage p.
Proof. intros H. exact H. Qed.

Lemma keeps_resolve A (a : A) : keeps_storage (resolve a).
Proof. intros w. split; reflexivity. Qed.

Lemma keeps_reject A e : keeps_storage (@reject A e).
Proof. intros w. split; reflexivity. Qed.

Lemma keeps_pending A : keeps_storage (@pending A).
Proof. intros w. split; reflexivity. Qed.

Lemma keeps_out_of_fuel A : keeps_storage (@out_of_fuel A).
Proof. intros w. split; reflexivity. Qed.

Lemma keeps_read A (f : World -> A) : keeps_storage (read f).
Proof. intros w. split; reflexivity. Qed.

Lemma keeps_update (f : World -> World) :
  (forall w, send_cookies (f w) = send_cookies w /\ connections (f w) = connections w) ->
  keeps_storage (update f).
Proof. intros H. exact H. Qed.

Lemma keeps_fetch P r : keeps_storage (do_fetch P r).
Proof. intros w. split; reflexivity. Qed.

Lemma keeps_then A B (p : Promise A) (f : A -> Promise B) :
  keeps_storage p -> (forall a, keeps_storage (f a)) -> keeps_storage (then_ p f).
Proof.
  intros Hp Hf w. unfold then_. destruct (Hp w) as [H1 H2].
  destruct (p w) as [[a|e| |] w1]; cbn [snd] in *; try (split; assumption).
  destruct (Hf a w1) as [H3 H4]. split; congruence.
Qed.

Lemma keeps_catch A (p : Promise A) (h : Error -> Promise A) :
  keeps_storage p -> (forall e, keeps_storage (h e)) -> keeps_storage (catch_ p h).
Proof.
  intros Hp Hh w. unfold catch_. destruct (Hp w) as [H1 H2].
  destruct (p w) as [[a|e| |] w1]; cbn [snd] in *; try (split; assumption).
  destruct (Hh e w1) as [H3 H4]. split; congruence.
Qed.

Ltac keeps_step :=
  match goal with
  | |- _ => assumption
  | |- keeps_storage (resolve _) => apply keeps_resolve
  | |- keeps_storage (reject _) => apply keeps_reject
  | |- keeps_storage pending => apply keeps_pending
  | |- keeps_storage out_of_fuel => apply keeps_out_of_fuel
  | |- keeps_storage (read _) => apply keeps_read
  | |- keeps_storage (do_fetch _ _) => apply keeps_fetch
  | |- keeps_storage (update _) => apply keeps_update; intro; split; reflexivity
  | |- keeps_storage (then_ _ _) => apply keeps_then; [|intro]
  | |- keeps_storage (catch_ _ _) => apply keeps_catch; [|intro]
  | |- keeps_storage (if ?b then _ else _) => destruct b
  | |- keeps_storage (match ?x with _ => _ end) => destruct x
  end.

Ltac keeps := repeat keeps_step.

Lemma gen2_init_keeps P : keeps_storage (Gen2._initState P).
Proof.
  intros w. unfold Gen2._initState.
  destruct (Gen2.stored_list P (connections w)); split; reflexivity.
Qed.

Lemma gen2_request_keeps P fuel :
  (forall st c s, keeps_storage (Gen2._request P fuel st c s))
  /\ keeps_storage (Gen2._getSession P fuel)
  /\ (forall s, keeps_storage (Gen2._doLogin P fuel s)).
Proof.
  induction fuel as [|n (IHr & IHs & IHl)].
  - split; [|split]; intros; apply keeps_out_of_fuel.
  - split; [|split].
    + intros st c s. pose proof (gen2_init_keeps P) as Hinit.
      pose proof (IHr st c s) as Hretry.
      cbn [Gen2._request]. keeps.
      * unfold Gen2.on_response. keeps.
      * unfold Gen2.on_payload. keeps.
      * unfold Gen2.on_failure. keeps.
    + pose proof (IHr "auth.check_session" (mkCall "auth.check_session" []) true).
      pose proof (IHl false).
      cbn [Gen2._getSession]. keeps.
    + intros s. cbn [Gen2._doLogin]. keeps. apply IHr.
Qed.

Lemma gen2_fold_keeps (attempt : JSON -> Promise JSON) hosts :
  (forall h, keeps_storage (attempt h)) ->
  forall p, keeps_storage p ->
    keeps_storage (fold_left (fun promise host => catch_ promise (fun _ => attempt host))
                     hosts p).
Proof.
  intros Ha. induction hosts as [|h rest IH]; intros p Hp; cbn [fold_left].
  - exact Hp.
  - apply IH. apply keeps_catch; [exact Hp|intro; apply Ha].
Qed.

Lemma gen2_connect_keeps P fuel silent : keeps_storage (Gen2._connect P fuel silent).
Proof.
  destruct (gen2_request_keeps P fuel) as (Hr & Hs & Hl).
  pose proof (gen2_init_keeps P) as Hinit.
  pose proof (Hl silent) as Hlogin.
  assert (Hstatus : forall id, keeps_storage (Gen2._getHostStatus P fuel id)).
  { intros id. unfold Gen2._getHostStatus. keeps; apply Hr. }
  assert (Hconnect : forall info, keeps_storage (Gen2._connectDaemon P fuel info)).
  { intros info. unfold Gen2._connectDaemon. keeps. apply Hr. }
  assert (Hstart : forall info, keeps_storage (Gen2._startDaemon P fuel info)).
  { intros info. unfold Gen2._startDaemon. keeps; [apply Hr|apply Hconnect]. }
  assert (Htry : forall h, keeps_storage (Gen2.try_host P fuel h)).
  { intros h. unfold Gen2.try_host. cbv zeta. keeps;
      first [apply Hstatus | apply Hconnect | apply Hstart]. }
  unfold Gen2._connect, Gen2.establish_session, Gen2._checkDaemonConnection,
    Gen2._getDaemons, Gen2._getConnectedDaemon, Gen2._getServerConfig. cbv zeta.
  keeps; try apply Hr.
  all: unfold Gen2.try_hosts; apply gen2_fold_keeps; [exact Htry|apply keeps_reject].
Qed.

(** * Runs that never end *)

Lemma then_out_of_fuel A B (p : Promise A) (f : A -> Promise B) w w' :
  p w = (OutOfFuel, w') -> then_ p f w = (OutOfFuel, w').
Proof. intros H. unfold then_. rewrite H. reflexivity. Qed.

Lemma ready_configured answer : ready (panel answer) configured.
Proof. exists "http://localhost:8112", "http://localhost:8112/json". auto. Qed.

(** On a panel that answers 403 to everything the first generation logs in
    again and again: no amount of fuel lets a call settle. *)
Lemma gen1_relogin_never_ends fuel :
  forall st c silent w,
    ready locked w -> present (SERVER_PASS w) = true ->
    includes "add_torrent" (call_method c) = false ->
    exists w', Gen1._request locked fuel st c silent w = (OutOfFuel, w').
Proof.
  induction fuel as [|n IH]; intros st c silent w Hready Hpass Hc.
  - eexists. reflexivity.
  - destruct (ready_outgoing locked c w Hready) as [r Hout].
    rewrite (gen1_request_expired locked n st c silent w r Hout)
      by (cbn; rewrite Hc; reflexivity).
    unfold Gen1.relogin_and_retry. rewrite then_update.
    set (w1 := set_tokens None None _).
    assert (Hun : unchanged w w1).
    { unfold w1. eapply unchanged_trans; [|apply unchanged_set_tokens].
      eapply unchanged_trans; [apply unchanged_sent_state | apply received_unchanged]. }
    assert (Hlogin : exists w', Gen1._doLogin_with (Gen1._request locked n) silent w1
                                = (OutOfFuel, w')).
    { unfold Gen1._doLogin_with. rewrite then_read.
      rewrite (same_pass _ _ Hun).
      destruct (SERVER_PASS w) as [pw|] eqn:Hpw; [|discriminate].
      cbn [present] in Hpass. rewrite Hpass.
      destruct (IH "dologin" (mkCall "auth.login" [JStr pw]) silent w1) as [w' Hrun].
      - eapply ready_unchanged; eauto.
      - rewrite (same_pass _ _ Hun), Hpw. exact Hpass.
      - reflexivity.
      - exists w'. erewrite then_out_of_fuel; [reflexivity|exact Hrun]. }
    destruct Hlogin as [w' Hlogin]. exists w'.
    erewrite then_out_of_fuel; [reflexivity|exact Hlogin].
Qed.

Ltac ask Hm :=
  cbv [fetch panel answering flaky stale unconfirmed locked serving labelplus_only
       no_labels two_hosts one_host legacy_host label_plugin legacy_labels];
  rewrite ?Hm; cbn.

Ltac served :=
  eexists; split; [exists 200%N, None, None; split; reflexivity|];
  split; [split; [reflexivity|discriminate]|].

Lemma unconfirmed_login : serves unconfirmed "auth.login" always is_truthy.
Proof.
  intros h r Hm _. ask Hm. served. reflexivity.
Qed.

Lemma unconfirmed_probe : serves unconfirmed "auth.check_session" always is_not_true.
Proof.
  intros h r Hm _. ask Hm. served. reflexivity.
Qed.

(** When the session check keeps reporting no session although every login
    is accepted, the second generation alternates logins and checks for
    ever. *)
Lemma gen2_session_never_ends fuel :
  forall w, ready unconfirmed w -> present (SERVER_PASS w) = true ->
    (exists w', Gen2._getSession unconfirmed fuel w = (OutOfFuel, w'))
    /\ (forall silent, exists w', Gen2._doLogin unconfirmed fuel silent w = (OutOfFuel, w')).
Proof.
  induction fuel as [|n IH]; intros w Hready Hpass.
  - split; [|intro]; eexists; reflexivity.
  - split.
    + cbn [Gen2._getSession]. destruct n as [|n].
      * eexists. reflexivity.
      * destruct (gen2_request_served unconfirmed n "auth.check_session"
                    (mkCall "auth.check_session" []) true w _ _ Hready unconfirmed_probe I)
          as (p & r & w1 & Hrun & Hgood & _ & _ & _ & Hun).
        erewrite then_resolved by exact Hrun. rewrite Hgood.
        apply IH; [eapply ready_unchanged; eauto|].
        rewrite (same_pass _ _ Hun). exact Hpass.
    + intros silent. cbn [Gen2._doLogin]. rewrite then_read.
      destruct (SERVER_PASS w) as [pw|] eqn:Hpw; [|discriminate].
      cbn [present] in Hpass. rewrite Hpass. destruct n as [|n].
      * eexists. reflexivity.
      * destruct (gen2_request_served unconfirmed n "auth.login"
                    (mkCall "auth.login" [JStr pw]) silent w _ _ Hready unconfirmed_login I)
          as (p & r & w1 & Hrun & Hgood & _ & _ & _ & Hun).
        erewrite then_resolved by exact Hrun. rewrite Hgood.
        destruct (IH w1) as [[w' Hloop] _].
        -- eapply ready_unchanged; eauto.
        -- rewrite (same_pass _ _ Hun), Hpw. exact Hpass.
        -- exists w'. erewrite then_out_of_fuel; [reflexivity|exact Hloop].
Qed.

(** * The sample panels do what they are meant to *)

Lemma serves_weaken P m when (good good' : JSON -> Prop) :
  (forall v, good v -> good' v) -> serves P m when good -> serves P m when good'.
Proof.
  intros Hg H h r Hm Hw. destruct (H h r Hm Hw) as (p & Ha & Hc & Hgood).
  exists p. auto.
Qed.

Lemma serves_answers P m ps when good : serves P m when good -> answers P m ps when good.
Proof. intros H h r Hm _ Hw. exact (H h r Hm Hw). Qed.

Lemma flaky_expires1 k m :
  includes "add_torrent" m = false -> expires_first (flaky k m) gen1_auth_expired m k.
Proof.
  intros Hm. split.
  - intros h r Hr Hlt. cbv [fetch flaky panel]. rewrite Hr, String.eqb_refl.
    apply Nat.ltb_lt in Hlt. rewrite Hlt. cbn. rewrite Hm. reflexivity.
  - intros h r Hr Hge. cbv [fetch flaky panel]. rewrite Hr, String.eqb_refl.
    apply Nat.ltb_ge in Hge. rewrite Hge. served. exact I.
Qed.

Lemma flaky_expires2 k m :
  includes "torrent" m = false -> expires_first (flaky k m) gen2_auth_expired m k.
Proof.
  intros Hm. split.
  - intros h r Hr Hlt. cbv [fetch flaky panel]. rewrite Hr, String.eqb_refl.
    apply Nat.ltb_lt in Hlt. rewrite Hlt. cbn. rewrite Hm. reflexivity.
  - intros h r Hr Hge. cbv [fetch flaky panel]. rewrite Hr, String.eqb_refl.
    apply Nat.ltb_ge in Hge. rewrite Hge. served. exact I.
Qed.

Lemma flaky_login k m :
  m <> "auth.login" -> serves (flaky k m) "auth.login" always is_exactly_true.
Proof.
  intros Hm h r Hr _. cbv [fetch flaky panel answering]. rewrite Hr.
  destruct (String.eqb_spec "auth.login" m) as [E|_]; [congruence|].
  cbn. served. reflexivity.
Qed.

Lemma flaky_probe k m :
  m <> "auth.check_session" -> serves (flaky k m) "auth.check_session" always is_exactly_true.
Proof.
  intros Hm h r Hr _. cbv [fetch flaky panel answering]. rewrite Hr.
  destruct (String.eqb_spec "auth.check_session" m) as [E|_]; [congruence|].
  cbn. served. reflexivity.
Qed.

Lemma exactly_true_truthy v : is_exactly_true v -> is_truthy v.
Proof. intros ->. reflexivity. Qed.

Lemma exactly_false_falsy v : is_exactly_false v -> is_falsy v.
Proof. intros ->. reflexivity. Qed.

Lemma exactly_false_not_true v : is_exactly_false v -> is_not_true v.
Proof. intros ->. reflexivity. Qed.

Lemma stale_probe_before k :
  0 < k -> serves (stale k) "auth.check_session" not_logged_in is_exactly_false.
Proof.
  intros Hk h r Hr Hno. cbv [fetch stale panel]. rewrite Hr, String.eqb_refl.
  unfold not_logged_in in Hno. rewrite Hno.
  destruct k; [lia|]. served. reflexivity.
Qed.

Lemma stale_probe_after :
  serves (stale 1) "auth.check_session" logged_in is_exactly_true.
Proof.
  intros h r Hr Hin. cbv [fetch stale panel]. rewrite Hr, String.eqb_refl.
  unfold logged_in in Hin.
  replace (1 <=? count_method "auth.login" h)%nat with true
    by (symmetry; apply Nat.leb_le; lia).
  served. reflexivity.
Qed.

Lemma stale_login k : serves (stale k) "auth.login" always is_exactly_true.
Proof. intros h r Hr _. ask Hr. served. reflexivity. Qed.

(** * The claims *)

(** C1 (as amended).  Every answer to a call that the client classifies as
    an expired session is followed by one re-authentication and one retry
    of the call, and the retry is treated like the call itself: when the
    panel answers the first [k] sendings of a call with an expired session,
    the call is sent [k + 1] times.  The first generation logs in [k] times
    (HTTP 403 on a method without [add_torrent], or an error message with
    [Not authenticated]); the second generation checks the session [k]
    times and does not log in while the check succeeds (HTTP 403 on a
    method without [torrent]).  This holds for every [k]: the client has no
    bound on the number of rounds. *)
Theorem relogin_and_retry_for_each_expired_answer :
  forall (P : Platform) (m : string) (ps : list JSON) (k : nat)
         (st : string) (silent : bool) (w : World),
    m <> "auth.login" -> m <> "auth.check_session" ->
    ready P w -> present (SERVER_PASS w) = true -> count_method m (trace w) = 0 ->
    (expires_first P gen1_auth_expired m k ->
     serves P "auth.login" always is_truthy ->
     serves P "auth.check_session" always is_truthy ->
     forall fuel, k < fuel ->
       exists p w',
         Gen1._request P fuel st (mkCall m ps) silent w = (Resolved p, w')
         /\ count_method m (added w w') = k + 1
         /\ count_method "auth.login" (added w w') = k)
    /\
    (expires_first P gen2_auth_expired m k ->
     serves P "auth.check_session" always is_exactly_true ->
     forall fuel, k + 2 <= fuel ->
       exists p w',
         Gen2._request P fuel st (mkCall m ps) silent w = (Resolved p, w')
         /\ count_method m (added w w') = k + 1
         /\ count_method "auth.check_session" (added w w') = k
         /\ count_method "auth.login" (added w w') = 0).
Proof.
  intros P m ps k st silent w Hm1 Hm2 Hready Hpass Hcount. split.
  - intros Hexp Hlogin Hprobe fuel Hfuel.
    destruct (gen1_rounds P m ps k Hm1 Hm2 Hexp Hlogin Hprobe k fuel st silent w)
      as (p & new & w' & Hrun & Htr & Hc1 & Hc2 & _); try assumption; [lia|].
    exists p, w'. rewrite (added_app w w' new Htr). auto.
  - intros Hexp Hprobe fuel Hfuel.
    destruct (gen2_rounds P m ps k Hm1 Hm2 Hexp Hprobe k fuel st silent w)
      as (p & new & w' & Hrun & Htr & Hc1 & Hc2 & Hc3 & _); try assumption; [lia|].
    exists p, w'. rewrite (added_app w w' new Htr). auto.
Qed.

Lemma relogin_and_retry_witness :
  (exists p w',
     Gen1._request (flaky 2 "web.connected") 3 "check-daemon"
       (mkCall "web.connected" []) false configured = (Resolved p, w')
     /\ count_method "web.connected" (added configured w') = 2 + 1
     /\ count_method "auth.login" (added configured w') = 2)
  /\
  (exists p w',
     Gen2._request (flaky 2 "web.connected") 4 "check-daemon"
       (mkCall "web.connected" []) false configured = (Resolved p, w')
     /\ count_method "web.connected" (added configured w') = 2 + 1
     /\ count_method "auth.check_session" (added configured w') = 2
     /\ count_method "auth.login" (added configured w') = 0).
Proof.
  destruct (relogin_and_retry_for_each_expired_answer (flaky 2 "web.connected")
              "web.connected" [] 2 "check-daemon" false configured) as [H1 H2].
  - discriminate.
  - discriminate.
  - apply ready_configured.
  - reflexivity.
  - reflexivity.
  - split.
    + apply H1.
      * apply flaky_expires1. reflexivity.
      * eapply serves_weaken; [apply exactly_true_truthy|]. apply flaky_login. discriminate.
      * eapply serves_weaken; [apply exactly_true_truthy|]. apply flaky_probe. discriminate.
      * lia.
    + apply H2.
      * apply flaky_expires2. reflexivity.
      * apply flaky_probe. discriminate.
      * lia.
Defined.

(** C1, as stated, fails: one call to [web.connected] whose first two
    answers are HTTP 403 makes the first generation log in twice and send
    the call three times. *)
Lemma relogin_twice_for_one_call :
  exists p w',
    Gen1._request (flaky 2 "web.connected") 3 "check-daemon"
      (mkCall "web.connected" []) false configured = (Resolved p, w')
    /\ count_method "auth.login" (added configured w') = 2
    /\ count_method "web.connected" (added configured w') = 3.
Proof. eexists _, _. split; [vm_compute; reflexivity|]. split; reflexivity. Qed.

Lemma added_nothing w w' : trace w' = trace w -> added w w' = [].
Proof. intros H. unfold added. rewrite H. apply skipn_all. Qed.

(** C2.  When the stored connection list is empty, [_connect] rejects with
    the error kept for a missing configuration, "Server URL not set after
    initialization", and sends nothing to the panel (both generations). *)
Theorem connect_without_configuration :
  forall (P : Platform) (fuel : nat) (silent : bool) (w : World),
    connections w = ConnectionsArray [] ->
    (exists w',
       Gen1._connect P fuel silent w
       = (Rejected (Err "Server URL not set after initialization"), w')
       /\ added w w' = [])
    /\
    (exists w',
       Gen2._connect P fuel silent w
       = (Rejected (Err "Server URL not set after initialization"), w')
       /\ added w w' = []).
Proof.
  intros P fuel silent w Hstored. split.
  - exists (set_target [] None None w). split; [|apply added_nothing; reflexivity].
    unfold Gen1._connect, then_, Gen1._initState. rewrite Hstored. reflexivity.
  - exists (set_target [] None None w). split; [|apply added_nothing; reflexivity].
    unfold Gen2._connect, then_, Gen2._initState. rewrite Hstored. reflexivity.
Qed.

Lemma connect_without_configuration_witness :
  (exists w',
     Gen1._connect locked 3 false unconfigured
     = (Rejected (Err "Server URL not set after initialization"), w')
     /\ added unconfigured w' = [])
  /\
  (exists w',
     Gen2._connect locked 3 false unconfigured
     = (Rejected (Err "Server URL not set after initialization"), w')
     /\ added unconfigured w' = []).
Proof. apply connect_without_configuration. reflexivity. Defined.

(** The scenario of C8 in which the login is confirmed.  When the session
    check reports no session before the login, the login is accepted, and
    the session check after it reports a session, establishing the session
    sends exactly one session check, one login and one confirming session
    check, in this order, and resolves (both generations). *)
Theorem session_with_one_login :
  forall (P : Platform) (n : nat) (silent : bool) (w : World),
    ready P w -> present (SERVER_PASS w) = true -> not_logged_in (trace w) ->
    serves P "auth.check_session" not_logged_in is_exactly_false ->
    serves P "auth.login" always is_exactly_true ->
    serves P "auth.check_session" logged_in is_exactly_true ->
    (exists v w',
       Gen1.establish_session P (S n) silent w = (Resolved v, w')
       /\ map req_method (added w w')
          = ["auth.check_session"; "auth.login"; "auth.check_session"])
    /\
    (exists v w',
       Gen2.establish_session P (S (S (S (S n)))) silent w = (Resolved v, w')
       /\ map req_method (added w w')
          = ["auth.check_session"; "auth.login"; "auth.check_session"]).
Proof.
  intros P n silent w Hready Hpass Hnot Hp0 Hlogin Hp1. split.
  - destruct (gen1_session_one_login P n silent w Hready Hpass Hnot)
      as (v & w' & Hrun & Hcalls & _).
    + eapply serves_weaken; [apply exactly_false_falsy|exact Hp0].
    + eapply serves_weaken; [apply exactly_true_truthy|exact Hlogin].
    + eapply serves_weaken; [apply exactly_true_truthy|exact Hp1].
    + exists v, w'. auto.
  - destruct (gen2_session_one_login P n silent w Hready Hpass Hnot)
      as (v & w' & Hrun & Hcalls & _).
    + eapply serves_weaken; [apply exactly_false_not_true|exact Hp0].
    + eapply serves_weaken; [apply exactly_true_truthy|exact Hlogin].
    + exact Hp1.
    + exists v, w'. auto.
Qed.

Lemma session_with_one_login_witness :
  (exists v w',
     Gen1.establish_session (stale 1) 1 false configured = (Resolved v, w')
     /\ map req_method (added configured w')
        = ["auth.check_session"; "auth.login"; "auth.check_session"])
  /\
  (exists v w',
     Gen2.establish_session (stale 1) 4 false configured = (Resolved v, w')
     /\ map req_method (added configured w')
        = ["auth.check_session"; "auth.login"; "auth.check_session"]).
Proof.
  apply session_with_one_login.
  - apply ready_configured.
  - reflexivity.
  - reflexivity.
  - apply stale_probe_before. lia.
  - apply stale_login.
  - apply stale_probe_after.
Defined.

(** C8 (the code falls short of it).  When the login is accepted but the
    session check that follows does not confirm the session, the second
    generation logs in again instead of giving up: [_getSession] calls
    [_doLogin] whenever the check is not [true], and [_doLogin] calls
    [_getSession] after every accepted login.  On a panel that confirms the
    session only after a second login, one establishment sends two logins.
    The first generation logs in once, checks once, and rejects. *)
Theorem unconfirmed_login_is_repeated :
  (exists w',
     Gen2.establish_session (stale 2) 6 false configured = (Resolved (JBool true), w')
     /\ map req_method (added configured w')
        = ["auth.check_session"; "auth.login"; "auth.check_session";
           "auth.login"; "auth.check_session"]
     /\ count_method "auth.login" (added configured w') = 2)
  /\ (exists w',
        Gen1.establish_session (stale 2) 6 false configured
        = (Rejected (Err "Invalid session"), w')
        /\ map req_method (added configured w')
           = ["auth.check_session"; "auth.login"; "auth.check_session"]
        /\ count_method "auth.login" (added configured w') = 1).
Proof.
  split; (eexists; split; [vm_compute; reflexivity|]; split; reflexivity).
Qed.

(** C10 (as amended).  In the second generation, for a URL that is not a
    magnet link, with [send_cookies] stored as [false] and options from
    which the parameter object is built, the promise of
    [_addTorrentUrlToServer] is never settled and nothing is sent.  The
    promise of [addTorrent] is never settled either once [_connect] has
    resolved; it is rejected with the error of [_connect] when that is
    rejected, and with its own error when no server URL is set. *)
Theorem add_torrent_pending_without_cookies :
  forall (P : Platform) (fuel : nat) (u : string)
         (options cookies : option (list (string * JSON))) (w : World),
    startsWith "magnet:" u = false -> send_cookies w = JBool false -> builds options ->
    Gen2._addTorrentUrlToServer P fuel u options cookies w = (Pending, w)
    /\ (forall plugins c w1,
          present (SERVER_URL w) = true ->
          Gen2._connect P fuel false w = (Resolved c, w1) ->
          Gen2.addTorrent P fuel u cookies plugins options w = (Pending, w1))
    /\ (forall plugins e w1,
          present (SERVER_URL w) = true ->
          Gen2._connect P fuel false w = (Rejected e, w1) ->
          Gen2.addTorrent P fuel u cookies plugins options w = (Rejected e, w1))
    /\ (forall plugins,
          present (SERVER_URL w) = false ->
          Gen2.addTorrent P fuel u cookies plugins options w
          = (Rejected (Err "SERVER_URL is not set. Please configure it in the options."), w)).
Proof.
  intros P fuel u options cookies w Hmagnet Hsend [params Hparams].
  assert (Hpending : forall w0, send_cookies w0 = JBool false ->
            Gen2._addTorrentUrlToServer P fuel u options cookies w0 = (Pending, w0)).
  { intros w0 H0. unfold Gen2._addTorrentUrlToServer.
    rewrite Hparams, Hmagnet, then_read, H0. reflexivity. }
  split; [apply Hpending; exact Hsend|]. split; [|split].
  - intros plugins c w1 Hurl Hconnect.
    unfold Gen2.addTorrent. rewrite then_read, Hurl. cbn [negb].
    erewrite then_resolved by exact Hconnect.
    unfold then_ at 1. rewrite Hpending; [reflexivity|].
    destruct (gen2_connect_keeps P fuel false w) as [Hkept _].
    rewrite Hconnect in Hkept. cbn [snd] in Hkept. congruence.
  - intros plugins e w1 Hurl Hconnect.
    unfold Gen2.addTorrent. rewrite then_read, Hurl. cbn [negb].
    erewrite then_rejected by exact Hconnect. reflexivity.
  - intros plugins Hurl.
    unfold Gen2.addTorrent. rewrite then_read, Hurl. reflexivity.
Qed.

Lemma add_torrent_pending_witness :
  Gen2._addTorrentUrlToServer (serving (JObj []) (ok (JStr "abc"))) 3
    "http://tracker.example/file.torrent" None (Some []) without_cookies
  = (Pending, without_cookies)
  /\ exists w1,
       Gen2.addTorrent (serving (JObj [("allow_remote", JBool true)]) (ok (JStr "abc"))) 3
         "http://tracker.example/file.torrent" (Some []) None None without_cookies
       = (Pending, w1).
Proof.
  assert (Hbuilds : builds None) by (exists (plain []); reflexivity).
  split.
  - apply add_torrent_pending_without_cookies; [reflexivity|reflexivity|exact Hbuilds].
  - destruct (add_torrent_pending_without_cookies
                (serving (JObj [("allow_remote", JBool true)]) (ok (JStr "abc"))) 3
                "http://tracker.example/file.torrent" None (Some []) without_cookies
                eq_refl eq_refl Hbuilds) as (_ & H & _).
    eexists. eapply H; [reflexivity|]. vm_compute. reflexivity.
Defined.

(** C10, as stated, fails: with [send_cookies] stored as [false] and a URL
    that is not a magnet link, the promise of [addTorrent] is settled when no
    server URL is set (it is rejected at once), and when the options hold a
    property named [hasOwnProperty] before another one (the parameter object
    cannot be built, and the promise is rejected once [_connect] has
    resolved). *)
Lemma add_torrent_settles_without_cookies :
  send_cookies unset_without_cookies = JBool false
  /\ Gen2.addTorrent (serving (JObj [("allow_remote", JBool true)]) (ok (JStr "abc"))) 3
       "http://tracker.example/file.torrent" (Some []) None None unset_without_cookies
     = (Rejected (Err "SERVER_URL is not set. Please configure it in the options."),
        unset_without_cookies)
  /\ exists w1,
       Gen2.addTorrent (serving (JObj [("allow_remote", JBool true)]) (ok (JStr "abc"))) 3
         "http://tracker.example/file.torrent" (Some []) None
         (Some [("hasOwnProperty", JNum 1); ("x", JNum 2)]) without_cookies
       = (Rejected (TypeError "params.hasOwnProperty is not a function"), w1).
Proof.
  split; [reflexivity|]. split; [reflexivity|].
  eexists. vm_compute. reflexivity.
Qed.

(** C3 (as amended).  In both generations the locator tries the hosts
    strictly in list order, one after the other ([try_hosts] is
    [first_success]), and once the attempt for a host has succeeded, the
    outcome and the world, and with it the trace of requests, are those of
    that attempt: nothing is sent for the hosts that follow.  In the first
    generation a host reported [Connected] is adopted after the status query
    alone; a host reported [Online] after one [web.connect]; a host reported
    [Offline] after [web.start_daemon], a further status query that reports
    it [Online], and one [web.connect], as long as [CONNECT_ATTEMPTS] is
    below 5; a host that is still reported [Offline] after the start call is
    asked for its status until [CONNECT_ATTEMPTS] is 5 and then given up,
    without a [web.connect]. *)
Theorem locator_adopts_first_success :
  (forall P fuel hosts w,
     Gen1.try_hosts P fuel hosts w
     = first_success (Gen1.try_host P fuel) (Err "Starting daemon connection attempts")
         hosts w)
  /\ (forall P fuel hosts w,
        Gen2.try_hosts P fuel hosts w
        = first_success (Gen2.try_host P fuel) (Err "Starting daemon connection attempts")
            hosts w)
  /\ (forall P fuel before h after w e w1 v w2,
        no_daemon w ->
        Gen1.try_hosts P fuel before w = (Rejected e, w1) ->
        Gen1.try_host P fuel h w1 = (Resolved v, w2) ->
        Gen1._getConnectedDaemon P fuel (JArr (before ++ h :: after)) w = (Resolved v, w2))
  /\ (forall P fuel before h after w e w1 v w2,
        no_daemon w ->
        Gen2.try_hosts P fuel before w = (Rejected e, w1) ->
        Gen2.try_host P fuel h w1 = (Resolved v, w2) ->
        Gen2._getConnectedDaemon P fuel (JArr (before ++ h :: after)) w = (Resolved v, w2))
  /\ (forall P n id ip port w,
        ready P w ->
        answers P "web.get_host_status" [id] always (gen1_status id "Connected") ->
        adopts_host id (Gen1.try_host P (S n) (JArr [id; ip; port]) w) w
          [("web.get_host_status", [id])])
  /\ (forall P n id ip port w,
        ready P w ->
        answers P "web.get_host_status" [id] always (gen1_status id "Online") ->
        answers P "web.connect" [id] always anything ->
        adopts_host id (Gen1.try_host P (S n) (JArr [id; ip; port]) w) w
          [("web.get_host_status", [id]); ("web.connect", [id])])
  /\ (forall P n id ip port w,
        ready P w -> CONNECT_ATTEMPTS w < 5 -> never_started (trace w) ->
        answers P "web.get_host_status" [id] never_started (gen1_status id "Offline") ->
        (forall ps, answers P "web.start_daemon" ps always anything) ->
        answers P "web.get_host_status" [id] started (gen1_status id "Online") ->
        answers P "web.connect" [id] always anything ->
        exists started_port,
          adopts_host id (Gen1.try_host P (S (S n)) (JArr [id; ip; port]) w) w
            [("web.get_host_status", [id]); ("web.start_daemon", [started_port]);
             ("web.get_host_status", [id]); ("web.connect", [id])])
  /\ (forall P fuel id ip port w,
        ready P w -> CONNECT_ATTEMPTS w <= 5 -> 6 - CONNECT_ATTEMPTS w < fuel ->
        answers P "web.get_host_status" [id] always (gen1_status id "Offline") ->
        (forall ps, answers P "web.start_daemon" ps always anything) ->
        exists started_port,
          gives_up "Max connection attempts reached"
            (Gen1.try_host P fuel (JArr [id; ip; port]) w) w
            (("web.get_host_status", [id]) :: ("web.start_daemon", [started_port])
             :: repeat ("web.get_host_status", [id]) (5 - CONNECT_ATTEMPTS w))).
Proof.
  split; [exact gen1_try_hosts_in_order|].
  split; [exact gen2_try_hosts_in_order|].
  split.
  { intros P fuel before h after w e w1 v w2 Hno Hfail Hok.
    rewrite gen1_try_hosts_in_order in Hfail.
    eapply gen1_locator_first_success; eauto. }
  split.
  { intros P fuel before h after w e w1 v w2 Hno Hfail Hok.
    rewrite gen2_try_hosts_in_order in Hfail.
    eapply gen2_locator_first_success; eauto. }
  split; [exact gen1_path_connected|].
  split; [exact gen1_path_online|].
  split; [exact gen1_path_offline|exact gen1_path_stays_offline].
Qed.

Lemma one_host_reports s :
  s <> "Offline" ->
  answers (one_host s) "web.get_host_status" [JStr "h1"] always (gen1_status (JStr "h1") s).
Proof.
  intros Hs h r Hm _ _. cbv [fetch one_host panel]. rewrite Hm, String.eqb_refl.
  destruct (String.eqb_spec s "Offline") as [E|_]; [contradiction|].
  cbn [andb]. served. left. eexists. reflexivity.
Qed.

Lemma one_host_offline :
  answers (one_host "Offline") "web.get_host_status" [JStr "h1"] never_started
    (gen1_status (JStr "h1") "Offline").
Proof.
  intros h r Hm _ Hnever. cbv [fetch one_host panel]. rewrite Hm, !String.eqb_refl.
  unfold never_started in Hnever. rewrite Hnever.
  cbn [andb Nat.ltb Nat.leb]. served. left. eexists. reflexivity.
Qed.

Lemma one_host_started :
  answers (one_host "Offline") "web.get_host_status" [JStr "h1"] started
    (gen1_status (JStr "h1") "Online").
Proof.
  intros h r Hm _ Hstarted. cbv [fetch one_host panel]. rewrite Hm, !String.eqb_refl.
  unfold started in Hstarted. apply Nat.ltb_lt in Hstarted. rewrite Hstarted.
  cbn [andb]. served. left. eexists. reflexivity.
Qed.

Lemma healthy_accepts (status : list Request -> Request -> FetchOutcome) m ps :
  m <> "web.get_host_status" ->
  answers (panel (fun h r => if req_method r =? "web.get_host_status" then status h r
                             else answering healthy (ok JNull) h r))
    m ps always anything.
Proof.
  intros Hne h r Hm _ _. cbv [fetch panel answering]. rewrite Hm.
  destruct (String.eqb_spec m "web.get_host_status") as [E|_]; [contradiction|].
  destruct (find _ healthy) as [[? o]|] eqn:Hfind.
  - cbn in Hfind.
    repeat match type of Hfind with
           | (if ?c then _ else _) = _ => destruct c
           end; inversion Hfind; subst; served; exact I.
  - served. exact I.
Qed.

Lemma one_host_accepts s m ps :
  m <> "web.get_host_status" -> answers (one_host s) m ps always anything.
Proof. apply healthy_accepts. Qed.

Lemma legacy_host_reports s :
  answers (legacy_host s) "web.get_host_status" [JStr "h1"] always
    (gen1_status (JStr "h1") s).
Proof.
  intros h r Hm _ _. cbv [fetch legacy_host panel]. rewrite Hm, String.eqb_refl.
  served. right. eexists _, _, _. reflexivity.
Qed.

Lemma legacy_host_accepts s m ps :
  m <> "web.get_host_status" -> answers (legacy_host s) m ps always anything.
Proof. apply healthy_accepts. Qed.

Lemma two_hosts_offline :
  answers two_hosts "web.get_host_status" [JStr "h1"] always
    (gen1_status (JStr "h1") "Offline").
Proof.
  intros h r Hm Hp _. cbv [fetch two_hosts panel]. rewrite Hm, Hp, String.eqb_refl.
  served. left. eexists. reflexivity.
Qed.

Lemma two_hosts_accepts m ps :
  m <> "web.get_host_status" -> answers two_hosts m ps always anything.
Proof. apply healthy_accepts. Qed.

Lemma ready_listed answer : ready (panel answer) listed.
Proof. exists "http://localhost:8112", "http://localhost:8112/json". auto. Qed.

Lemma listed_knows : knows_host (JStr "h1") listed.
Proof. exists [host "h1"; host "h2"], (host "h1"). split; reflexivity. Qed.

Lemma locator_witness :
  (exists v w2,
     Gen1._getConnectedDaemon two_hosts 7 (JArr ([host "h1"] ++ host "h2" :: [host "h3"]))
       configured = (Resolved v, w2)
     /\ Gen1.try_hosts two_hosts 7 [host "h1"; host "h2"] configured = (Resolved v, w2))
  /\ adopts_host (JStr "h1")
       (Gen1.try_host (one_host "Connected") 1 (host "h1") configured) configured
       [("web.get_host_status", [JStr "h1"])]
  /\ adopts_host (JStr "h1")
       (Gen1.try_host (legacy_host "Connected") 1 (host "h1") configured) configured
       [("web.get_host_status", [JStr "h1"])]
  /\ adopts_host (JStr "h1")
       (Gen1.try_host (one_host "Online") 1 (host "h1") configured) configured
       [("web.get_host_status", [JStr "h1"]); ("web.connect", [JStr "h1"])]
  /\ (exists started_port,
        adopts_host (JStr "h1")
          (Gen1.try_host (one_host "Offline") 2 (host "h1") configured) configured
          [("web.get_host_status", [JStr "h1"]); ("web.start_daemon", [started_port]);
           ("web.get_host_status", [JStr "h1"]); ("web.connect", [JStr "h1"])])
  /\ (exists started_port,
        gives_up "Max connection attempts reached"
          (Gen1.try_host two_hosts 7 (host "h1") configured) configured
          (("web.get_host_status", [JStr "h1"]) :: ("web.start_daemon", [started_port])
           :: repeat ("web.get_host_status", [JStr "h1"]) (5 - CONNECT_ATTEMPTS configured))).
Proof.
  destruct locator_adopts_first_success
    as (_ & _ & Hfirst & _ & Hconnected & Honline & Hoffline & Hstays).
  split.
  { eexists _, _. split.
    - eapply Hfirst; [reflexivity | vm_compute; reflexivity | vm_compute; reflexivity].
    - vm_compute. reflexivity. }
  split.
  { apply Hconnected; [apply ready_configured|]. apply one_host_reports. discriminate. }
  split.
  { apply Hconnected; [apply ready_configured|]. apply legacy_host_reports. }
  split.
  { apply Honline; [apply ready_configured| |].
    - apply one_host_reports. discriminate.
    - apply one_host_accepts. discriminate. }
  split.
  { apply Hoffline.
    - apply ready_configured.
    - cbn. lia.
    - reflexivity.
    - apply one_host_offline.
    - intros ps. apply one_host_accepts. discriminate.
    - apply one_host_started.
    - apply one_host_accepts. discriminate. }
  apply Hstays.
  - apply ready_configured.
  - cbn. lia.
  - cbn. lia.
  - apply two_hosts_offline.
  - intros ps. apply two_hosts_accepts. discriminate.
Defined.

(** C3, as stated, fails: with a first host that is reported [Offline] and a
    second one that is [Connected], on a panel that accepts every start and
    connect call, the first generation starts the first host, polls its
    status until the attempts are used up without ever sending
    [web.connect], and adopts the second host. *)
Lemma offline_host_is_passed_over :
  exists w',
    Gen1._getConnectedDaemon two_hosts 7 (JArr [host "h1"; host "h2"]) configured
    = (Resolved (gen1_info (JStr "h2") (JStr "127.0.0.1") (JNum 58846) "Connected"
                   (JStr "2.1.1")), w')
    /\ calls configured w'
       = [("web.get_host_status", [JStr "h1"]); ("web.start_daemon", [JNum 58846]);
          ("web.get_host_status", [JStr "h1"]); ("web.get_host_status", [JStr "h1"]);
          ("web.get_host_status", [JStr "h1"]); ("web.get_host_status", [JStr "h1"]);
          ("web.get_host_status", [JStr "h1"]); ("web.get_host_status", [JStr "h2"])]
    /\ count_method "web.connect" (added configured w') = 0.
Proof. eexists. split; [vm_compute; reflexivity|]. split; reflexivity. Qed.

(** The second generation takes the status answer apart as
    [[status, info]].  On the answers of the panel, which start with the
    host id, it reads the id as the status: a host that is reported
    [Connected] is given up after the status query, in either layout. *)
Example second_generation_reads_the_host_id_as_status :
  (exists w',
     Gen2._getConnectedDaemon (one_host "Connected") 3 (JArr [host "h1"]) listed
     = (Rejected (Err "Unknown daemon status: h1"), w')
     /\ calls listed w' = [("web.get_host_status", [JStr "h1"])])
  /\ (exists w',
        Gen2._getConnectedDaemon (legacy_host "Connected") 3 (JArr [host "h1"]) listed
        = (Rejected (Err "Unknown daemon status: h1"), w')
        /\ calls listed w' = [("web.get_host_status", [JStr "h1"])]).
Proof. split; (eexists; split; [vm_compute; reflexivity|reflexivity]). Qed.

Lemma serving_fails config msg :
  fails_with (serving config (failed msg)) "core.add_torrent_url" msg.
Proof.
  intros h r Hm. ask Hm. eexists. split; [exists 200%N, None, None; split; reflexivity|].
  reflexivity.
Qed.

Lemma ready_with_cookies answer : ready (panel answer) with_cookies.
Proof. exists "http://localhost:8112", "http://localhost:8112/json". auto. Qed.

(** C4 (the code falls short of it).  In the second generation an
    add-torrent call that the panel answers with a 403-flavoured error, sent
    with site cookies, is rejected with the message of the panel as it is:
    not with the access error [_addTorrentViaUrl] prepares for this case.
    One request is sent; nothing is downloaded or submitted again. *)
Theorem access_denied_is_not_told_apart :
  forall (P : Platform) (n : nat) (u : string) (options : option (list (string * JSON)))
         (jar : list (string * JSON)) (w : World) (msg : string),
    ready P w -> builds options -> fails_with P "core.add_torrent_url" msg ->
    includes "403 Forbidden" msg = true ->
    startsWith "magnet:" u = false -> send_cookies w <> JBool false ->
    nonempty (Gen2.cookie_string jar) = true ->
    exists w',
      Gen2._addTorrentUrlToServer P (S n) u options (Some jar) w = (Rejected (Err msg), w')
      /\ Err msg <> access_error
      /\ length (added w w') = 1.
Proof.
  intros P n u options jar w msg Hready Hbuilds Hfail H403 Hmagnet Hsend _.
  destruct (gen2_access_error_verbatim P n u options jar w msg Hready Hbuilds Hfail H403
              Hmagnet Hsend)
    as (w' & Hrun & _ & Hlen).
  exists w'. split; [exact Hrun|]. split; [discriminate|exact Hlen].
Qed.

Lemma access_denied_witness :
  exists w',
    Gen2._addTorrentUrlToServer (serving JNull (failed "Failed to fetch: 403 Forbidden")) 1
      "http://tracker.example/file.torrent" None (Some [("session", JStr "abc")])
      with_cookies
    = (Rejected (Err "Failed to fetch: 403 Forbidden"), w')
    /\ Err "Failed to fetch: 403 Forbidden" <> access_error
    /\ length (added with_cookies w') = 1.
Proof.
  apply access_denied_is_not_told_apart.
  - apply ready_with_cookies.
  - exists (plain []). reflexivity.
  - apply serving_fails.
  - reflexivity.
  - reflexivity.
  - discriminate.
  - reflexivity.
Defined.

(** The first generation does tell the case apart (C4 holds of it): the
    rejection carries its own message, and one request is all it sends. *)
Lemma first_generation_tells_access_denied_apart :
  forall P n u options domain w msg,
    ready P w -> builds options -> fails_with P "core.add_torrent_url" msg ->
    includes "403 Forbidden" msg = true ->
    includes "Not authenticated" msg = false ->
    exists w',
      Gen1._addTorrentUrlToServer P (S n) u options domain w
      = (Rejected (Err "Remote server denied access - the site may require authentication"),
         w')
      /\ length (added w w') = 1.
Proof.
  intros P n u options domain w msg Hready Hbuilds Hfail H403 Hna.
  destruct (gen1_access_denied P n u options domain w msg Hready Hbuilds Hfail H403 Hna)
    as (w' & Hrun & _ & Hlen).
  exists w'. auto.
Qed.














(** A magnet link goes out as it came in. *)
Example magnet_link_is_submitted_unchanged :
  calls with_cookies
    (snd (Gen2._addTorrentUrlToServer (serving JNull (ok (JStr "abc"))) 1
            "magnet:?xt=urn:btih:abcd1234" None (Some []) with_cookies))
  = [("core.add_torrent_url", [JStr "magnet:?xt=urn:btih:abcd1234"; JObj []; JObj []])].
Proof. vm_compute. reflexivity. Qed.

Lemma serving_config config add :
  serves (serving config add) "core.get_config" always (config_is config).
Proof. intros h r Hm _. ask Hm. served. reflexivity. Qed.

(** C6 (the code falls short of it).  The second generation does not look at
    [allow_remote]: a server configuration that reports it [false] makes
    [_getServerConfig] resolve with that configuration. *)
Theorem remote_disabled_is_not_noticed :
  forall (P : Platform) (n : nat) (w : World) (cfg : JSON),
    ready P w -> serves P "core.get_config" always (config_is cfg) ->
    truthy cfg = true -> prop "allow_remote" cfg = JBool false ->
    exists w',
      Gen2._getServerConfig P (S n) w = (Resolved cfg, w') /\ server_config w' = cfg.
Proof.
  intros P n w cfg Hready Hcfg Htruthy _.
  destruct (gen2_config_ignores_allow_remote P n w cfg Hready Hcfg Htruthy)
    as (w' & Hrun & Hstored & _).
  exists w'. auto.
Qed.

Lemma remote_disabled_witness :
  exists w',
    Gen2._getServerConfig
      (serving (JObj [("allow_remote", JBool false)]) (ok (JStr "abc"))) 1 configured
    = (Resolved (JObj [("allow_remote", JBool false)]), w')
    /\ server_config w' = JObj [("allow_remote", JBool false)].
Proof.
  apply remote_disabled_is_not_noticed.
  - apply ready_configured.
  - apply serving_config.
  - reflexivity.
  - reflexivity.
Defined.

(** With such a configuration [addTorrent] of the second generation goes on
    to submit the torrent. *)
Example torrent_is_added_with_remote_disabled :
  exists w',
    Gen2.addTorrent (serving (JObj [("allow_remote", JBool false)]) (ok (JStr "abc"))) 3
      "magnet:?xt=urn:btih:abcd1234" (Some []) None None configured
    = (Resolved (JStr "abc"), w')
    /\ map req_method (added configured w')
       = ["auth.check_session"; "web.connected"; "core.get_config"; "core.add_torrent_url"].
Proof. eexists. split; [vm_compute; reflexivity|reflexivity]. Qed.

(** The first generation rejects (C6 holds of it). *)
Lemma first_generation_notices_remote_disabled :
  forall P n w,
    ready P w -> serves P "core.get_config_values" always remote_disabled ->
    exists w',
      Gen1._getServerConfig P (S n) w = (Rejected (Err "Remote connections disabled"), w').
Proof.
  intros P n w Hready Hcfg.
  destruct (gen1_config_remote_disabled P n w Hready Hcfg) as (w' & Hrun & _).
  exists w'. exact Hrun.
Qed.

Example first_generation_connect_with_remote_disabled :
  exists w',
    Gen1._connect (serving (JObj [("allow_remote", JBool false)]) (ok (JStr "abc"))) 3
      false configured
    = (Rejected (Err "Remote connections disabled"), w')
    /\ count_method "core.add_torrent_url" (added configured w') = 0.
Proof. eexists. split; [vm_compute; reflexivity|reflexivity]. Qed.

(** C7 (the code falls short of it).  When the panel answers the add-torrent
    call with the wrong-argument-count error, [_request] has rejected before
    [_addTorrentViaUrl] looks at the payload: the call is sent once and
    never again with the other parameter shape (both generations). *)
Theorem version_mismatch_is_not_retried :
  forall (P : Platform) (n : nat) (u : string) (params : list (string * JSON))
         (object : Params) (w : World) (msg : string),
    ready P w -> fails_with P "core.add_torrent_url" msg ->
    wrong_argument_count msg = true ->
    includes "Not authenticated" msg = false ->
    (exists e w',
       Gen1._addTorrentViaUrl P (S n) u params w = (Rejected e, w')
       /\ calls w w' = [("core.add_torrent_url", [JStr u; JObj params])])
    /\
    (exists w',
       Gen2._addTorrentViaUrl P (S n) u object w = (Rejected (Err msg), w')
       /\ count_method "core.add_torrent_url" (added w w') = 1).
Proof.
  intros P n u params object w msg Hready Hfail Hwrong Hna. split.
  - apply (gen1_mismatch_not_retried P n u params w msg Hready Hfail Hwrong Hna).
  - apply (gen2_mismatch_not_retried P n u object w msg Hready Hfail Hwrong).
Qed.

Lemma version_mismatch_witness :
  (exists e w',
     Gen1._addTorrentViaUrl
       (serving JNull (failed "add_torrent_url() takes exactly 3 arguments (4 given)")) 1
       "magnet:?xt=urn:btih:abcd1234" [] configured = (Rejected e, w')
     /\ calls configured w'
        = [("core.add_torrent_url", [JStr "magnet:?xt=urn:btih:abcd1234"; JObj []])])
  /\
  (exists w',
     Gen2._addTorrentViaUrl
       (serving JNull (failed "add_torrent_url() takes exactly 3 arguments (4 given)")) 1
       "magnet:?xt=urn:btih:abcd1234" (plain []) configured
     = (Rejected (Err "add_torrent_url() takes exactly 3 arguments (4 given)"), w')
     /\ count_method "core.add_torrent_url" (added configured w') = 1).
Proof.
  apply version_mismatch_is_not_retried.
  - apply ready_configured.
  - apply serving_fails.
  - reflexivity.
  - reflexivity.
Defined.




(** * The rest of the client *)

(** * The sample panels *)

Lemma table_serves answers m v (good : JSON -> Prop) :
  match find (fun entry => fst entry =? m) answers with
  | Some (_, o) => o
  | None => ok JNull
  end = ok v ->
  good v -> serves (table answers) m always good.
Proof.
  intros Hfind Hgood h r Hm _. cbv [fetch table panel answering]. rewrite Hm, Hfind.
  served. exact Hgood.
Qed.

Lemma table_fails answers m msg :
  match find (fun entry => fst entry =? m) answers with
  | Some (_, o) => o
  | None => ok JNull
  end = failed msg ->
  fails_with (table answers) m msg.
Proof.
  intros Hfind h r Hm. cbv [fetch table panel answering]. rewrite Hm, Hfind.
  eexists. split; [exists 200%N, None, None; split; reflexivity|reflexivity].
Qed.

Lemma stored_fresh answer : stored (panel answer) home fresh.
Proof.
  split; [exists []; reflexivity|]. split; [reflexivity|]. split; [reflexivity|].
  exists "http://localhost:8112/json". reflexivity.
Qed.

(** * One request, to the letter *)

Lemma gen1_request_world P n st call silent w r status sc csrf p :
  outgoing P call w = Some r ->
  fetch P (trace w) r = FetchResponse status sc csrf (Some p) ->
  response_ok status = true -> rpc_error p = None ->
  Gen1._request P (S n) st call silent w
  = (Resolved p, store_tokens sc csrf (sent r (set_state st w))).
Proof.
  intros Hout Hf Hok He.
  rewrite (gen1_request_sends P n st call silent w r Hout), Hf.
  unfold Gen1.on_response. rewrite Hok. cbn [negb].
  unfold then_ at 2. cbn [update]. unfold then_, resolve, Gen1.on_payload. rewrite He.
  reflexivity.
Qed.

Lemma gen2_request_world P n st call silent w r status sc csrf p :
  outgoing P call w = Some r ->
  fetch P (trace w) r = FetchResponse status sc csrf (Some p) ->
  response_ok status = true -> clean p ->
  Gen2._request P (S n) st call silent w
  = (Resolved p, settled p (store_tokens sc csrf (sent r (set_state st w)))).
Proof.
  intros Hout Hf Hok [He Hs].
  rewrite gen2_request_cases, Hout, Hf.
  unfold Gen2.on_response. rewrite Hok. cbn [negb].
  unfold catch_, then_ at 1. unfold then_ at 1. cbn [update].
  unfold then_, resolve, Gen2.on_payload, Gen2._isAuthError. rewrite He.
  destruct (rpc_status p) as [z|].
  - destruct (Z.eq_dec z 403) as [->|Hz]; [contradiction|].
    assert (match z with 403%Z => true | _ => false end = false) as ->.
    { destruct z as [|q|q]; try reflexivity.
      do 9 (destruct q as [q|q|]; try reflexivity). contradiction. }
    unfold settled. destruct (rpc_state p) as [s|]; [destruct (nonempty s)|]; reflexivity.
  - unfold settled. destruct (rpc_state p) as [s|]; [destruct (nonempty s)|]; reflexivity.
Qed.

Lemma outgoing_after P call call' w w' r :
  outgoing P call w = Some r ->
  SERVER_URL w' = SERVER_URL w ->
  exists r', outgoing P call' w' = Some r'
             /\ req_url r' = req_url r
             /\ req_cookie r' = header (SESSION_COOKIE w')
             /\ req_csrf r' = header (CSRF_TOKEN w')
             /\ req_cookie r = header (SESSION_COOKIE w)
             /\ req_csrf r = header (CSRF_TOKEN w).
Proof.
  unfold outgoing. intros Hout Hurl. rewrite Hurl.
  destruct (SERVER_URL w) as [u|]; [|discriminate].
  destruct (nonempty u); [|discriminate].
  destruct (endpoint P u) as [href|]; [|discriminate].
  injection Hout as <-. eexists. split; [reflexivity|]. cbn. auto.
Qed.

Lemma header_keep_token received stored :
  header (keep_token received stored)
  = if present received then received else header stored.
Proof.
  unfold header, keep_token. destruct (present received) eqn:H; [rewrite H|]; reflexivity.
Qed.

(** X1.  A session cookie or CSRF token that comes with an answer is sent with
    the next request; an answer without one leaves the headers of the next
    request as they were (both generations). *)
Theorem received_tokens_are_sent_back :
  forall (P : Platform) (n : nat) (st st' : string) (call call' : Call) (silent : bool)
         (w : World) (r : Request) (status : N) (sc csrf : option string) (p : Payload),
    outgoing P call w = Some r ->
    fetch P (trace w) r = FetchResponse status sc csrf (Some p) ->
    response_ok status = true -> clean p ->
    exists w1 w2 r',
      Gen1._request P (S n) st call silent w = (Resolved p, w1)
      /\ Gen2._request P (S n) st call silent w = (Resolved p, w2)
      /\ outgoing P call' w1 = Some r' /\ outgoing P call' w2 = Some r'
      /\ req_cookie r' = (if present sc then sc else req_cookie r)
      /\ req_csrf r' = (if present csrf then csrf else req_csrf r).
Proof.
  intros P n st st' call call' silent w r status sc csrf p Hout Hf Hok Hclean.
  pose proof (gen1_request_world P n st call silent w r status sc csrf p Hout Hf Hok
                (proj1 Hclean)) as H1.
  pose proof (gen2_request_world P n st call silent w r status sc csrf p Hout Hf Hok Hclean)
    as H2.
  destruct (outgoing_after P call call' w (store_tokens sc csrf (sent r (set_state st w))) r
              Hout eq_refl) as (r' & Hout1 & _ & Hc & Ht & Hc0 & Ht0).
  eexists _, _, r'. split; [exact H1|]. split; [exact H2|].
  split; [exact Hout1|]. split.
  - revert Hout1. unfold outgoing, settled.
    destruct (rpc_state p) as [s|]; [destruct (nonempty s)|]; intros H; exact H.
  - cbn [SESSION_COOKIE CSRF_TOKEN store_tokens set_tokens sent set_state] in Hc, Ht.
    rewrite Hc, Ht, Hc0, Ht0, !header_keep_token. split; reflexivity.
Qed.

Lemma received_tokens_witness :
  exists w1 w2 r',
    Gen1._request greeting 1 "check-daemon" (mkCall "web.connected" []) false configured
    = (Resolved (ok_payload (JBool true)), w1)
    /\ Gen2._request greeting 1 "check-daemon" (mkCall "web.connected" []) false configured
       = (Resolved (ok_payload (JBool true)), w2)
    /\ outgoing greeting (mkCall "web.get_hosts" []) w1 = Some r'
    /\ outgoing greeting (mkCall "web.get_hosts" []) w2 = Some r'
    /\ req_cookie r' = (if present (Some "_session_id=abc") then Some "_session_id=abc"
                        else req_cookie (to_home "web.connected" []))
    /\ req_csrf r' = (if present (Some "token") then Some "token"
                      else req_csrf (to_home "web.connected" [])).
Proof.
  apply (received_tokens_are_sent_back greeting 0 "check-daemon" "getdaemons"
           (mkCall "web.connected" []) (mkCall "web.get_hosts" []) false configured
           (to_home "web.connected" []) 200%N).
  - reflexivity.
  - reflexivity.
  - reflexivity.
  - split; [reflexivity|discriminate].
Defined.

(** X2.  A call that the panel does not answer, or answers with a status outside
    2xx that does not make the client log in again, is sent once and
    rejected: with the error of [fetch] (in the second generation a timeout
    has a message of its own), or with the status. *)
Theorem failed_answers_are_reported_once :
  forall (P : Platform) (n : nat) (st : string) (call : Call) (silent : bool)
         (w : World) (r : Request),
    outgoing P call w = Some r ->
    (forall f,
       fetch P (trace w) r = FetchFailed f ->
       Gen1._request P (S n) st call silent w
       = (Rejected (failure_error f), sent r (set_state st w))
       /\ Gen2._request P (S n) st call silent w
          = (Rejected (match f with
                       | Aborted => Err "Request timed out after 20000ms"
                       | NetworkFailure _ => failure_error f
                       end), sent r (set_state st w)))
    /\ (forall status sc csrf body,
          fetch P (trace w) r = FetchResponse status sc csrf body ->
          response_ok status = false ->
          (status <> 403%N \/ includes "add_torrent" (call_method call) = true ->
           Gen1._request P (S n) st call silent w
           = (Rejected (Err ("HTTP error! status: " ++ status_text status)),
              store_tokens sc csrf (sent r (set_state st w))))
          /\ (status <> 403%N \/ includes "torrent" (call_method call) = true ->
              Gen2._request P (S n) st call silent w
              = (Rejected (Err ("HTTP error! status: " ++ status_text status)),
                 store_tokens sc csrf (sent r (set_state st w))))).
Proof.
  intros P n st call silent w r Hout. split.
  - intros f Hf. split.
    + rewrite (gen1_request_sends P n st call silent w r Hout), Hf. reflexivity.
    + rewrite gen2_request_cases, Hout, Hf. destruct f; reflexivity.
  - intros status sc csrf body Hf Hok.
    assert (Hcase : forall m, status <> 403%N \/ includes m (call_method call) = true ->
                              (status =? 403)%N && negb (includes m (call_method call)) = false).
    { intros m [Hs|Hm].
      - apply N.eqb_neq in Hs. rewrite Hs. reflexivity.
      - rewrite Hm. apply andb_false_r. }
    split; intros Hno.
    + rewrite (gen1_request_sends P n st call silent w r Hout), Hf.
      unfold Gen1.on_response. rewrite Hok, (Hcase _ Hno). reflexivity.
    + rewrite gen2_request_cases, Hout, Hf.
      unfold Gen2.on_response. rewrite Hok, (Hcase _ Hno). reflexivity.
Qed.

Lemma failed_answers_witness :
  (Gen1._request silent_panel 1 "check-daemon" (mkCall "web.connected" []) false configured
   = (Rejected (failure_error Aborted),
      sent (to_home "web.connected" []) (set_state "check-daemon" configured))
   /\ Gen2._request silent_panel 1 "check-daemon" (mkCall "web.connected" []) false configured
      = (Rejected (Err "Request timed out after 20000ms"),
         sent (to_home "web.connected" []) (set_state "check-daemon" configured)))
  /\ Gen1._request broken 1 "check-daemon" (mkCall "web.connected" []) false configured
     = (Rejected (Err ("HTTP error! status: " ++ status_text 500)),
        store_tokens None None
          (sent (to_home "web.connected" []) (set_state "check-daemon" configured)))
  /\ Gen2._request broken 1 "check-daemon" (mkCall "web.connected" []) false configured
     = (Rejected (Err ("HTTP error! status: " ++ status_text 500)),
        store_tokens None None
          (sent (to_home "web.connected" []) (set_state "check-daemon" configured))).
Proof.
  destruct (failed_answers_are_reported_once silent_panel 0 "check-daemon"
              (mkCall "web.connected" []) false configured (to_home "web.connected" [])
              eq_refl) as [Hsilent _].
  destruct (failed_answers_are_reported_once broken 0 "check-daemon"
              (mkCall "web.connected" []) false configured (to_home "web.connected" [])
              eq_refl) as [_ Hbroken].
  split; [exact (Hsilent Aborted eq_refl)|].
  destruct (Hbroken 500%N None None None eq_refl eq_refl) as [H1 H2].
  split; [apply H1|apply H2]; left; discriminate.
Defined.

(** * [_connect], step by step *)

Lemma gen1_init_target P w c rest :
  connections w = ConnectionsArray (c :: rest) ->
  Gen1._initState P w
  = (Resolved tt, set_target (c :: rest) (Some (url c)) (Some (pass c)) w).
Proof. intros H. unfold Gen1._initState. rewrite H. reflexivity. Qed.

Lemma gen2_init_target P w c rest :
  connections w = ConnectionsArray (c :: rest) ->
  Gen2._initState P w
  = (Resolved tt, set_target (c :: rest) (Some (url c)) (Some (pass c)) w).
Proof. intros H. unfold Gen2._initState. rewrite H. reflexivity. Qed.

Lemma stored_ready P c w :
  stored P c w ->
  exists rest,
    connections w = ConnectionsArray (c :: rest)
    /\ ready P (set_target (c :: rest) (Some (url c)) (Some (pass c)) w).
Proof.
  intros ((rest & Hc) & Hu & _ & href & Hh). exists rest. split; [exact Hc|].
  exists (url c), href. auto.
Qed.

Lemma gen1_connect_enters P fuel silent w c rest :
  connections w = ConnectionsArray (c :: rest) -> nonempty (url c) = true ->
  Gen1._connect P fuel silent w
  = (catch_ (Gen1.establish_session P fuel silent ;; Gen1._checkDaemonConnection P fuel)
       (fun _ => daemons <- Gen1._getDaemons P fuel ;; Gen1._getConnectedDaemon P fuel daemons) ;;
     Gen1._getServerConfig P fuel)
      (set_target (c :: rest) (Some (url c)) (Some (pass c)) w).
Proof.
  intros Hc Hu. unfold Gen1._connect.
  erewrite then_resolved by (apply gen1_init_target; exact Hc).
  rewrite then_read. cbn [SERVER_URL set_target present]. rewrite Hu. reflexivity.
Qed.

Lemma gen2_connect_enters P fuel silent w c rest :
  connections w = ConnectionsArray (c :: rest) -> nonempty (url c) = true ->
  Gen2._connect P fuel silent w
  = (catch_ (Gen2.establish_session P fuel silent ;; Gen2._checkDaemonConnection P fuel)
       (fun _ => daemons <- Gen2._getDaemons P fuel ;; Gen2._getConnectedDaemon P fuel daemons) ;;
     Gen2._getServerConfig P fuel)
      (set_target (c :: rest) (Some (url c)) (Some (pass c)) w).
Proof.
  intros Hc Hu. unfold Gen2._connect.
  erewrite then_resolved by (apply gen2_init_target; exact Hc).
  rewrite then_read. cbn [SERVER_URL set_target present]. rewrite Hu. reflexivity.
Qed.

Lemma gen1_connect_with_session P n silent w cfg :
  ready P w ->
  serves P "auth.check_session" always is_exactly_true ->
  serves P "web.connected" always anything ->
  serves P "core.get_config_values" always (config_is cfg) ->
  truthy (prop "allow_remote" (spread cfg)) = true ->
  exists w',
    (catch_ (Gen1.establish_session P (S n) silent ;; Gen1._checkDaemonConnection P (S n))
       (fun _ => daemons <- Gen1._getDaemons P (S n) ;;
                 Gen1._getConnectedDaemon P (S n) daemons) ;;
     Gen1._getServerConfig P (S n)) w
    = (Resolved (JArr [spread cfg]), w')
    /\ calls w w' = gen1_connect_calls.
Proof.
  intros Hready Hprobe Hconnected Hconfig Hallow.
  destruct (gen1_request_served P n "getsession" (mkCall "auth.check_session" []) false w
              always is_exactly_true Hready Hprobe I)
    as (p1 & r1 & w1 & Hrun1 & Hgood1 & Htr1 & Hm1 & Hp1 & Hun1).
  pose proof (ready_unchanged P w w1 Hun1 Hready) as Hready1.
  destruct (gen1_request_served P n "check-daemon" (mkCall "web.connected" []) false w1
              always anything Hready1 Hconnected I)
    as (p2 & r2 & w2 & Hrun2 & _ & Htr2 & Hm2 & Hp2 & Hun2).
  pose proof (ready_unchanged P w1 w2 Hun2 Hready1) as Hready2.
  match type of Hconfig with
  | serves _ ?m _ _ =>
      destruct (gen1_request_served P n "getconfig"
                  (mkCall m [JArr [JStr "allow_remote"; JStr "download_location";
                                   JStr "move_completed"; JStr "move_completed_path";
                                   JStr "add_paused"]]) false w2
                  always (config_is cfg) Hready2 Hconfig I)
        as (p3 & r3 & w3 & Hrun3 & Hgood3 & Htr3 & Hm3 & Hp3 & Hun3)
  end.
  unfold is_exactly_true in Hgood1. unfold config_is in Hgood3.
  assert (Hsession : Gen1.establish_session P (S n) silent w = (Resolved (JBool true), w1)).
  { unfold Gen1.establish_session. apply catch_resolved.
    unfold Gen1._getSession, Gen1._getSession_with.
    erewrite then_resolved by exact Hrun1. rewrite Hgood1. reflexivity. }
  eexists. split.
  - erewrite then_resolved.
    2:{ apply catch_resolved. erewrite then_resolved by exact Hsession.
        unfold Gen1._checkDaemonConnection. erewrite then_resolved by exact Hrun2.
        reflexivity. }
    unfold Gen1._getServerConfig. erewrite then_resolved by exact Hrun3.
    rewrite then_update, then_read. cbn [server_config set_server_config].
    rewrite Hgood3, Hallow. reflexivity.
  - unfold calls. erewrite added_app.
    2:{ cbn [trace set_server_config]. rewrite Htr3, Htr2, Htr1, <- !app_assoc. reflexivity. }
    cbn [map app]. rewrite Hm1, Hp1, Hm2, Hp2, Hm3, Hp3. reflexivity.
Qed.

Lemma gen2_connect_with_session P n silent w cfg :
  ready P w ->
  serves P "auth.check_session" always is_exactly_true ->
  serves P "web.connected" always anything ->
  serves P "core.get_config" always (config_is cfg) ->
  truthy cfg = true ->
  exists w',
    (catch_ (Gen2.establish_session P (S (S n)) silent ;;
             Gen2._checkDaemonConnection P (S (S n)))
       (fun _ => daemons <- Gen2._getDaemons P (S (S n)) ;;
                 Gen2._getConnectedDaemon P (S (S n)) daemons) ;;
     Gen2._getServerConfig P (S (S n))) w
    = (Resolved cfg, w')
    /\ calls w w' = gen2_connect_calls.
Proof.
  intros Hready Hprobe Hconnected Hconfig Htruthy.
  destruct (gen2_request_served P n "auth.check_session" (mkCall "auth.check_session" []) true w
              always is_exactly_true Hready Hprobe I)
    as (p1 & r1 & w1 & Hrun1 & Hgood1 & Htr1 & Hm1 & Hp1 & Hun1).
  pose proof (ready_unchanged P w w1 Hun1 Hready) as Hready1.
  destruct (gen2_request_served P (S n) "web.connected" (mkCall "web.connected" []) false w1
              always anything Hready1 Hconnected I)
    as (p2 & r2 & w2 & Hrun2 & _ & Htr2 & Hm2 & Hp2 & Hun2).
  pose proof (ready_unchanged P w1 w2 Hun2 Hready1) as Hready2.
  destruct (gen2_request_served P (S n) "core.get_config" (mkCall "core.get_config" []) false w2
              always (config_is cfg) Hready2 Hconfig I)
    as (p3 & r3 & w3 & Hrun3 & Hgood3 & Htr3 & Hm3 & Hp3 & Hun3).
  unfold is_exactly_true in Hgood1. unfold config_is in Hgood3.
  assert (Hsession : Gen2.establish_session P (S (S n)) silent w = (Resolved (JBool true), w1)).
  { unfold Gen2.establish_session. apply catch_resolved.
    cbn [Gen2._getSession]. erewrite then_resolved by exact Hrun1.
    rewrite Hgood1. reflexivity. }
  eexists. split.
  - erewrite then_resolved.
    2:{ apply catch_resolved. erewrite then_resolved by exact Hsession.
        unfold Gen2._checkDaemonConnection. erewrite then_resolved by exact Hrun2.
        reflexivity. }
    unfold Gen2._getServerConfig. apply catch_resolved.
    erewrite then_resolved by exact Hrun3.
    rewrite Hgood3, Htruthy. reflexivity.
  - unfold calls. erewrite added_app.
    2:{ cbn [trace set_server_config]. rewrite Htr3, Htr2, Htr1, <- !app_assoc. reflexivity. }
    cbn [map app]. rewrite Hm1, Hp1, Hm2, Hp2, Hm3, Hp3. reflexivity.
Qed.

Lemma calls_set_target info u p w w' :
  calls (set_target info u p w) w' = calls w w'.
Proof. reflexivity. Qed.

(** X4.  With a valid session [_connect] asks whether a daemon is connected and,
    whatever the answer, goes on to the configuration: the daemon locator
    is not run when the panel reports that no daemon is connected (both
    generations). *)
Theorem connect_goes_on_without_a_daemon :
  forall (P : Platform) (n : nat) (silent : bool) (w : World) (c : Connection) (cfg : JSON),
    stored P c w ->
    serves P "auth.check_session" always is_exactly_true ->
    serves P "web.connected" always anything ->
    serves P "core.get_config_values" always (config_is cfg) ->
    serves P "core.get_config" always (config_is cfg) ->
    truthy cfg = true -> truthy (prop "allow_remote" (spread cfg)) = true ->
    exists w1 w2,
      Gen1._connect P (S n) silent w = (Resolved (JArr [spread cfg]), w1)
      /\ calls w w1 = gen1_connect_calls
      /\ Gen2._connect P (S (S n)) silent w = (Resolved cfg, w2)
      /\ calls w w2 = gen2_connect_calls.
Proof.
  intros P n silent w c cfg Hstored Hprobe Hconnected Hvalues Hconfig Htruthy Hallow.
  destruct (stored_ready P c w Hstored) as (rest & Hc & Hready).
  destruct Hstored as (_ & Hu & _).
  destruct (gen1_connect_with_session P n silent _ cfg Hready Hprobe Hconnected Hvalues Hallow)
    as (w1 & Hrun1 & Hcalls1).
  destruct (gen2_connect_with_session P n silent _ cfg Hready Hprobe Hconnected Hconfig Htruthy)
    as (w2 & Hrun2 & Hcalls2).
  exists w1, w2.
  rewrite (gen1_connect_enters P (S n) silent w c rest Hc Hu).
  rewrite (gen2_connect_enters P (S (S n)) silent w c rest Hc Hu).
  rewrite calls_set_target in Hcalls1, Hcalls2. auto.
Qed.

Lemma unconnected_daemon_witness :
  exists w1 w2,
    Gen1._connect idle 1 false fresh = (Resolved (JArr [spread sample_config]), w1)
    /\ calls fresh w1 = gen1_connect_calls
    /\ Gen2._connect idle 2 false fresh = (Resolved sample_config, w2)
    /\ calls fresh w2 = gen2_connect_calls.
Proof.
  apply (connect_goes_on_without_a_daemon idle 0 false fresh home sample_config).
  - apply stored_fresh.
  - apply (table_serves _ _ (JBool true)); reflexivity.
  - apply (table_serves _ _ (JBool false)); [reflexivity|exact I].
  - apply (table_serves _ _ sample_config); reflexivity.
  - apply (table_serves _ _ sample_config); reflexivity.
  - reflexivity.
  - reflexivity.
Defined.

(** * A password the panel does not take *)

Lemma gen1_login_refused P n silent w pw :
  ready P w -> SERVER_PASS w = Some pw -> nonempty pw = true ->
  serves P "auth.login" always is_falsy ->
  exists r w',
    Gen1._doLogin_with (Gen1._request P (S n)) silent w
    = (Rejected (Err "Login failed - check your Deluge password"), w')
    /\ trace w' = (trace w ++ [r])%list
    /\ (req_method r, req_params r) = ("auth.login", [JStr pw])
    /\ unchanged w w'.
Proof.
  intros Hready Hpw Hne Hlogin.
  destruct (gen1_request_served P n "dologin" (mkCall "auth.login" [JStr pw]) silent w
              always is_falsy Hready Hlogin I)
    as (p & r & w' & Hrun & Hgood & Htr & Hm & Hp & Hun).
  exists r, w'. split; [|rewrite Hm, Hp; auto].
  unfold Gen1._doLogin_with. rewrite then_read, Hpw, Hne.
  erewrite then_resolved by exact Hrun. unfold is_falsy in Hgood. rewrite Hgood. reflexivity.
Qed.

Lemma gen2_login_refused P n silent w pw :
  ready P w -> SERVER_PASS w = Some pw -> nonempty pw = true ->
  serves P "auth.login" always is_falsy ->
  exists r w',
    Gen2._doLogin P (S (S n)) silent w
    = (Rejected (Err "Login failed - check your Deluge password"), w')
    /\ trace w' = (trace w ++ [r])%list
    /\ (req_method r, req_params r) = ("auth.login", [JStr pw])
    /\ unchanged w w'.
Proof.
  intros Hready Hpw Hne Hlogin.
  destruct (gen2_request_served P n "auth.login" (mkCall "auth.login" [JStr pw]) silent w
              always is_falsy Hready Hlogin I)
    as (p & r & w' & Hrun & Hgood & Htr & Hm & Hp & Hun).
  exists r, w'. split; [|rewrite Hm, Hp; auto].
  cbn [Gen2._doLogin]. rewrite then_read, Hpw, Hne.
  erewrite then_resolved by exact Hrun. unfold is_falsy in Hgood. rewrite Hgood. reflexivity.
Qed.

Lemma unchanged_pass w w' pw : unchanged w w' -> SERVER_PASS w = Some pw -> SERVER_PASS w' = Some pw.
Proof. intros [] H. congruence. Qed.

Lemma falsy_not_true v : is_falsy v -> is_true v = false.
Proof. unfold is_falsy. destruct v as [| |[]| | | |]; cbn; congruence. Qed.

Lemma gen1_wrong_password P n silent w pw msg :
  ready P w -> SERVER_PASS w = Some pw -> nonempty pw = true ->
  serves P "auth.check_session" always is_falsy ->
  serves P "auth.login" always is_falsy ->
  fails_with P "web.get_hosts" msg -> includes "Not authenticated" msg = true ->
  exists w',
    (catch_ (Gen1.establish_session P (S (S n)) silent ;;
             Gen1._checkDaemonConnection P (S (S n)))
       (fun _ => daemons <- Gen1._getDaemons P (S (S n)) ;;
                 Gen1._getConnectedDaemon P (S (S n)) daemons) ;;
     Gen1._getServerConfig P (S (S n))) w
    = (Rejected (Err "Login failed - check your Deluge password"), w')
    /\ calls w w'
       = [("auth.check_session", []); ("auth.login", [JStr pw]); ("web.get_hosts", []);
          ("auth.login", [JStr pw])].
Proof.
  intros Hready Hpw Hne Hprobe Hlogin Hhosts Hna.
  destruct (gen1_request_served P (S n) "getsession" (mkCall "auth.check_session" []) false w
              always is_falsy Hready Hprobe I)
    as (p1 & r1 & w1 & Hrun1 & Hgood1 & Htr1 & Hm1 & Hp1 & Hun1).
  pose proof (ready_unchanged P w w1 Hun1 Hready) as Hready1.
  pose proof (unchanged_pass w w1 pw Hun1 Hpw) as Hpw1.
  destruct (gen1_login_refused P (S n) silent w1 pw Hready1 Hpw1 Hne Hlogin)
    as (r2 & w2 & Hrun2 & Htr2 & Hc2 & Hun2).
  pose proof (ready_unchanged P w1 w2 Hun2 Hready1) as Hready2.
  pose proof (unchanged_pass w1 w2 pw Hun2 Hpw1) as Hpw2.
  assert (Hsession : Gen1.establish_session P (S (S n)) silent w
                     = (Rejected (Err "Login failed - check your Deluge password"), w2)).
  { unfold Gen1.establish_session. erewrite catch_rejected; [exact Hrun2|].
    unfold Gen1._getSession, Gen1._getSession_with.
    erewrite then_resolved by exact Hrun1. unfold is_falsy in Hgood1. rewrite Hgood1.
    reflexivity. }
  destruct (ready_outgoing P (mkCall "web.get_hosts" []) w2 Hready2) as [r3 Hout3].
  destruct (outgoing_call P _ w2 r3 Hout3) as [Hm3 Hp3].
  destruct (Hhosts (trace w2) r3 Hm3) as (p3 & Hans3 & He3).
  assert (Hexpired : gen1_auth_expired "web.get_hosts" (fetch P (trace w2) r3) = true).
  { destruct Hans3 as (status & sc & csrf & -> & Hok). cbn [gen1_auth_expired].
    rewrite Hok, He3, Hna. cbn [negb]. rewrite andb_false_r. reflexivity. }
  pose proof (gen1_request_expired P (S n) "getdaemons" (mkCall "web.get_hosts" []) false w2 r3
                Hout3 Hexpired) as Hrun3.
  set (w3 := received (fetch P (trace w2) r3) (sent r3 (set_state "getdaemons" w2))) in *.
  assert (Hun3 : unchanged w2 w3).
  { eapply unchanged_trans; [apply unchanged_sent_state|apply received_unchanged]. }
  assert (Htr3 : trace w3 = (trace w2 ++ [r3])%list).
  { unfold w3. rewrite received_trace. reflexivity. }
  set (w3' := set_tokens None None w3).
  assert (Hun3' : unchanged w2 w3').
  { eapply unchanged_trans; [exact Hun3|apply unchanged_set_tokens]. }
  pose proof (ready_unchanged P w2 w3' Hun3' Hready2) as Hready3.
  pose proof (unchanged_pass w2 w3' pw Hun3' Hpw2) as Hpw3.
  destruct (gen1_login_refused P n false w3' pw Hready3 Hpw3 Hne Hlogin)
    as (r4 & w4 & Hrun4 & Htr4 & Hc4 & Hun4).
  assert (Hdaemons : Gen1._getDaemons P (S (S n)) w2
                     = (Rejected (Err "Login failed - check your Deluge password"), w4)).
  { unfold Gen1._getDaemons. erewrite then_rejected; [reflexivity|].
    rewrite Hrun3. unfold Gen1.relogin_and_retry. rewrite then_update.
    fold w3'. erewrite then_rejected by exact Hrun4. reflexivity. }
  exists w4. split.
  - erewrite then_rejected; [reflexivity|].
    erewrite catch_rejected.
    2:{ erewrite then_rejected by exact Hsession. reflexivity. }
    erewrite then_rejected by exact Hdaemons. reflexivity.
  - unfold calls. erewrite added_app.
    2:{ rewrite Htr4. change (trace w3') with (trace w3).
        rewrite Htr3, Htr2, Htr1, <- !app_assoc. reflexivity. }
    cbn [map app]. rewrite Hm1, Hp1, Hm3, Hp3, Hc2, Hc4. reflexivity.
Qed.

Lemma gen2_wrong_password P n silent w pw msg :
  ready P w -> SERVER_PASS w = Some pw -> nonempty pw = true ->
  serves P "auth.check_session" always is_falsy ->
  serves P "auth.login" always is_falsy ->
  fails_with P "web.get_hosts" msg -> nonempty msg = true ->
  exists w',
    (catch_ (Gen2.establish_session P (S (S (S n))) silent ;;
             Gen2._checkDaemonConnection P (S (S (S n))))
       (fun _ => daemons <- Gen2._getDaemons P (S (S (S n))) ;;
                 Gen2._getConnectedDaemon P (S (S (S n))) daemons) ;;
     Gen2._getServerConfig P (S (S (S n)))) w
    = (Rejected (Err msg), w')
    /\ calls w w'
       = [("auth.check_session", []); ("auth.login", [JStr pw]); ("auth.login", [JStr pw]);
          ("web.get_hosts", [])].
Proof.
  intros Hready Hpw Hne Hprobe Hlogin Hhosts Hmsg.
  destruct (gen2_request_served P (S n) "auth.check_session" (mkCall "auth.check_session" [])
              true w always is_falsy Hready Hprobe I)
    as (p1 & r1 & w1 & Hrun1 & Hgood1 & Htr1 & Hm1 & Hp1 & Hun1).
  pose proof (ready_unchanged P w w1 Hun1 Hready) as Hready1.
  pose proof (unchanged_pass w w1 pw Hun1 Hpw) as Hpw1.
  destruct (gen2_login_refused P n false w1 pw Hready1 Hpw1 Hne Hlogin)
    as (r2 & w2 & Hrun2 & Htr2 & Hc2 & Hun2).
  pose proof (ready_unchanged P w1 w2 Hun2 Hready1) as Hready2.
  pose proof (unchanged_pass w1 w2 pw Hun2 Hpw1) as Hpw2.
  destruct (gen2_login_refused P (S n) silent w2 pw Hready2 Hpw2 Hne Hlogin)
    as (r3 & w3 & Hrun3 & Htr3 & Hc3 & Hun3).
  pose proof (ready_unchanged P w2 w3 Hun3 Hready2) as Hready3.
  assert (Hsession : Gen2.establish_session P (S (S (S n))) silent w
                     = (Rejected (Err "Login failed - check your Deluge password"), w3)).
  { unfold Gen2.establish_session. erewrite catch_rejected; [exact Hrun3|].
    cbn [Gen2._getSession]. erewrite then_resolved by exact Hrun1.
    rewrite (falsy_not_true _ Hgood1). exact Hrun2. }
  destruct (gen2_request_error P (S (S n)) "web.get_hosts" (mkCall "web.get_hosts" []) false w3
              msg Hready3 Hhosts)
    as (r4 & w4 & Hrun4 & Htr4 & Hm4 & Hp4 & Hun4).
  unfold or_default in Hrun4. rewrite Hmsg in Hrun4.
  exists w4. split.
  - erewrite then_rejected; [reflexivity|].
    erewrite catch_rejected.
    2:{ erewrite then_rejected by exact Hsession. reflexivity. }
    erewrite then_rejected; [reflexivity|].
    unfold Gen2._getDaemons. erewrite then_rejected by exact Hrun4. reflexivity.
  - unfold calls. erewrite added_app.
    2:{ rewrite Htr4, Htr3, Htr2, Htr1, <- !app_assoc. reflexivity. }
    cbn [map app]. rewrite Hm1, Hp1, Hm4, Hp4, Hc2, Hc3. reflexivity.
Qed.

(** X5.  With a password the panel does not take, [_connect] logs in twice and
    goes as far as [web.get_hosts] before it gives up.  The first
    generation ends with the login error; the second with the answer the
    panel gave to [web.get_hosts]. *)
Theorem wrong_password_is_tried_twice :
  forall (P : Platform) (n : nat) (silent : bool) (w : World) (c : Connection) (msg : string),
    stored P c w ->
    serves P "auth.check_session" always is_falsy ->
    serves P "auth.login" always is_falsy ->
    fails_with P "web.get_hosts" msg -> includes "Not authenticated" msg = true ->
    exists w1 w2,
      Gen1._connect P (S (S n)) silent w
      = (Rejected (Err "Login failed - check your Deluge password"), w1)
      /\ calls w w1
         = [("auth.check_session", []); ("auth.login", [JStr (pass c)]);
            ("web.get_hosts", []); ("auth.login", [JStr (pass c)])]
      /\ Gen2._connect P (S (S (S n))) silent w = (Rejected (Err msg), w2)
      /\ calls w w2
         = [("auth.check_session", []); ("auth.login", [JStr (pass c)]);
            ("auth.login", [JStr (pass c)]); ("web.get_hosts", [])].
Proof.
  intros P n silent w c msg Hstored Hprobe Hlogin Hhosts Hna.
  destruct (stored_ready P c w Hstored) as (rest & Hc & Hready).
  destruct Hstored as (_ & Hu & Hpass & _).
  destruct (gen1_wrong_password P n silent _ (pass c) msg Hready eq_refl Hpass Hprobe Hlogin
              Hhosts Hna) as (w1 & Hrun1 & Hcalls1).
  destruct (gen2_wrong_password P n silent _ (pass c) msg Hready eq_refl Hpass Hprobe Hlogin
              Hhosts (includes_nonempty "Not authenticated" msg eq_refl Hna))
    as (w2 & Hrun2 & Hcalls2).
  exists w1, w2.
  rewrite (gen1_connect_enters P _ silent w c rest Hc Hu).
  rewrite (gen2_connect_enters P _ silent w c rest Hc Hu).
  rewrite calls_set_target in Hcalls1, Hcalls2. auto.
Qed.

Lemma wrong_password_witness :
  exists w1 w2,
    Gen1._connect closed 2 false fresh
    = (Rejected (Err "Login failed - check your Deluge password"), w1)
    /\ calls fresh w1
       = [("auth.check_session", []); ("auth.login", [JStr (pass home)]);
          ("web.get_hosts", []); ("auth.login", [JStr (pass home)])]
    /\ Gen2._connect closed 3 false fresh = (Rejected (Err "Not authenticated"), w2)
    /\ calls fresh w2
       = [("auth.check_session", []); ("auth.login", [JStr (pass home)]);
          ("auth.login", [JStr (pass home)]); ("web.get_hosts", [])].
Proof.
  apply (wrong_password_is_tried_twice closed 0 false fresh home "Not authenticated").
  - apply stored_fresh.
  - apply (table_serves _ _ (JBool false)); reflexivity.
  - apply (table_serves _ _ (JBool false)); reflexivity.
  - apply table_fails. reflexivity.
  - reflexivity.
Defined.

(** * The public methods *)

Lemma gen1_init_twice P w :
  Gen1._initState P (snd (Gen1._initState P w)) = Gen1._initState P w.
Proof.
  unfold Gen1._initState. destruct (Gen1.stored_list P (connections w)) as [|c rest] eqn:H;
    cbn [snd connections set_target]; rewrite H; reflexivity.
Qed.

Lemma gen2_init_twice P w :
  Gen2._initState P (snd (Gen2._initState P w)) = Gen2._initState P w.
Proof.
  unfold Gen2._initState. destruct (Gen2.stored_list P (connections w)) as [|c rest] eqn:H;
    cbn [snd connections set_target]; rewrite H; reflexivity.
Qed.

Lemma gen1_init_resolves P w : Gen1._initState P w = (Resolved tt, snd (Gen1._initState P w)).
Proof. unfold Gen1._initState. destruct (Gen1.stored_list P (connections w)); reflexivity. Qed.

Lemma gen2_init_resolves P w : Gen2._initState P w = (Resolved tt, snd (Gen2._initState P w)).
Proof. unfold Gen2._initState. destruct (Gen2.stored_list P (connections w)); reflexivity. Qed.

(** X6.  [connectToServer] is [_connect] but for the error it has for a missing
    configuration: it reads the storage, rejects with its own message when
    the first stored connection has no URL, without a request, and is
    [_connect] otherwise (both generations). *)
Theorem connectToServer_is_connect :
  forall (P : Platform) (fuel : nat) (w : World),
    Gen1Actions.connectToServer P fuel w
    = (if present (SERVER_URL (snd (Gen1._initState P w)))
       then Gen1._connect P fuel false w
       else (Rejected (Err "Server URL not set"), snd (Gen1._initState P w)))
    /\ Gen2Actions.connectToServer P fuel w
       = (if present (SERVER_URL (snd (Gen2._initState P w)))
          then Gen2._connect P fuel false w
          else (Rejected (Err "Server URL not set"), snd (Gen2._initState P w)))
    /\ trace (snd (Gen1._initState P w)) = trace w
    /\ trace (snd (Gen2._initState P w)) = trace w.
Proof.
  intros P fuel w. split; [|split; [|split]].
  - unfold Gen1Actions.connectToServer, Gen1._connect.
    rewrite (then_resolved _ _ _ _ w tt _ (gen1_init_resolves P w)), then_read.
    destruct (present (SERVER_URL (snd (Gen1._initState P w)))) eqn:Hurl; cbn [negb].
    + rewrite (then_resolved _ _ _ _ w tt _ (gen1_init_resolves P w)), then_read, Hurl.
      cbn [negb].
      rewrite (then_resolved _ _ _ _ _ tt _ (gen1_init_resolves P _)), gen1_init_twice,
        then_read, Hurl.
      reflexivity.
    + reflexivity.
  - unfold Gen2Actions.connectToServer, Gen2._connect.
    rewrite (then_resolved _ _ _ _ w tt _ (gen2_init_resolves P w)), then_read.
    destruct (present (SERVER_URL (snd (Gen2._initState P w)))) eqn:Hurl; cbn [negb].
    + rewrite (then_resolved _ _ _ _ w tt _ (gen2_init_resolves P w)), then_read, Hurl.
      cbn [negb].
      rewrite (then_resolved _ _ _ _ _ tt _ (gen2_init_resolves P _)), gen2_init_twice,
        then_read, Hurl.
      reflexivity.
    + reflexivity.
  - unfold Gen1._initState. destruct (Gen1.stored_list P (connections w)); reflexivity.
  - unfold Gen2._initState. destruct (Gen2.stored_list P (connections w)); reflexivity.
Qed.

(** * Plugin options *)

Lemma gen1_plugin_options_reject_nothing P fuel u plugins id :
  rejects_only never (Gen1Actions._processPluginOptions P fuel u plugins id).
Proof. unfold Gen1Actions._processPluginOptions. rejects_step; rejects. Qed.

Lemma gen2_plugin_options_reject_nothing P fuel u plugins id :
  rejects_only never (Gen2._processPluginOptions P fuel u plugins id).
Proof. unfold Gen2._processPluginOptions. rejects_step; rejects. Qed.

Lemma label_step A (id : A) (options : Promise unit) (w : World) :
  rejects_only never options ->
  (forall e w', (options ;; resolve id) w <> (Rejected e, w'))
  /\ (forall v w', (options ;; resolve id) w = (Resolved v, w') -> v = id).
Proof.
  intros Hnever. unfold then_, resolve.
  destruct (options w) as [[[]|e| |] w1] eqn:H; split; intros; try discriminate.
  - congruence.
  - destruct (Hnever w e w1 H).
Qed.

(** X7.  Setting the label cannot make [addTorrent] fail or change its result:
    when [addTorrent] is rejected, the error is the one of connecting,
    collecting the cookies and adding the torrent; when it resolves, the
    value is the torrent id that came from adding the torrent (both
    generations). *)
Theorem label_cannot_fail_the_add :
  forall (P : Platform) (B : Cookies.Browser) (fuel : nat) (u : string)
         (d : option string) (cookies plugins options : option (list (string * JSON)))
         (w : World),
    present (SERVER_URL w) = true ->
    (forall e w',
       Gen1Actions.addTorrent P B fuel u d plugins options w = (Rejected e, w') ->
       (Gen1._connect P fuel false ;; Cookies._getDomainCookies B u d ;;
        Gen1._addTorrentUrlToServer P fuel u options d) w = (Rejected e, w'))
    /\ (forall v w',
          Gen1Actions.addTorrent P B fuel u d plugins options w = (Resolved v, w') ->
          exists w1,
            (Gen1._connect P fuel false ;; Cookies._getDomainCookies B u d ;;
             Gen1._addTorrentUrlToServer P fuel u options d) w = (Resolved v, w1))
    /\ (forall e w',
          Gen2.addTorrent P fuel u cookies plugins options w = (Rejected e, w') ->
          (Gen2._connect P fuel false ;;
           Gen2._addTorrentUrlToServer P fuel u options cookies) w = (Rejected e, w'))
    /\ (forall v w',
          Gen2.addTorrent P fuel u cookies plugins options w = (Resolved v, w') ->
          exists w1,
            (Gen2._connect P fuel false ;;
             Gen2._addTorrentUrlToServer P fuel u options cookies) w = (Resolved v, w1)).
Proof.
  intros P B fuel u d cookies plugins options w Hurl.
  assert (H1 : forall id w1,
            let tail := match plugins with
                        | Some (_ :: _) =>
                            Gen1Actions._processPluginOptions P fuel u plugins id ;; resolve id
                        | _ => resolve id
                        end in
            (forall e w', tail w1 <> (Rejected e, w'))
            /\ (forall v w', tail w1 = (Resolved v, w') -> v = id)).
  { intros id w1 tail. subst tail. destruct plugins as [[|kv rest]|].
    - split; intros; [discriminate|]. unfold resolve in *. congruence.
    - apply label_step, gen1_plugin_options_reject_nothing.
    - split; intros; [discriminate|]. unfold resolve in *. congruence. }
  assert (H2 : forall id w1,
            let tail := match plugins with
                        | Some (_ :: _) =>
                            Gen2._processPluginOptions P fuel u plugins id ;; resolve id
                        | _ => resolve id
                        end in
            (forall e w', tail w1 <> (Rejected e, w'))
            /\ (forall v w', tail w1 = (Resolved v, w') -> v = id)).
  { intros id w1 tail. subst tail. destruct plugins as [[|kv rest]|].
    - split; intros; [discriminate|]. unfold resolve in *. congruence.
    - apply label_step, gen2_plugin_options_reject_nothing.
    - split; intros; [discriminate|]. unfold resolve in *. congruence. }
  unfold Gen1Actions.addTorrent, Gen2.addTorrent. rewrite !then_read, Hurl. cbn [negb].
  split; [|split; [|split]].
  - intros e w'. unfold then_.
    destruct (Gen1._connect P fuel false w) as [[a|e0| |] w1]; try (intros H; exact H).
    destruct (Cookies._getDomainCookies B u d w1) as [[s|e1| |] w2]; try (intros H; exact H).
    destruct (Gen1._addTorrentUrlToServer P fuel u options d w2) as [[id|e2| |] w3];
      try (intros H; exact H).
    intros H. destruct (proj1 (H1 id w3) e w'). exact H.
  - intros v w'. unfold then_.
    destruct (Gen1._connect P fuel false w) as [[a|e0| |] w1]; try discriminate.
    destruct (Cookies._getDomainCookies B u d w1) as [[s|e1| |] w2]; try discriminate.
    destruct (Gen1._addTorrentUrlToServer P fuel u options d w2) as [[id|e2| |] w3];
      try discriminate.
    intros H. rewrite (proj2 (H1 id w3) v w' H). eauto.
  - intros e w'. unfold then_.
    destruct (Gen2._connect P fuel false w) as [[a|e0| |] w1]; try (intros H; exact H).
    destruct (Gen2._addTorrentUrlToServer P fuel u options cookies w1) as [[id|e2| |] w3];
      try (intros H; exact H).
    intros H. destruct (proj1 (H2 id w3) e w'). exact H.
  - intros v w'. unfold then_.
    destruct (Gen2._connect P fuel false w) as [[a|e0| |] w1]; try discriminate.
    destruct (Gen2._addTorrentUrlToServer P fuel u options cookies w1) as [[id|e2| |] w3];
      try discriminate.
    intros H. rewrite (proj2 (H2 id w3) v w' H). eauto.
Qed.

Lemma label_witness :
  (exists w1,
     (Gen1._connect unlabelled 2 false ;;
      Cookies._getDomainCookies tracker "http://tracker.example.com/f.torrent"
        (Some "tracker.example.com") ;;
      Gen1._addTorrentUrlToServer unlabelled 2 "http://tracker.example.com/f.torrent" None
        (Some "tracker.example.com")) sending
     = (Resolved (JStr "abc123"), w1))
  /\ (exists w1,
        (Gen2._connect unlabelled 2 false ;;
         Gen2._addTorrentUrlToServer unlabelled 2 "http://tracker.example.com/f.torrent" None
           (Some [("sid", JStr "exact")])) sending
        = (Resolved (JStr "abc123"), w1))
  /\ (exists e w',
        (Gen1._connect closed 2 false ;;
         Cookies._getDomainCookies tracker "magnet:?xt=urn:btih:abcd1234" None ;;
         Gen1._addTorrentUrlToServer closed 2 "magnet:?xt=urn:btih:abcd1234" None None) sending
        = (Rejected e, w'))
  /\ (exists e w',
        (Gen2._connect closed 3 false ;;
         Gen2._addTorrentUrlToServer closed 3 "magnet:?xt=urn:btih:abcd1234" None None) sending
        = (Rejected e, w')).
Proof.
  destruct (label_cannot_fail_the_add unlabelled tracker 2
              "http://tracker.example.com/f.torrent" (Some "tracker.example.com")
              (Some [("sid", JStr "exact")]) (Some [("Label", JStr "tv")]) None sending
              eq_refl) as (_ & Hfirst & _ & Hsecond).
  destruct (label_cannot_fail_the_add closed tracker 2 "magnet:?xt=urn:btih:abcd1234" None None
              (Some [("Label", JStr "tv")]) None sending eq_refl) as (Hfirst' & _ & _ & _).
  destruct (label_cannot_fail_the_add closed tracker 3 "magnet:?xt=urn:btih:abcd1234" None None
              (Some [("Label", JStr "tv")]) None sending eq_refl) as (_ & _ & Hsecond' & _).
  split; [|split; [|split]].
  - eapply Hfirst. vm_compute. reflexivity.
  - eapply Hsecond. vm_compute. reflexivity.
  - eexists _, _. eapply Hfirst'. vm_compute. reflexivity.
  - eexists _, _. eapply Hsecond'. vm_compute. reflexivity.
Defined.

(** * The plugins *)

(** X8.  Once the list of plugins is there, [_getPlugins] is not rejected:
    whatever happens to the calls that fetch the labels ends in a plugin
    description, at worst one without labels.  Without a list it is
    rejected with an error of its own (both generations). *)
Theorem plugins_survive_label_failures :
  forall (P : Platform) (fuel : nat) (w w1 : World) (p : Payload),
    (Gen1._request P fuel "getplugins" (mkCall "web.get_plugins" []) false w = (Resolved p, w1) ->
     if truthy (rpc_result p)
     then forall e w', Gen1Actions._getPlugins P fuel w <> (Rejected e, w')
     else Gen1Actions._getPlugins P fuel w = (Rejected (Err "Failed to get plugins"), w1))
    /\ (Gen2._request P fuel "web.get_plugins" (mkCall "web.get_plugins" []) false w
        = (Resolved p, w1) ->
        if truthy (rpc_result p)
        then forall e w', Gen2Actions._getPlugins P fuel w <> (Rejected e, w')
        else Gen2Actions._getPlugins P fuel w = (Rejected (Err "No plugin data received"), w1)).
Proof.
  intros P fuel w w1 p. split; intros Hrun.
  - unfold Gen1Actions._getPlugins. erewrite then_resolved by exact Hrun.
    destruct (truthy (rpc_result p)); cbn [negb]; [|reflexivity].
    intros e w' H. revert H.
    match goal with
    | |- ?run w1 = _ -> False => assert (Hnever : rejects_only never run) by rejects
    end.
    exact (Hnever w1 e w').
  - unfold Gen2Actions._getPlugins. erewrite then_resolved by exact Hrun.
    destruct (truthy (rpc_result p)); cbn [negb]; [|reflexivity].
    intros e w' H. revert H.
    match goal with
    | |- ?run w1 = _ -> False => assert (Hnever : rejects_only never run) by rejects
    end.
    exact (Hnever w1 e w').
Qed.

Lemma plugins_survive_witness :
  (forall e w', Gen1Actions._getPlugins unlabelled 1 configured <> (Rejected e, w'))
  /\ (forall e w', Gen2Actions._getPlugins unlabelled 1 configured <> (Rejected e, w')).
Proof.
  destruct (plugins_survive_label_failures unlabelled 1 configured
              (store_tokens None None
                 (sent (to_home "web.get_plugins" []) (set_state "getplugins" configured)))
              (ok_payload (JArr [JStr "Label"]))) as [Hfirst _].
  destruct (plugins_survive_label_failures unlabelled 1 configured
              (store_tokens None None
                 (sent (to_home "web.get_plugins" []) (set_state "web.get_plugins" configured)))
              (ok_payload (JArr [JStr "Label"]))) as [_ Hsecond].
  split.
  - apply Hfirst. vm_compute. reflexivity.
  - apply Hsecond. vm_compute. reflexivity.
Defined.

Lemma lists_in name plugins : In (JStr name) plugins -> lists name plugins = true.
Proof.
  intros H. unfold lists. apply existsb_exists. exists (JStr name). split; [exact H|].
  cbn [is_str]. apply String.eqb_refl.
Qed.

(** X9.  With the Label plugin listed and [label.get_labels] answered with the
    array of labels, the first generation hands the labels on; the second
    generation looks for a [labels] member in that array and hands on an
    empty list. *)
Theorem plugin_labels_by_generation :
  forall (P : Platform) (n : nat) (w : World) (plugins labels : list JSON),
    ready P w ->
    serves P "web.get_plugins" always (array_of plugins) ->
    serves P "label.get_labels" always (array_of labels) ->
    In (JStr "Label") plugins ->
    exists w1 w2,
      Gen1Actions._getPlugins P (S n) w = (Resolved (JObj [("Label", JArr labels)]), w1)
      /\ calls w w1 = [("web.get_plugins", []); ("label.get_labels", [])]
      /\ Gen2Actions._getPlugins P (S n) w
         = (Resolved (Gen2Actions.plugin_info plugins (JArr [])), w2)
      /\ calls w w2 = [("web.get_plugins", []); ("label.get_labels", [])].
Proof.
  intros P n w plugins labels Hready Hplugins Hlabels Hin.
  pose proof (lists_in "Label" plugins Hin) as Hlists.
  destruct (gen1_request_served P n "getplugins" (mkCall "web.get_plugins" []) false w
              always _ Hready Hplugins I)
    as (p1 & r1 & w1 & Hrun1 & Hgood1 & Htr1 & Hm1 & Hp1 & Hun1).
  pose proof (ready_unchanged P w w1 Hun1 Hready) as Hready1.
  destruct (gen1_request_answered P n "getlabels" (mkCall "label.get_labels" []) false w1
              always _ Hready1 (serves_answers _ _ _ _ _ Hlabels) I)
    as (p2 & r2 & w2 & Hrun2 & Hgood2 & He2 & Htr2 & Hc2 & Hun2).
  destruct (gen2_request_served P n "web.get_plugins" (mkCall "web.get_plugins" []) false w
              always _ Hready Hplugins I)
    as (q1 & s1 & v1 & Grun1 & Ggood1 & Gtr1 & Gm1 & Gp1 & Gun1).
  pose proof (ready_unchanged P w v1 Gun1 Hready) as Gready1.
  destruct (gen2_request_served P n "label.get_labels" (mkCall "label.get_labels" []) false v1
              always _ Gready1 Hlabels I)
    as (q2 & s2 & v2 & Grun2 & Ggood2 & Gtr2 & Gm2 & Gp2 & Gun2).
  unfold array_of in *.
  exists w2, v2. split; [|split; [|split]].
  - unfold Gen1Actions._getPlugins. erewrite then_resolved by exact Hrun1.
    rewrite Hgood1. cbn [truthy negb enabled_plugins]. rewrite Hlists.
    apply catch_resolved. erewrite then_resolved by exact Hrun2.
    rewrite He2, Hgood2. reflexivity.
  - unfold calls. erewrite added_app by (rewrite Htr2, Htr1, <- app_assoc; reflexivity).
    cbn [map app]. rewrite Hm1, Hp1. injection Hc2 as -> ->. reflexivity.
  - unfold Gen2Actions._getPlugins. erewrite then_resolved by exact Grun1.
    rewrite Ggood1. cbn [truthy negb enabled_plugins]. rewrite Hlists.
    apply catch_resolved. erewrite then_resolved by exact Grun2.
    rewrite Ggood2. cbn [truthy negb]. unfold then_ at 1, resolve at 1.
    rewrite Ggood2. reflexivity.
  - unfold calls. erewrite added_app by (rewrite Gtr2, Gtr1, <- app_assoc; reflexivity).
    cbn [map app]. rewrite Gm1, Gp1, Gm2, Gp2. reflexivity.
Qed.

Lemma plugin_labels_witness :
  exists w1 w2,
    Gen1Actions._getPlugins labelled 1 configured
    = (Resolved (JObj [("Label", JArr [JStr "Movies"; JStr "TV"])]), w1)
    /\ calls configured w1 = [("web.get_plugins", []); ("label.get_labels", [])]
    /\ Gen2Actions._getPlugins labelled 1 configured
       = (Resolved (Gen2Actions.plugin_info [JStr "AutoAdd"; JStr "Label"] (JArr [])), w2)
    /\ calls configured w2 = [("web.get_plugins", []); ("label.get_labels", [])].
Proof.
  apply plugin_labels_by_generation.
  - apply ready_configured.
  - apply (table_serves _ _ (JArr [JStr "AutoAdd"; JStr "Label"])); reflexivity.
  - apply (table_serves _ _ (JArr [JStr "Movies"; JStr "TV"])); reflexivity.
  - right. left. reflexivity.
Defined.

(** * A connection object that has not been initialised *)

(** X3.  On a connection object whose server URL has not been read yet,
    [addTorrent] is rejected at once, without a look at the storage and
    without a request, even when the storage holds a connection.
    [_request] on the same object reads the storage and goes on with the
    connection it finds there (both generations). *)
Theorem add_torrent_needs_an_earlier_connect :
  forall (P : Platform) (B : Cookies.Browser) (fuel n : nat) (u : string)
         (d : option string) (cookies plugins options : option (list (string * JSON)))
         (st : string) (call : Call) (silent : bool) (c : Connection)
         (rest : list Connection) (w : World),
    present (SERVER_URL w) = false ->
    connections w = ConnectionsArray (c :: rest) -> nonempty (url c) = true ->
    Gen1Actions.addTorrent P B fuel u d plugins options w
    = (Rejected (Err "SERVER_URL is not set. Please configure it in the options."), w)
    /\ Gen2.addTorrent P fuel u cookies plugins options w
       = (Rejected (Err "SERVER_URL is not set. Please configure it in the options."), w)
    /\ Gen1._request P (S n) st call silent w
       = Gen1._request P n st call silent
           (set_target (c :: rest) (Some (url c)) (Some (pass c)) (set_state st w))
    /\ Gen2._request P (S n) st call silent w
       = Gen2._request P n st call silent
           (set_target (c :: rest) (Some (url c)) (Some (pass c)) (set_state st w)).
Proof.
  intros P B fuel n u d cookies plugins options st call silent c rest w Hurl Hc Hu.
  assert (Hout : outgoing P call w = None).
  { unfold outgoing. unfold present in Hurl.
    destruct (SERVER_URL w) as [s|]; [rewrite Hurl|]; reflexivity. }
  split; [|split; [|split]].
  - unfold Gen1Actions.addTorrent. rewrite then_read, Hurl. reflexivity.
  - unfold Gen2.addTorrent. rewrite then_read, Hurl. reflexivity.
  - rewrite gen1_request_cases, Hout, Hurl.
    assert (Hinit : Gen1._initState P (set_state st w)
                    = (Resolved tt, set_target (c :: rest) (Some (url c)) (Some (pass c))
                                      (set_state st w))).
    { unfold Gen1._initState. cbn [connections set_state]. rewrite Hc. reflexivity. }
    erewrite then_resolved by exact Hinit. rewrite then_read.
    cbn [SERVER_URL set_target present]. rewrite Hu. reflexivity.
  - rewrite gen2_request_cases, Hout, Hurl.
    assert (Hinit : Gen2._initState P (set_state st w)
                    = (Resolved tt, set_target (c :: rest) (Some (url c)) (Some (pass c))
                                      (set_state st w))).
    { unfold Gen2._initState. cbn [connections set_state]. rewrite Hc. reflexivity. }
    erewrite then_resolved by exact Hinit. rewrite then_read.
    cbn [SERVER_URL set_target present]. rewrite Hu. reflexivity.
Qed.

Lemma add_torrent_needs_connect_witness :
  Gen1Actions.addTorrent idle tracker 3 "magnet:?xt=urn:btih:abcd1234" None None None fresh
  = (Rejected (Err "SERVER_URL is not set. Please configure it in the options."), fresh)
  /\ Gen2.addTorrent idle 3 "magnet:?xt=urn:btih:abcd1234" None None None fresh
     = (Rejected (Err "SERVER_URL is not set. Please configure it in the options."), fresh)
  /\ Gen1._request idle 2 "check-daemon" (mkCall "web.connected" []) false fresh
     = Gen1._request idle 1 "check-daemon" (mkCall "web.connected" []) false
         (set_target [home] (Some (url home)) (Some (pass home))
            (set_state "check-daemon" fresh))
  /\ Gen2._request idle 2 "check-daemon" (mkCall "web.connected" []) false fresh
     = Gen2._request idle 1 "check-daemon" (mkCall "web.connected" []) false
         (set_target [home] (Some (url home)) (Some (pass home))
            (set_state "check-daemon" fresh)).
Proof.
  apply (add_torrent_needs_an_earlier_connect idle tracker 3 1 "magnet:?xt=urn:btih:abcd1234"
           None None None None "check-daemon" (mkCall "web.connected" []) false home [] fresh);
    reflexivity.
Defined.

(** * [retryWithBackoff] *)

(** The world after [k] runs of an operation. *)
Lemma attempt_keeps_failing A (operation : Promise A) options (next : World -> World) :
  (forall w, exists e, operation w = (Rejected e, next w) /\ should_retry options e = true) ->
  forall k fuel attempts w,
    (attempts + Z.of_nat (S k) = Z.max 1 (max_retries options) + 0)%Z ->
    (S k <= fuel)%nat ->
    (0 <= attempts)%Z ->
    exists e,
      attempt operation options fuel attempts w = (Rejected e, Nat.iter (S k) next w)
      /\ operation (Nat.iter k next w) = (Rejected e, Nat.iter (S k) next w).
Proof.
  intros Hop. induction k as [|k IH]; intros fuel attempts w Hsum Hfuel Hpos.
  - destruct fuel as [|fuel]; [lia|]. cbn [attempt Nat.iter].
    destruct (Hop w) as (e & Hrun & Hretry). exists e. split; [|exact Hrun].
    erewrite catch_rejected by exact Hrun.
    assert ((attempts + 1 <? max_retries options)%Z = false) as -> by (apply Z.ltb_ge; lia).
    reflexivity.
  - destruct fuel as [|fuel]; [lia|]. cbn [attempt].
    destruct (Hop w) as (e & Hrun & Hretry).
    erewrite catch_rejected by exact Hrun.
    assert ((attempts + 1 <? max_retries options)%Z = true) as -> by (apply Z.ltb_lt; lia).
    rewrite Hretry. cbn [andb].
    destruct (IH fuel (attempts + 1)%Z (next w)) as (e' & Hrest & Hlast); [lia|lia|lia|].
    exists e'. rewrite Hrest.
    rewrite <- !Nat.iter_succ_r in Hlast. rewrite <- Nat.iter_succ_r.
    split; [reflexivity|exact Hlast].
Qed.

(** X21.  An operation that fails every time, with errors that may be retried, is
    run [maxRetries] times (three times when [maxRetries] is missing or 0,
    once when it is negative) and the promise is then rejected with the
    error of the last run. *)
Theorem retry_runs_the_operation_max_times :
  forall (A : Type) (operation : Promise A) (options : RetryOptions)
         (next : World -> World) (fuel : nat) (w : World),
    (forall w, exists e, operation w = (Rejected e, next w)
                         /\ should_retry options e = true) ->
    (Z.to_nat (Z.max 1 (max_retries options)) <= fuel)%nat ->
    let runs := Z.to_nat (Z.max 1 (max_retries options)) in
    exists e,
      retryWithBackoff operation options fuel w = (Rejected e, Nat.iter runs next w)
      /\ operation (Nat.iter (runs - 1) next w) = (Rejected e, Nat.iter runs next w)
      /\ (maxRetries options = None \/ maxRetries options = Some 0%Z -> runs = 3%nat).
Proof.
  intros A operation options next fuel w Hop Hfuel runs.
  assert (Hruns : exists k, runs = S k) by (exists (runs - 1)%nat; subst runs; lia).
  destruct Hruns as [k Hk].
  destruct (attempt_keeps_failing A operation options next Hop k fuel 0%Z w)
    as (e & Hrun & Hlast); [subst runs; lia|lia|lia|].
  assert (Hdefault : maxRetries options = None \/ maxRetries options = Some 0%Z ->
                     runs = 3%nat).
  { intros Hdefault. subst runs. unfold max_retries.
    destruct Hdefault as [-> | ->]; reflexivity. }
  exists e. unfold retryWithBackoff. split; [|split; [|exact Hdefault]].
  - rewrite Hk. exact Hrun.
  - rewrite Hk. replace (S k - 1)%nat with k by lia. exact Hlast.
Qed.

Lemma retry_witness :
  exists e,
    retryWithBackoff always_fails (mkRetryOptions (Some 0%Z) None) 3 configured
    = (Rejected e, Nat.iter 3 (sent (to_home "web.connected" [])) configured)
    /\ always_fails (Nat.iter 2 (sent (to_home "web.connected" [])) configured)
       = (Rejected e, Nat.iter 3 (sent (to_home "web.connected" [])) configured)
    /\ (maxRetries (mkRetryOptions (Some 0%Z) None) = None
        \/ maxRetries (mkRetryOptions (Some 0%Z) None) = Some 0%Z ->
        Z.to_nat (Z.max 1 (max_retries (mkRetryOptions (Some 0%Z) None))) = 3%nat).
Proof.
  apply (retry_runs_the_operation_max_times JSON always_fails (mkRetryOptions (Some 0%Z) None)
           (sent (to_home "web.connected" []))).
  - intros w. exists (Err "down"). split; reflexivity.
  - vm_compute. lia.
Defined.


(** * The options of a torrent *)

Lemma assoc_app k a b :
  assoc k (a ++ b) = match assoc k a with Some v => Some v | None => assoc k b end.
Proof.
  induction a as [|[k' v] a IH]; [reflexivity|]. cbn [app assoc].
  destruct (k' =? k); [reflexivity|exact IH].
Qed.

Lemma assoc_when k (c : bool) acc k' v' :
  assoc k (if c then acc ++ [(k', v')] else acc)
  = match assoc k acc with
    | Some v => Some v
    | None => if c && (k' =? k) then Some v' else None
    end.
Proof.
  destruct c; [|destruct (assoc k acc); reflexivity].
  rewrite assoc_app. cbn [assoc andb]. reflexivity.
Qed.

Lemma has_key_cons k k' v rest :
  has_key k ((k', v) :: rest) = false -> (k' =? k) = false /\ has_key k rest = false.
Proof.
  unfold has_key. cbn [assoc]. destruct (k' =? k); [discriminate|]. auto.
Qed.

Lemma assoc_create_index k k' v' i fields :
  assoc k' fields = None ->
  assoc k (create_index i k' v' fields) = if k' =? k then Some v' else assoc k fields.
Proof.
  induction fields as [|[k0 v0] rest IH]; intros Hnew; cbn [create_index].
  - reflexivity.
  - cbn [assoc] in Hnew. destruct (String.eqb_spec k0 k') as [->|Hne]; [discriminate|].
    destruct (array_index k0) as [j|]; [destruct (j <? i)%N|]; try reflexivity.
    cbn [assoc]. rewrite (IH Hnew).
    destruct (String.eqb_spec k0 k) as [->|]; [|reflexivity].
    destruct (String.eqb_spec k' k) as [->|]; [contradiction|reflexivity].
Qed.

Lemma assoc_create k k' v' fields :
  has_key k' fields = false ->
  assoc k (create k' v' fields) = if k' =? k then Some v' else assoc k fields.
Proof.
  unfold has_key, create. intros Hnew.
  destruct (assoc k' fields) eqn:Hk'; [discriminate|].
  destruct (array_index k').
  - apply assoc_create_index. exact Hk'.
  - rewrite assoc_app. cbn [assoc].
    destruct (assoc k fields) eqn:Hk; [|reflexivity].
    destruct (String.eqb_spec k' k) as [->|]; [congruence|reflexivity].
Qed.

Lemma copy_none opts : fold_left copy_option opts None = None.
Proof. induction opts as [|kv opts IH]; [reflexivity|exact IH]. Qed.

(** The loop over options none of which is named [hasOwnProperty] or
    [__proto__], from an object literal that has no [hasOwnProperty] of its
    own. *)
Lemma copy_plain_options opts :
  has_key "hasOwnProperty" opts = false -> has_key "__proto__" opts = false ->
  forall acc,
    has_key "hasOwnProperty" acc = false ->
    exists fields,
      fold_left copy_option opts (Some (plain acc)) = Some (plain fields)
      /\ forall k, assoc k fields
                   = match assoc k acc with Some v => Some v | None => assoc k opts end.
Proof.
  induction opts as [|[k' v'] opts IH]; intros Hown Hproto acc Hacc.
  - exists acc. split; [reflexivity|]. intros k. destruct (assoc k acc); reflexivity.
  - apply has_key_cons in Hown as [Hk1 Hown]. apply has_key_cons in Hproto as [Hk2 Hproto].
    cbn [fold_left copy_option]. unfold inherits_hasOwnProperty.
    cbn [properties prototype plain fst snd]. rewrite Hacc. cbn [negb andb].
    destruct (has_key k' acc) eqn:Hk'.
    + destruct (IH Hown Hproto acc Hacc) as (fields & Hrun & Hfields).
      exists fields. split; [exact Hrun|]. intros k. rewrite Hfields. cbn [assoc].
      destruct (assoc k acc) eqn:Hk; [reflexivity|].
      destruct (String.eqb_spec k' k) as [->|]; [|reflexivity].
      unfold has_key in Hk'. rewrite Hk in Hk'. discriminate.
    + unfold set_property. cbn [properties prototype plain].
      rewrite Hk2. cbn [andb].
      assert (Hnext : has_key "hasOwnProperty" (create k' v' acc) = false).
      { unfold has_key. rewrite (assoc_create _ _ _ _ Hk'), Hk1.
        unfold has_key in Hacc. exact Hacc. }
      destruct (IH Hown Hproto (create k' v' acc) Hnext) as (fields & Hrun & Hfields).
      exists fields. split; [exact Hrun|]. intros k.
      rewrite Hfields, (assoc_create _ _ _ _ Hk'). cbn [assoc].
      destruct (String.eqb_spec k' k) as [->|].
      * unfold has_key in Hk'. destruct (assoc k acc); [discriminate|reflexivity].
      * reflexivity.
Qed.

(** An option named [hasOwnProperty] that another option follows. *)
Lemma copy_after_hasOwnProperty before v entry after built :
  fold_left copy_option (before ++ ("hasOwnProperty", v) :: entry :: after) built = None.
Proof.
  rewrite fold_left_app. cbn [fold_left].
  destruct (fold_left copy_option before built) as [p|]; [|apply copy_none].
  cbn [copy_option fst snd].
  destruct (inherits_hasOwnProperty p) eqn:Hin; [|apply copy_none].
  assert (Hown : has_key "hasOwnProperty" (properties p) = false).
  { unfold inherits_hasOwnProperty in Hin. apply andb_true_iff in Hin as [H _].
    apply negb_true_iff in H. exact H. }
  rewrite Hown. unfold set_property. cbn [String.eqb Ascii.eqb Bool.eqb andb].
  cbn [copy_option]. unfold inherits_hasOwnProperty at 1. cbn [properties].
  assert (has_key "hasOwnProperty" (create "hasOwnProperty" v (properties p)) = true) as ->.
  { unfold has_key at 1. rewrite (assoc_create _ _ _ _ Hown). reflexivity. }
  cbn [negb andb]. apply copy_none.
Qed.

(** X10.  When no option is named [hasOwnProperty] or [__proto__], the
    parameter object is built, and every option handed to [addTorrent]
    reaches it under its own name, and nothing else does: [add_paused] as a
    boolean, a truthy [move_completed] as [true], every other option as it
    is.  An option named [hasOwnProperty] that another option follows makes
    the copying loop throw its [TypeError], whatever the other options
    are. *)
Theorem torrent_params_forwards_every_option :
  forall (opts : list (string * JSON)),
    (has_key "hasOwnProperty" opts = false -> has_key "__proto__" opts = false ->
     exists fields,
       torrent_params (Some opts) = Some (plain fields)
       /\ forall k,
            assoc k fields
            = match assoc k opts with
              | None => None
              | Some v =>
                  if k =? "add_paused"
                  then Some (match v with JUndefined => JUndefined | _ => JBool (truthy v) end)
                  else if k =? "move_completed" then Some (if truthy v then JBool true else v)
                  else Some v
              end)
    /\ (forall v entry after,
          torrent_params (Some (opts ++ ("hasOwnProperty", v) :: entry :: after)%list)
          = None).
Proof.
  intros opts.
  split; [|intros v entry after; unfold torrent_params; apply copy_after_hasOwnProperty].
  intros Hown Hproto. unfold torrent_params. cbv zeta.
  match goal with
  | |- context [fold_left copy_option opts (Some (plain ?p4))] =>
      assert (Hacc : has_key "hasOwnProperty" p4 = false)
  end.
  { unfold has_key. rewrite !assoc_when.
    destruct (prop "add_paused" (JObj opts)); cbn [assoc String.eqb Ascii.eqb Bool.eqb];
      rewrite ?andb_false_r; reflexivity. }
  match goal with
  | |- context [fold_left copy_option opts (Some (plain ?p4))] =>
      destruct (copy_plain_options opts Hown Hproto p4 Hacc) as (fields & Hrun & Hfields)
  end.
  exists fields. split; [exact Hrun|]. intros k. rewrite Hfields, !assoc_when.
  assert (Hfirst : assoc k match prop "add_paused" (JObj opts) with
                           | JUndefined => []
                           | v => [("add_paused", JBool (truthy v))]
                           end
                   = if "add_paused" =? k
                     then match prop "add_paused" (JObj opts) with
                          | JUndefined => None
                          | v => Some (JBool (truthy v))
                          end
                     else None).
  { destruct (prop "add_paused" (JObj opts)); cbn [assoc];
      destruct ("add_paused" =? k); reflexivity. }
  rewrite Hfirst. clear Hfirst. unfold prop.
  rewrite (String.eqb_sym k "add_paused"), (String.eqb_sym k "move_completed").
  destruct (String.eqb_spec "add_paused" k) as [<-|Hpaused].
  { cbn [String.eqb Ascii.eqb Bool.eqb andb]. rewrite !andb_false_r.
    destruct (assoc "add_paused" opts) as [v|]; [destruct v; reflexivity|reflexivity]. }
  destruct (String.eqb_spec "move_completed" k) as [<-|Hmoved].
  { cbn [String.eqb Ascii.eqb Bool.eqb andb].
    rewrite !andb_false_r.
    destruct (assoc "move_completed" opts) as [v|]; [|reflexivity].
    rewrite andb_true_r. destruct (truthy v); reflexivity. }
  destruct (String.eqb_spec "download_location" k) as [<-|Hlocation].
  { cbn [String.eqb Ascii.eqb Bool.eqb andb]. rewrite !andb_false_r, andb_true_r.
    destruct (assoc "download_location" opts) as [v|]; [|reflexivity].
    destruct (truthy v); reflexivity. }
  destruct (String.eqb_spec "move_completed_path" k) as [<-|Hpath].
  { cbn [String.eqb Ascii.eqb Bool.eqb andb]. rewrite !andb_false_r, andb_true_r.
    destruct (assoc "move_completed_path" opts) as [v|]; [|reflexivity].
    destruct (truthy v); reflexivity. }
  rewrite !andb_false_r. destruct (assoc k opts); reflexivity.
Qed.

Lemma torrent_params_witness :
  (exists fields,
    torrent_params (Some [("add_paused", JNum 1); ("label", JStr "tv")]) = Some (plain fields)
    /\ forall k,
         assoc k fields
         = match assoc k [("add_paused", JNum 1); ("label", JStr "tv")] with
           | None => None
           | Some v =>
               if k =? "add_paused"
               then Some (match v with JUndefined => JUndefined | _ => JBool (truthy v) end)
               else if k =? "move_completed" then Some (if truthy v then JBool true else v)
               else Some v
           end)
  /\ torrent_params (Some [("hasOwnProperty", JNum 1); ("x", JNum 2)]) = None.
Proof.
  split.
  - destruct (torrent_params_forwards_every_option
                [("add_paused", JNum 1); ("label", JStr "tv")]) as [H _].
    apply H; reflexivity.
  - destruct (torrent_params_forwards_every_option []) as [_ H].
    apply (H (JNum 1) ("x", JNum 2) []).
Defined.

(** * The answer to [addlink-todeluge:withoptions] *)

Lemma gen1_config_resolves P n w cfg :
  ready P w -> serves P "core.get_config_values" always (config_is cfg) ->
  truthy (prop "allow_remote" (spread cfg)) = true ->
  exists w',
    Gen1._getServerConfig P (S n) w = (Resolved (JArr [spread cfg]), w')
    /\ server_config w' = spread cfg /\ length (added w w') = 1.
Proof.
  intros Hready Hcfg Hallow. unfold Gen1._getServerConfig.
  match goal with
  | |- context [Gen1._request P (S n) ?st ?c ?s] =>
      destruct (gen1_request_served P n st c s w _ _ Hready Hcfg I)
        as (p & r & w' & Hrun & Hgood & Htr & Hm & Hp & _)
  end.
  unfold config_is in Hgood.
  eexists. split.
  - erewrite then_resolved by exact Hrun. rewrite then_update, then_read.
    cbn [server_config set_server_config]. rewrite Hgood, Hallow. reflexivity.
  - split; [reflexivity|]. cbn [trace set_server_config].
    rewrite (added_app w _ [r]); [reflexivity|exact Htr].
Qed.

(** X20.  The answer to [addlink-todeluge:withoptions] takes the configuration
    out of an array.  The first generation's [_getServerConfig] resolves
    with such an array and the configuration reaches the dialog; the second
    generation's resolves with the configuration object itself, which
    cannot be taken apart, and the dialog gets an empty configuration and no
    plugins. *)
Theorem with_options_answer_needs_an_array :
  forall (P : Platform) (n : nat) (w : World) (link domain plugins : JSON),
    ready P w ->
    (forall cfg,
       serves P "core.get_config_values" always (config_is cfg) ->
       truthy (prop "allow_remote" (spread cfg)) = true ->
       exists v w',
         Gen1._getServerConfig P (S n) w = (Resolved v, w')
         /\ Messages.with_options_answer link domain plugins v
            = Messages.add_dialog link domain (spread cfg)
                (Messages.or_empty_object plugins))
    /\ (forall fields,
          serves P "core.get_config" always (config_is (JObj fields)) ->
          exists v w',
            Gen2._getServerConfig P (S n) w = (Resolved v, w')
            /\ Messages.with_options_answer link domain plugins v
               = Messages.add_dialog link domain (JObj []) (JObj [])).
Proof.
  intros P n w link domain plugins Hready. split.
  - intros cfg Hcfg Hallow.
    destruct (gen1_config_resolves P n w cfg Hready Hcfg Hallow) as (w' & Hrun & _).
    exists (JArr [spread cfg]), w'. split; [exact Hrun|].
    unfold Messages.with_options_answer, Messages.first_of, Messages.or_empty_object.
    cbn [hd]. destruct cfg; reflexivity.
  - intros fields Hcfg.
    destruct (gen2_config_ignores_allow_remote P n w (JObj fields) Hready Hcfg eq_refl)
      as (w' & Hrun & _).
    exists (JObj fields), w'. split; [exact Hrun|reflexivity].
Qed.

Lemma with_options_witness :
  (exists v w',
     Gen1._getServerConfig idle 1 configured = (Resolved v, w')
     /\ Messages.with_options_answer (JStr "magnet:?xt=urn:btih:abcd1234") (JStr "") JUndefined v
        = Messages.add_dialog (JStr "magnet:?xt=urn:btih:abcd1234") (JStr "")
            (spread sample_config) (Messages.or_empty_object JUndefined))
  /\ (exists v w',
        Gen2._getServerConfig idle 1 configured = (Resolved v, w')
        /\ Messages.with_options_answer (JStr "magnet:?xt=urn:btih:abcd1234") (JStr "")
             JUndefined v
           = Messages.add_dialog (JStr "magnet:?xt=urn:btih:abcd1234") (JStr "")
               (JObj []) (JObj [])).
Proof.
  destruct (with_options_answer_needs_an_array idle 0 configured
              (JStr "magnet:?xt=urn:btih:abcd1234") (JStr "") JUndefined
              (ready_configured _)) as [Hfirst Hsecond].
  split.
  - apply Hfirst; [|reflexivity].
    apply (table_serves _ _ sample_config); reflexivity.
  - apply (Hsecond [("allow_remote", JBool true); ("download_location", JStr "/downloads")]).
    apply (table_serves _ _ sample_config); reflexivity.
Defined.

(** * The cookies of a site *)

Section CookieProofs.
Import Cookies.

(** ** [Object.values] keeps the values *)

Lemma insert_by_index_perm V i (v : V) sorted :
  Permutation (insert_by_index i v sorted) ((i, v) :: sorted).
Proof.
  induction sorted as [|[j u] sorted IH]; cbn [insert_by_index]; [reflexivity|].
  destruct (i <? j)%N; [reflexivity|].
  rewrite IH. apply perm_swap.
Qed.

Lemma indexed_perm V (fields : list (string * V)) :
  forall sorted,
    Permutation
      (map snd (fold_left (fun sorted kv =>
                             match array_index (fst kv) with
                             | Some i => insert_by_index i (snd kv) sorted
                             | None => sorted
                             end) fields sorted))
      (map snd sorted ++ map snd (filter is_index fields)).
Proof.
  induction fields as [|kv fields IH]; intros sorted; cbn [fold_left filter].
  - rewrite app_nil_r. reflexivity.
  - rewrite IH. unfold is_index at 2. destruct (array_index (fst kv)) as [i|].
    + rewrite (Permutation_map snd (insert_by_index_perm V i (snd kv) sorted)).
      cbn [map snd app]. apply Permutation_middle.
    + reflexivity.
Qed.

Lemma partition_perm A (f : A -> bool) l :
  Permutation (filter f l ++ filter (fun x => negb (f x)) l) l.
Proof.
  induction l as [|x l IH]; [reflexivity|]. cbn [filter].
  destruct (f x); cbn [negb app].
  - constructor. exact IH.
  - rewrite <- Permutation_middle. constructor. exact IH.
Qed.

Lemma values_in_order_perm V (fields : list (string * V)) :
  Permutation (values_in_order fields) (map snd fields).
Proof.
  unfold values_in_order. rewrite indexed_perm. cbn [map app].
  rewrite <- map_app.
  apply Permutation_map.
  apply partition_perm.
Qed.

(** ** One entry per name, the best one *)

Lemma own_in V k (fields : list (string * V)) v : own k fields = Some v -> In (k, v) fields.
Proof.
  induction fields as [|[k' v'] fields IH]; cbn [own]; [discriminate|].
  destruct (String.eqb_spec k' k) as [->|].
  - intros [= ->]. left. reflexivity.
  - intros H. right. exact (IH H).
Qed.

Lemma own_none V k (fields : list (string * V)) : own k fields = None -> ~ In k (map fst fields).
Proof.
  induction fields as [|[k' v'] fields IH]; cbn [own map fst]; [intros _ []|].
  destruct (String.eqb_spec k' k) as [->|Hne]; [discriminate|].
  intros H [Hk|Hin]; [contradiction|exact (IH H Hin)].
Qed.

Lemma unique_entry V (fields : list (string * V)) k v v' :
  NoDup (map fst fields) -> In (k, v) fields -> In (k, v') fields -> v = v'.
Proof.
  induction fields as [|[k0 v0] fields IH]; [intros _ []|].
  cbn [map fst]. intros Hnd [H|H] [H'|H'].
  - congruence.
  - inversion Hnd as [|? ? Hnot _]. injection H as -> ->.
    destruct Hnot. apply (in_map fst) in H'. exact H'.
  - inversion Hnd as [|? ? Hnot _]. injection H' as -> ->.
    destruct Hnot. apply (in_map fst) in H. exact H.
  - inversion Hnd. eauto.
Qed.

Lemma replace_keys V k (x : V) (fields : list (string * V)) :
  map fst (map (fun kv => if fst kv =? k then (k, x) else kv) fields) = map fst fields.
Proof.
  induction fields as [|[k' v'] fields IH]; [reflexivity|]. cbn [map fst].
  rewrite IH. destruct (String.eqb_spec k' k) as [->|]; reflexivity.
Qed.

Lemma replace_in V k (x : V) (fields : list (string * V)) k' v' :
  In (k', v') (map (fun kv => if fst kv =? k then (k, x) else kv) fields)
  <-> (k' = k /\ v' = x /\ In k (map fst fields)) \/ (k' <> k /\ In (k', v') fields).
Proof.
  induction fields as [|[k0 v0] fields IH]; cbn [map fst In].
  - tauto.
  - rewrite IH. clear IH. destruct (String.eqb_spec k0 k) as [->|Hne].
    + split.
      * intros [H|[H|H]].
        -- injection H as <- <-. left. auto.
        -- left. tauto.
        -- right. tauto.
      * intros [(-> & -> & H)|(Hk & [H|H])].
        -- left. reflexivity.
        -- injection H as <- <-. contradiction.
        -- right. right. auto.
    + split.
      * intros [H|[H|H]].
        -- injection H as <- <-. right. auto.
        -- left. tauto.
        -- right. tauto.
      * intros [(-> & -> & [H|H])|(Hk & [H|H])].
        -- contradiction.
        -- right. left. auto.
        -- left. exact H.
        -- right. right. auto.
Qed.

Lemma collect_keeps clean seen byName cookie :
  collected clean seen byName ->
  collected clean (seen ++ [cookie]) (collect clean byName cookie).
Proof.
  intros (Hnd & Hentries & Hbest). unfold collect.
  destruct (own (name cookie) byName) as [[c0 s0]|] eqn:Hown.
  - apply own_in in Hown.
    destruct (Hentries _ _ _ Hown) as (_ & Hs0 & Hc0 & Hinh).
    destruct (s0 <? score clean cookie)%N eqn:Hlt.
    + apply N.ltb_lt in Hlt. split; [|split].
      * rewrite replace_keys. exact Hnd.
      * intros k c s Hin. apply replace_in in Hin as [(-> & [= -> ->] & _)|(Hk & Hin)].
        -- repeat split; auto. apply in_or_app. right. left. reflexivity.
        -- destruct (Hentries _ _ _ Hin) as (? & ? & ? & ?).
           repeat split; auto. apply in_or_app. left. assumption.
      * intros c Hin Hc. apply in_app_or in Hin as [Hin|[<-|[]]].
        -- destruct (Hbest c Hin Hc) as (c' & Hin' & Hle).
           destruct (String.eqb_spec (name c) (name cookie)) as [Heq|Hne].
           ++ exists cookie. split.
              ** apply replace_in. left. rewrite Heq. repeat split.
                 apply (in_map fst) in Hown. exact Hown.
              ** rewrite Heq in Hin'.
                 pose proof (unique_entry _ _ _ _ _ Hnd Hown Hin') as [= <- Hs].
                 subst s0. lia.
           ++ exists c'. split; [|exact Hle]. apply replace_in. right. auto.
        -- exists cookie. split; [|lia].
           apply replace_in. left. repeat split. apply (in_map fst) in Hown. exact Hown.
    + apply N.ltb_ge in Hlt. split; [exact Hnd|split].
      * intros k c s Hin. destruct (Hentries _ _ _ Hin) as (? & ? & ? & ?).
        repeat split; auto. apply in_or_app. left. assumption.
      * intros c Hin Hc. apply in_app_or in Hin as [Hin|[<-|[]]]; [exact (Hbest c Hin Hc)|].
        exists c0. subst s0. split; [exact Hown|exact Hlt].
  - destruct (inherited (name cookie)) eqn:Hinh.
    + split; [exact Hnd|split].
      * intros k c s Hin. destruct (Hentries _ _ _ Hin) as (? & ? & ? & ?).
        repeat split; auto. apply in_or_app. left. assumption.
      * intros c Hin Hc. apply in_app_or in Hin as [Hin|[<-|[]]]; [exact (Hbest c Hin Hc)|].
        congruence.
    + split; [|split].
      * rewrite map_app. cbn [map fst]. apply NoDup_app; [exact Hnd|repeat constructor; intros []|].
        intros k Hk [<-|[]]. exact (own_none _ _ _ Hown Hk).
      * intros k c s Hin. apply in_app_or in Hin as [Hin|[[= <- <- <-]|[]]].
        -- destruct (Hentries _ _ _ Hin) as (? & ? & ? & ?).
           repeat split; auto. apply in_or_app. left. assumption.
        -- repeat split; auto. apply in_or_app. right. left. reflexivity.
      * intros c Hin Hc. apply in_app_or in Hin as [Hin|[<-|[]]].
        -- destruct (Hbest c Hin Hc) as (c' & Hin' & Hle).
           exists c'. split; [apply in_or_app; left; exact Hin'|exact Hle].
        -- exists cookie. split; [apply in_or_app; right; left; reflexivity|lia].
Qed.

Lemma collect_all clean cookies :
  forall seen byName,
    collected clean seen byName ->
    collected clean (seen ++ cookies) (fold_left (collect clean) cookies byName).
Proof.
  induction cookies as [|c cookies IH]; intros seen byName H; cbn [fold_left].
  - rewrite app_nil_r. exact H.
  - replace (seen ++ c :: cookies)%list with ((seen ++ [c]) ++ cookies)%list
      by (rewrite <- app_assoc; reflexivity).
    apply IH, collect_keeps, H.
Qed.

Lemma collected_nothing clean : collected clean [] [].
Proof.
  split; [constructor|split].
  - intros k c s [].
  - intros c [].
Qed.

Lemma score_of_match clean c :
  cookieDomainMatches clean c = true -> (score clean c = 4 \/ score clean c = 2)%N.
Proof.
  unfold cookieDomainMatches, score.
  destruct (without_dot (domain c) =? clean) eqn:Hexact; [auto|].
  cbn [orb]. intros Hparent. rewrite Hparent.
  destruct (String.eqb_spec (domain c) ("." ++ clean)) as [Hdot|_]; [|auto].
  rewrite Hdot in Hexact. cbn [append without_dot] in Hexact.
  rewrite String.eqb_refl in Hexact. discriminate.
Qed.

Lemma found_in B d c :
  In c (found B d) ->
  cookieDomainMatches (without_dot d) c = true
  /\ exists v, In v (domain_variants d) /\ In c (getAll B v).
Proof.
  unfold found. intros H. apply in_concat in H as (l & Hl & Hc).
  apply in_map_iff in Hl as (v & <- & Hv).
  apply filter_In in Hc as [Hc Hm]. eauto.
Qed.

Lemma selected_in clean cookies c :
  In c (selected clean cookies) ->
  In c cookies /\ inherited (name c) = false
  /\ In (name c, (c, score clean c)) (fold_left (collect clean) cookies []).
Proof.
  unfold selected. intros H. apply in_map_iff in H as ([c0 s] & <- & H).
  apply (Permutation_in _ (values_in_order_perm _ _)) in H.
  apply in_map_iff in H as ([k [c1 s1]] & [= -> ->] & H).
  destruct (collect_all clean cookies [] [] (collected_nothing clean)) as (_ & Hentries & _).
  destruct (Hentries _ _ _ H) as (-> & -> & Hin & Hinh). auto.
Qed.

Lemma selected_names clean cookies : NoDup (map name (selected clean cookies)).
Proof.
  destruct (collect_all clean cookies [] [] (collected_nothing clean)) as (Hnd & Hentries & _).
  unfold selected. rewrite map_map.
  eapply Permutation_NoDup.
  - symmetry. apply Permutation_map. apply values_in_order_perm.
  - rewrite map_map.
    erewrite map_ext_in; [exact Hnd|].
    intros [k [c s]] Hin. destruct (Hentries _ _ _ Hin) as (-> & _). reflexivity.
Qed.

(** X12.  The cookies that go into the string are cookies the browser reported
    for one of the domains asked, they belong to the cookie domain or to a
    domain above it, no two of them have the same name, and none is named
    like a member of [Object.prototype].  Their scores are 4 or 2: the
    scores 3 and 1 are never given. *)
Theorem selected_cookies_belong_to_the_domain :
  forall (B : Browser) (d : string),
    NoDup (map name (selected (without_dot d) (found B d)))
    /\ Forall (fun c =>
                 cookieDomainMatches (without_dot d) c = true
                 /\ (exists v, In v (domain_variants d) /\ In c (getAll B v))
                 /\ inherited (name c) = false
                 /\ (score (without_dot d) c = 4 \/ score (without_dot d) c = 2)%N)
         (selected (without_dot d) (found B d)).
Proof.
  intros B d. split; [apply selected_names|].
  apply Forall_forall. intros c Hc.
  apply selected_in in Hc as (Hin & Hinh & _).
  apply found_in in Hin as (Hm & Hv).
  split; [exact Hm|]. split; [exact Hv|]. split; [exact Hinh|].
  exact (score_of_match _ _ Hm).
Qed.

(** X13.  Of the cookies of one name the most specific one is kept: every cookie
    whose name is not a member of [Object.prototype] has a cookie of its
    name among those selected, which scores at least as much. *)
Theorem most_specific_cookie_wins :
  forall (clean : string) (cookies : list Cookie) (c : Cookie),
    In c cookies -> inherited (name c) = false ->
    exists c',
      In c' (selected clean cookies) /\ name c' = name c
      /\ (score clean c <= score clean c')%N.
Proof.
  intros clean cookies c Hin Hinh.
  destruct (collect_all clean cookies [] [] (collected_nothing clean)) as (_ & Hentries & Hbest).
  destruct (Hbest c Hin Hinh) as (c' & Hentry & Hle).
  exists c'. split; [|split; [|exact Hle]].
  - unfold selected. apply in_map_iff. exists (c', score clean c'). split; [reflexivity|].
    apply (Permutation_in _ (Permutation_sym (values_in_order_perm _ _))).
    apply in_map_iff. exists (name c, (c', score clean c')). auto.
  - destruct (Hentries _ _ _ Hentry) as (H & _). symmetry. exact H.
Qed.

Lemma most_specific_cookie_witness :
  exists c',
    In c' (selected "t.example.com"
             [mkCookie "sid" "parent" ".example.com"; mkCookie "sid" "exact" "t.example.com"])
    /\ name c' = name (mkCookie "sid" "exact" "t.example.com")
    /\ (score "t.example.com" (mkCookie "sid" "exact" "t.example.com")
        <= score "t.example.com" c')%N.
Proof.
  apply most_specific_cookie_wins; [right; left; reflexivity|reflexivity].
Defined.

(** ** [_getDomainCookies] *)

Lemma nonempty_false s : nonempty s = false -> s = "".
Proof. destruct s; [reflexivity|discriminate]. Qed.

(** X11.  [_getDomainCookies] always resolves.  It resolves with a cookie string,
    which it also files in [COOKIES] under the cookie domain, only when
    sending cookies is switched on and the host of the link ends with the
    cookie domain; otherwise it resolves with the empty string and changes
    nothing. *)
Theorem cookies_are_collected_only_for_the_site :
  forall (B : Browser) (u : string) (d : option string) (w : World),
    exists line w',
      _getDomainCookies B u d w = (Resolved line, w')
      /\ (nonempty line = false -> line = "" /\ w' = w)
      /\ (nonempty line = true ->
          truthy (send_cookies w) = true
          /\ exists host dom,
               hostname B u = Some host /\ d = Some dom
               /\ endsWith (without_dot dom) host = true
               /\ line = cookie_line (selected (without_dot dom) (found B dom))
               /\ w' = set_COOKIES (store_cookie dom line) w).
Proof.
  intros B u d w. unfold _getDomainCookies. rewrite then_read.
  destruct (truthy (send_cookies w)) eqn:Hsend; cbn [negb].
  2:{ exists "", w. split; [reflexivity|]. split; [auto|discriminate]. }
  destruct (hostname B u) as [host|] eqn:Hhost.
  2:{ exists "", w. split; [reflexivity|]. split; [auto|discriminate]. }
  destruct d as [dom|].
  2:{ exists "", w. split; [reflexivity|]. split; [auto|discriminate]. }
  destruct (nonempty (without_dot dom)) eqn:Hclean; cbn [negb orb].
  2:{ exists "", w. split; [reflexivity|]. split; [auto|discriminate]. }
  destruct (endsWith (without_dot dom) host) eqn:Hends; cbn [negb].
  2:{ exists "", w. split; [reflexivity|]. split; [auto|discriminate]. }
  destruct (nonempty (cookie_line (selected (without_dot dom) (found B dom)))) eqn:Hline;
    cbn [negb].
  - eexists _, _. split; [reflexivity|]. split; [congruence|].
    intros _. split; [reflexivity|]. exists host, dom. auto.
  - exists "", w. split; [reflexivity|]. split; [auto|discriminate].
Qed.









End CookieProofs.

(** * The listeners *)

Lemma split_cons sep s : exists piece pieces, Messages.split sep s = piece :: pieces.
Proof.
  induction s as [|c s (piece & pieces & IH)]; cbn [Messages.split].
  - eauto.
  - destruct (Ascii.eqb c sep); [eauto|]. rewrite IH. eauto.
Qed.

Lemma join_cons sep x y rest : join sep (x :: y :: rest) = x ++ sep ++ join sep (y :: rest).
Proof. reflexivity. Qed.

Lemma join_split sep s : join (String sep "") (Messages.split sep s) = s.
Proof.
  induction s as [|c s IH]; [reflexivity|]. cbn [Messages.split].
  destruct (Ascii.eqb_spec c sep) as [->|Hne].
  - destruct (split_cons sep s) as (piece & pieces & E). rewrite E in *.
    rewrite join_cons, IH. reflexivity.
  - destruct (split_cons sep s) as (piece & pieces & E). rewrite E in *.
    destruct pieces as [|y rest].
    + cbn [join] in *. rewrite IH. reflexivity.
    + rewrite join_cons in *. cbn [append]. f_equal. exact IH.
Qed.

(** X16.  The key of a storage message is what follows the action, hyphens
    included: writing goes to the key named, every other action reads it. *)
Theorem storage_key_round_trip :
  forall k : string,
    Messages.route (Some ("storage-set-" ++ k)) = Messages.StorageSet k
    /\ Messages.route (Some ("storage-get-" ++ k)) = Messages.StorageGet k.
Proof.
  intros k. split.
  - unfold Messages.route. cbn -[Messages.split join].
    destruct (split_cons "-" k) as (piece & pieces & E).
    pose proof (join_split "-" k) as J. cbn. rewrite E in *. cbn. exact (f_equal _ J).
  - unfold Messages.route. cbn -[Messages.split join].
    destruct (split_cons "-" k) as (piece & pieces & E).
    pose proof (join_split "-" k) as J. cbn. rewrite E in *. cbn. exact (f_equal _ J).
Qed.

(** X17.  The branch for [storage-get-default_label] is never taken: that message
    is a storage message, and is answered by the branch for those. *)
Theorem default_label_branch_is_dead :
  (forall method, Messages.route method <> Messages.DefaultLabel)
  /\ Messages.route (Some "storage-get-default_label") = Messages.StorageGet "default_label".
Proof.
  split; [|reflexivity].
  intros [m|]; [|discriminate]. unfold Messages.route.
  destruct (negb (nonempty m)); [discriminate|].
  destruct (m =? "settings-changed"); [discriminate|].
  destruct (m =? "notify"); [discriminate|].
  destruct (hd "" (Messages.split "-" m) =? "storage") eqn:Hstorage.
  { repeat match goal with
           | |- context [match ?x with _ => _ end] => destruct x
           end; discriminate. }
  destruct (hd "" (Messages.split "-" m) =? "addlink"); [discriminate|].
  destruct (m =? "connect"); [discriminate|].
  destruct (hd "" (Messages.split "-" m) =? "plugins"); [discriminate|].
  destruct (String.eqb_spec m "storage-get-default_label") as [->|_].
  { vm_compute in Hstorage. discriminate. }
  destruct (m =? "torrent-list"); [discriminate|].
  destruct (hd "" (Messages.split "-" m) =? "add"); discriminate.
Qed.

(** ** The domain of a link *)

Lemma prefix_app p rest : String.prefix p (p ++ rest) = true.
Proof.
  induction p as [|a p IH]; [destruct rest; reflexivity|].
  cbn. destruct (ascii_dec a a); [exact IH|contradiction].
Qed.

Lemma indexOf_skips needle pre rest :
  includes (substring 0 1 needle) pre = false -> needle <> "" ->
  Messages.indexOf needle (pre ++ needle ++ rest) = Some (String.length pre).
Proof.
  intros Hno Hne. destruct needle as [|n needle]; [contradiction|]. clear Hne.
  cbn [substring] in Hno. replace (substring 0 0 needle) with "" in Hno
    by (destruct needle; reflexivity).
  pose proof (prefix_app (String n needle) rest) as Hhere.
  remember (String n needle ++ rest) as tail eqn:Htail.
  assert (Hfirst : exists t, tail = String n t) by (rewrite Htail; cbn; eauto).
  clear Htail.
  induction pre as [|c pre IH].
  - cbn [append String.length]. destruct tail; cbn [Messages.indexOf]; rewrite Hhere; reflexivity.
  - cbn [includes] in Hno. apply orb_false_iff in Hno as [Hc Hrest].
    cbn [append String.length Messages.indexOf].
    match goal with
    | |- context [String.prefix ?a ?b] => assert (String.prefix a b = false) as ->
    end.
    { cbn [String.prefix]. destruct (ascii_dec n c) as [->|]; [|reflexivity].
      cbn [String.prefix] in Hc. destruct (ascii_dec c c); [|contradiction].
      destruct pre; discriminate. }
    rewrite (IH Hrest). reflexivity.
Qed.

Lemma indexOf_none c s :
  includes (String c "") s = false -> forall needle, Messages.indexOf (String c needle) s = None.
Proof.
  intros Hno needle. induction s as [|a s IH].
  - reflexivity.
  - cbn [includes] in Hno. apply orb_false_iff in Hno as [Ha Hs].
    cbn [Messages.indexOf].
    match goal with
    | |- context [String.prefix ?x ?y] => assert (String.prefix x y = false) as ->
    end.
    { cbn [String.prefix] in *. destruct (ascii_dec c a); [|reflexivity].
      destruct s; discriminate. }
    rewrite (IH Hs). reflexivity.
Qed.

Lemma substring_from_app pre rest :
  Messages.substring_from (String.length pre) (pre ++ rest) = rest.
Proof. induction pre as [|c pre IH]; [destruct rest; reflexivity|exact IH]. Qed.

Lemma substring_from_plus n m s :
  Messages.substring_from (n + m) s = Messages.substring_from m (Messages.substring_from n s).
Proof.
  revert s. induction n as [|n IH]; intros s.
  - destruct s; reflexivity.
  - destruct s as [|c s]; [destruct m; reflexivity|]. cbn. apply IH.
Qed.

Lemma substring_app pre rest : substring 0 (String.length pre) (pre ++ rest) = pre.
Proof.
  induction pre as [|c pre IH]; [destruct rest; reflexivity|].
  cbn. rewrite IH. reflexivity.
Qed.

(** X18.  The domain the click listener hands on is the whole authority of the
    link, user and port included; for a link without a slash it is the link
    itself less its first character. *)
Theorem link_domain_is_authority :
  (forall scheme authority path : string,
     includes "/" scheme = false -> includes "/" authority = false ->
     Messages.link_domain (scheme ++ "//" ++ authority ++ "/" ++ path) = authority
     /\ Messages.link_domain (scheme ++ "//" ++ authority) = authority)
  /\ (forall link : string,
        includes "/" link = false ->
        Messages.link_domain link = Messages.substring_from 1 link).
Proof.
  split.
  - intros scheme authority path Hs Ha.
    assert (Hcut : forall rest,
              Messages.substring_from (String.length scheme + 2) (scheme ++ "//" ++ rest)
              = rest).
    { intros rest. rewrite substring_from_plus, substring_from_app. reflexivity. }
    unfold Messages.link_domain. split.
    + rewrite (indexOf_skips "//" scheme (authority ++ "/" ++ path) Hs) by discriminate.
      rewrite Hcut.
      rewrite (indexOf_skips "/" authority path Ha) by discriminate.
      apply substring_app.
    + rewrite (indexOf_skips "//" scheme authority Hs) by discriminate.
      rewrite Hcut. rewrite (indexOf_none "/" authority Ha ""). reflexivity.
  - intros link Hno. unfold Messages.link_domain.
    assert (Hrest : includes "/" (Messages.substring_from 1 link) = false).
    { destruct link as [|c s]; [reflexivity|]. cbn [includes] in Hno.
      apply orb_false_iff in Hno as [_ H]. destruct s; exact H. }
    rewrite (indexOf_none "/" link Hno "/").
    rewrite (indexOf_none "/" _ Hrest ""). reflexivity.
Qed.

Lemma link_domain_witness :
  (Messages.link_domain ("http:" ++ "//" ++ "user@example.com:8080" ++ "/" ++ "a/b.torrent")
   = "user@example.com:8080"
   /\ Messages.link_domain ("http:" ++ "//" ++ "user@example.com:8080")
      = "user@example.com:8080")
  /\ Messages.link_domain "magnet:?xt=urn:btih:abcd1234"
     = Messages.substring_from 1 "magnet:?xt=urn:btih:abcd1234".
Proof.
  destruct link_domain_is_authority as [Hauthority Hplain]. split.
  - apply Hauthority; reflexivity.
  - apply Hplain. reflexivity.
Defined.

(** ** The check of the link *)

Lemma anywhere_app here pre s : here s = true -> Messages.anywhere here (pre ++ s) = true.
Proof.
  intros H. induction pre as [|c pre IH]; cbn [append Messages.anywhere].
  - destruct s; cbn [Messages.anywhere]; rewrite H; reflexivity.
  - rewrite IH. apply orb_true_r.
Qed.

Lemma prefix_cons_inv a p s :
  String.prefix (String a p) s = true -> exists s', s = String a s' /\ String.prefix p s' = true.
Proof.
  destruct s as [|b s]; cbn [String.prefix]; [discriminate|].
  destruct (ascii_dec a b) as [->|]; [|discriminate]. eauto.
Qed.

Lemma prefix_trans p q s :
  String.prefix p q = true -> String.prefix q s = true -> String.prefix p s = true.
Proof.
  revert q s. induction p as [|a p IH]; intros q s Hpq Hqs.
  - destruct s; reflexivity.
  - apply prefix_cons_inv in Hpq as (q' & -> & Hpq).
    apply prefix_cons_inv in Hqs as (s' & -> & Hqs).
    cbn [String.prefix]. destruct (ascii_dec a a); [|contradiction]. eapply IH; eauto.
Qed.

Lemma includes_prefix needle p s :
  includes needle p = true -> String.prefix p s = true -> includes needle s = true.
Proof.
  revert s. induction p as [|a p IH]; intros s Hin Hp.
  - cbn [includes] in Hin. rewrite orb_false_r in Hin.
    destruct needle; [|discriminate]. destruct s; reflexivity.
  - apply prefix_cons_inv in Hp as (s' & -> & Hp).
    cbn [includes] in *. apply orb_true_iff in Hin as [Hin|Hin].
    + assert (String.prefix needle (String a s') = true) as ->; [|reflexivity].
      eapply prefix_trans; [exact Hin|].
      cbn [String.prefix]. destruct (ascii_dec a a); [exact Hp|contradiction].
    + rewrite (IH s' Hin Hp). apply orb_true_r.
Qed.

Lemma scheme_here_colon s : Messages.scheme_here s = true -> includes ":" s = true.
Proof.
  unfold Messages.scheme_here. intros H. apply existsb_exists in H as (scheme & Hin & H).
  unfold Messages.after in H.
  destruct (String.prefix (scheme ++ "://") s) eqn:Hp; [|discriminate].
  refine (includes_prefix ":" _ s _ Hp).
  cbn [In] in Hin. repeat destruct Hin as [<-|Hin]; try reflexivity. contradiction.
Qed.

Lemma anywhere_colon s : Messages.anywhere Messages.scheme_here s = true -> includes ":" s = true.
Proof.
  induction s as [|c s IH]; cbn [Messages.anywhere].
  - rewrite orb_false_r. apply scheme_here_colon.
  - intros H. apply orb_true_iff in H as [H|H]; [exact (scheme_here_colon _ H)|].
    cbn [includes]. rewrite (IH H). apply orb_true_r.
Qed.

(** X19.  The check of a link is not anchored: it lets through every string that
    starts with [magnet:] and every string that holds, anywhere, one of the
    five schemes with [://] and one more character; a string without a
    colon never passes. *)
Theorem link_check_is_not_anchored :
  (forall rest : string, Messages.url_match ("magnet:" ++ rest) = true)
  /\ (forall (before scheme : string) (c : ascii) (rest : string),
        In scheme ["file"; "http"; "https"; "ftp"; "ftps"] ->
        Messages.line_terminator c = false ->
        Messages.url_match (before ++ scheme ++ "://" ++ String c rest) = true)
  /\ (forall link : string, includes ":" link = false -> Messages.url_match link = false).
Proof.
  split; [|split].
  - intros rest. unfold Messages.url_match, startsWith. rewrite prefix_app. reflexivity.
  - intros before scheme c rest Hin Hc. unfold Messages.url_match.
    rewrite anywhere_app; [apply orb_true_r|].
    unfold Messages.scheme_here. apply existsb_exists. exists scheme. split; [exact Hin|].
    unfold Messages.after.
    replace (scheme ++ "://" ++ String c rest) with ((scheme ++ "://") ++ String c rest)
      by (cbn [In] in Hin; repeat destruct Hin as [<-|Hin]; try reflexivity; contradiction).
    rewrite prefix_app, substring_from_app, Hc. reflexivity.
  - intros link Hno. unfold Messages.url_match.
    destruct (startsWith "magnet:" link) eqn:Hm.
    { rewrite (includes_prefix ":" "magnet:" link eq_refl Hm) in Hno. discriminate. }
    destruct (Messages.anywhere Messages.scheme_here link) eqn:Ha; [|reflexivity].
    rewrite (anywhere_colon link Ha) in Hno. discriminate.
Qed.

Lemma link_check_witness :
  Messages.url_match ("javascript:alert('" ++ "http" ++ "://" ++ String "x" "')") = true
  /\ Messages.url_match "/download.php?id=3" = false.
Proof.
  destruct link_check_is_not_anchored as (_ & Hany & Hnone). split.
  - apply Hany; [cbn; auto|reflexivity].
  - apply Hnone. reflexivity.
Defined.

(** * More on the daemons *)

(** X22.  A host that does not come online is asked for its status until
    [CONNECT_ATTEMPTS] has reached 5, that is at most five times, and
    [_connectDaemon] is then rejected; once the attempts are used up, a host
    that is not online is given up without a request (first generation). *)
Theorem host_is_polled_at_most_five_times :
  forall (P : Platform) (fuel : nat) (id : JSON) (s : string) (info : JSON) (w : World),
    s <> "Online" ->
    answers P "web.get_host_status" [id] always (gen1_status id s) ->
    ready P w -> prop "host_id" info = id -> is_str "Online" (prop "status" info) = false ->
    CONNECT_ATTEMPTS w <= 5 -> 5 - CONNECT_ATTEMPTS w < fuel ->
    exists w',
      Gen1._connectDaemon P fuel info w
      = (Rejected (Err "Max connection attempts reached"), w')
      /\ calls w w' = repeat ("web.get_host_status", [id]) (5 - CONNECT_ATTEMPTS w)
      /\ CONNECT_ATTEMPTS w' = 5.
Proof.
  intros P fuel id s info w Hs Hstatus Hready Hid Hoff Hle Hfuel.
  destruct (gen1_polls P id s Hs Hstatus (5 - CONNECT_ATTEMPTS w) fuel info w Hready Hid Hoff)
    as (w' & new & Hrun & Htr & Hnew & Hattempts & _); [lia|exact Hfuel|].
  exists w'. split; [exact Hrun|]. split; [|exact Hattempts].
  rewrite (calls_app w w' new Htr). exact Hnew.
Qed.

Lemma host_is_polled_witness :
  exists w',
    Gen1._connectDaemon (one_host "Starting") 6
      (gen1_info (JStr "h1") JUndefined JUndefined "Starting" (JStr "2.1.1"))
      (set_CONNECT_ATTEMPTS 2 configured)
    = (Rejected (Err "Max connection attempts reached"), w')
    /\ calls (set_CONNECT_ATTEMPTS 2 configured) w'
       = repeat ("web.get_host_status", [JStr "h1"])
           (5 - CONNECT_ATTEMPTS (set_CONNECT_ATTEMPTS 2 configured))
    /\ CONNECT_ATTEMPTS w' = 5.
Proof.
  apply (host_is_polled_at_most_five_times (one_host "Starting") 6 (JStr "h1") "Starting").
  - discriminate.
  - apply one_host_reports. discriminate.
  - apply ready_set_attempts, ready_configured.
  - reflexivity.
  - reflexivity.
  - cbn. lia.
  - cbn. lia.
Defined.

(** X23.  Whatever way the first generation has adopted a daemon, it is what
    [DAEMON_INFO] holds afterwards, with [CONNECT_ATTEMPTS] back at 1; and
    when the host id it came with is truthy, every later
    [_getConnectedDaemon] resolves with it from there: no request is sent
    and the host list is not looked at. *)
Theorem adopted_daemon_is_reused :
  forall (P : Platform) (fuel : nat) (h : JSON) (w : World) (info : JSON) (w' : World),
    Gen1.try_host P fuel h w = (Resolved info, w') ->
    truthy (prop "host_id" info) = true ->
    DAEMON_INFO w' = info /\ CONNECT_ATTEMPTS w' = 1
    /\ forall P' fuel' hosts,
         Gen1._getConnectedDaemon P' fuel' hosts w' = (Resolved info, w').
Proof.
  intros P fuel h w info w' Hrun Hid.
  assert (Hadopted : exists w1, w' = adopted info w1).
  { unfold Gen1.try_host in Hrun.
    destruct (element 0 h) as [hostId|]; [|discriminate].
    destruct (element 1 h) as [ip|]; [|discriminate].
    destruct (element 2 h) as [port|]; [|discriminate].
    apply then_inv in Hrun as (a & w1 & _ & Hrest).
    exists w1. revert Hrest. unfold then_, update, resolve.
    intros [= <- <-]. reflexivity. }
  destruct Hadopted as [w1 ->].
  split; [reflexivity|]. split; [reflexivity|].
  intros P' fuel' hosts. unfold Gen1._getConnectedDaemon. rewrite then_read.
  cbn [DAEMON_INFO adopted set_CONNECT_ATTEMPTS set_DAEMON_INFO]. rewrite Hid. reflexivity.
Qed.

Lemma adopted_daemon_witness :
  exists info w',
    Gen1.try_host (one_host "Online") 1 (host "h1") configured = (Resolved info, w')
    /\ DAEMON_INFO w' = info /\ CONNECT_ATTEMPTS w' = 1
    /\ forall P' fuel' hosts,
         Gen1._getConnectedDaemon P' fuel' hosts w' = (Resolved info, w').
Proof.
  destruct (gen1_path_online (one_host "Online") 0 (JStr "h1") (JStr "127.0.0.1")
              (JNum 58846) configured (ready_configured _))
    as (info & w' & Hrun & _ & Hid & _).
  - apply one_host_reports. discriminate.
  - apply one_host_accepts. discriminate.
  - exists info, w'. split; [exact Hrun|].
    apply (adopted_daemon_is_reused (one_host "Online") 1 (host "h1") configured info w' Hrun).
    rewrite Hid. reflexivity.
Defined.

(** X24.  The second generation takes the status answer apart as
    [[status, info]], while the panel answers [[host_id, status, version]]
    or [[host_id, ip, port, status, version]].  So it reads the host id as
    the status: whatever state the panel reports, the attempt for the host
    sends the status query alone, is rejected as an unknown status that
    names the host id, and leaves [DAEMON_INFO] as it was. *)
Theorem reported_host_is_given_up :
  forall (P : Platform) (n : nat) (id s : string) (ip port : JSON) (w : World),
    ready P w -> knows_host (JStr id) w ->
    answers P "web.get_host_status" [JStr id] always (gen1_status (JStr id) s) ->
    id <> "Connected" -> id <> "Online" -> id <> "Offline" ->
    exists w',
      Gen2.try_host P (S n) (JArr [JStr id; ip; port]) w
      = (Rejected (Err ("Unknown daemon status: " ++ id)), w')
      /\ calls w w' = [("web.get_host_status", [JStr id])]
      /\ DAEMON_INFO w' = DAEMON_INFO w.
Proof.
  intros P n id s ip port w Hready Hknows Hans Hc Hon Hoff.
  destruct (gen2_misreads_status P n id s ip port w Hready Hknows Hans Hc Hon Hoff)
    as (w' & Hrun & Hcalls & Hun).
  exists w'. split; [exact Hrun|]. split; [exact Hcalls|]. apply (same_daemon _ _ Hun).
Qed.

Lemma reported_host_witness :
  exists w',
    Gen2.try_host (one_host "Connected") 1 (JArr [JStr "h1"; JStr "127.0.0.1"; JNum 58846])
      listed
    = (Rejected (Err ("Unknown daemon status: " ++ "h1")), w')
    /\ calls listed w' = [("web.get_host_status", [JStr "h1"])]
    /\ DAEMON_INFO w' = DAEMON_INFO listed.
Proof.
  apply (reported_host_is_given_up (one_host "Connected") 0 "h1" "Connected").
  - apply ready_listed.
  - apply listed_knows.
  - apply one_host_reports. discriminate.
  - discriminate.
  - discriminate.
  - discriminate.
Defined.
